(** * pyslac: the EVSE side of SLAC matching, [slac/session.py]

    A shallow embedding of [SlacSession] and [SlacEvseSession]: the session
    record, [reset], [evse_set_key], the sounding loop [cm_sounds_loop] with
    its helper [process_sound_frame], [cm_atten_char], [cm_slac_match] and
    [atten_charac_routine].

    Python objects are mutated in place, so every method is a function on a
    [World]: the session, the log of frames read and sent, and the number of
    clock readings taken.  The socket adapter, the clock and the entropy
    source are oracles indexed by the number of earlier calls.  A method
    yields a [result]: a value, or the exception it raises; the world is
    returned in both cases because mutations done before a [raise] stay. *)

From Stdlib Require Import ZArith QArith Qround Lia List.
From stdpp Require Import base list numbers.

Open Scope Z_scope.

(** ** Python values *)

(** [bytes]: a sequence of integers in [0, 256). *)
Definition bytes := list Z.

(** The exceptions that reach this file.  [CancelledError] derives from
    [BaseException] only, so [except Exception] lets it through. *)
Inductive exn : Type :=
| ValueError
| TimeoutError
| TypeError
| IndexError
| StructError
| OSError
| CancelledError.

Definition is_Exception (e : exn) : bool :=
  match e with
  | CancelledError => false
  | _ => true
  end.

Definition is_ValueError (e : exn) : bool :=
  match e with
  | ValueError => true
  | _ => false
  end.

Inductive result (A : Type) : Type :=
| Ok (a : A)
| Raise (e : exn).
Arguments Ok {A} a.
Arguments Raise {A} e.

(** ** [slac.enums] *)

(** [STATE_UNMATCHED], [STATE_MATCHING], [STATE_MATCHED]. *)
Inductive SlacState : Type :=
| STATE_UNMATCHED
| STATE_MATCHING
| STATE_MATCHED.

(** The members of the [FramesSizes] enumeration used in this file. *)
Inductive FramesSizes : Type :=
| CM_SET_KEY_CNF
| CM_SLAC_PARM_REQ
| CM_START_ATTEN_CHAR_IND
| CM_MNBC_SOUND_IND
| CM_ATTEN_PROFILE_IND
| CM_ATTEN_CHAR_RSP
| CM_SLAC_MATCH_REQ
| LINK_STATUS_CNF.

(** Modelled from the spec: the wire constants that [session.py] imports
    from [slac.enums].  EtherType and management message version, the
    message type categories and the base codes are the ones of the frame
    codec section; [SLAC_GROUPS] is also given by the comment on the [aag]
    field. *)
Definition ETH_TYPE_HPAV : Z := 0x88E1.
Definition HOMEPLUG_MMV : Z := 0x01.
Definition MMTYPE_REQ : Z := 0.
Definition MMTYPE_CNF : Z := 1.
Definition MMTYPE_IND : Z := 2.
Definition MMTYPE_RSP : Z := 3.
Definition CM_SET_KEY : Z := 0x6008.
Definition CM_SLAC_PARM : Z := 0x6064.
Definition CM_START_ATTEN_CHAR : Z := 0x6068.
Definition CM_ATTEN_CHAR : Z := 0x606C.
Definition CM_MNBC_SOUND : Z := 0x6074.
Definition CM_ATTEN_PROFILE : Z := 0x6084.
Definition CM_SLAC_MATCH : Z := 0x607C.
Definition SLAC_GROUPS : nat := 58.

(** ** [slac.layer_2_headers] and [slac.messages]: the decoded views *)

Record EthernetHeader : Type := {
  dst_mac : bytes;
  src_mac : bytes;
  ether_type : Z
}.

Record HomePlugHeader : Type := {
  mmv : Z;
  mm_type : Z;
  fmi : Z;
  fmsn : Z
}.

Record StartAtennChar : Type := {
  sac_application_type : Z;
  sac_security_type : Z;
  sac_num_sounds : Z;
  sac_time_out : Z;
  sac_resp_type : Z;
  sac_forwarding_sta : bytes;
  sac_run_id : bytes
}.

Record MnbcSound : Type := {
  ms_application_type : Z;
  ms_security_type : Z;
  ms_sender_id : bytes;
  ms_cnt : Z;
  ms_run_id : bytes;
  ms_rnd : bytes
}.

Record AttenProfile : Type := {
  ap_pev_mac : bytes;
  ap_num_groups : Z;
  ap_aag : list Z
}.

Record AtennCharRsp : Type := {
  acr_application_type : Z;
  acr_security_type : Z;
  acr_source_address : bytes;
  acr_run_id : bytes;
  acr_source_id : bytes;
  acr_resp_id : bytes;
  acr_result : Z
}.

Record MatchReq : Type := {
  mr_application_type : Z;
  mr_security_type : Z;
  mr_mvf_length : Z;
  mr_pev_id : bytes;
  mr_pev_mac : bytes;
  mr_evse_id : bytes;
  mr_evse_mac : bytes;
  mr_run_id : bytes
}.

Record SetKeyCnf : Type := {
  skc_result : Z;
  skc_my_nonce : bytes;
  skc_your_nonce : bytes;
  skc_pid : Z;
  skc_prn : Z;
  skc_pmn : Z;
  skc_cco_cap : Z
}.

(** What [session.py] imports besides: the remaining constants of
    [slac.enums], the helpers of [slac.utils] and the [from_bytes] decoders
    of [slac.layer_2_headers] and [slac.messages].  They are parameters of
    the development.  [EVSE_ID] stands for [bytes.fromhex(EVSE_ID)].
    [half_round] is applied to the quotient of two integers, a float in
    Python; the quotient is kept exact here. *)
Class Imports : Type := {
  EVSE_ID : bytes;
  EVSE_PLC_MAC : bytes;
  SLAC_MSOUNDS : Z;
  SLAC_ATTEN_TIMEOUT : Z;
  ATTEN_RESULTS_TIMEOUT : Z;
  SLAC_LIMIT : Z;
  SLAC_PAUSE : Z;
  SLAC_SETTLE_TIME : Z;
  SLAC_RESP_TYPE : Z;
  generate_nid : bytes -> bytes;
  half_round : Q -> Z;
  EthernetHeader_from_bytes : bytes -> result EthernetHeader;
  HomePlugHeader_from_bytes : bytes -> result HomePlugHeader;
  StartAtennChar_from_bytes : bytes -> result StartAtennChar;
  MnbcSound_from_bytes : bytes -> result MnbcSound;
  AttenProfile_from_bytes : bytes -> result AttenProfile;
  AtennCharRsp_from_bytes : bytes -> result AtennCharRsp;
  MatchReq_from_bytes : bytes -> result MatchReq;
  SetKeyCnf_from_bytes : bytes -> result SetKeyCnf
}.

(** ** [SlacSession] *)

(** The value of the [aag] attribute: a list of integers, or the
    [dataclasses.Field] object that a call of [field(...)] returns. *)
Inductive AagValue : Type :=
| AagList (l : list Z)
| DataclassField.

Record SlacSession : Type := {
  state : SlacState;
  nmk : bytes;
  nid : bytes;
  forwarding_sta : bytes;
  pev_id : option bytes;
  pev_mac : bytes;
  evse_id : bytes;
  evse_mac : bytes;
  run_id : bytes;
  application_type : Z;
  security_type : Z;
  num_start_attn_rcvd : Z;
  num_expected_sounds : option Z;
  num_total_sounds : Z;
  sounds : Z;
  time_out_ms : Z;
  aag : AagValue;
  num_groups : option Z;
  rnd : bytes;
  slac_threshold : Z;
  pause : Z;
  settle_time : Z;
  matching_process_task : option nat;
  mqtt_msg_counter : Z;
  (* added by SlacEvseSession.__init__ *)
  evse_plc_mac : bytes
}.

(** In-place assignment to one attribute. *)
Definition set_state (v : SlacState) (self : SlacSession) : SlacSession :=
  {| state := v; nmk := nmk self; nid := nid self;
     forwarding_sta := forwarding_sta self; pev_id := pev_id self;
     pev_mac := pev_mac self; evse_id := evse_id self;
     evse_mac := evse_mac self; run_id := run_id self;
     application_type := application_type self;
     security_type := security_type self;
     num_start_attn_rcvd := num_start_attn_rcvd self;
     num_expected_sounds := num_expected_sounds self;
     num_total_sounds := num_total_sounds self; sounds := sounds self;
     time_out_ms := time_out_ms self; aag := aag self;
     num_groups := num_groups self; rnd := rnd self;
     slac_threshold := slac_threshold self; pause := pause self;
     settle_time := settle_time self;
     matching_process_task := matching_process_task self;
     mqtt_msg_counter := mqtt_msg_counter self;
     evse_plc_mac := evse_plc_mac self |}.

Definition set_nmk (v : bytes) (self : SlacSession) : SlacSession :=
  {| state := state self; nmk := v; nid := nid self;
     forwarding_sta := forwarding_sta self; pev_id := pev_id self;
     pev_mac := pev_mac self; evse_id := evse_id self;
     evse_mac := evse_mac self; run_id := run_id self;
     application_type := application_type self;
     security_type := security_type self;
     num_start_attn_rcvd := num_start_attn_rcvd self;
     num_expected_sounds := num_expected_sounds self;
     num_total_sounds := num_total_sounds self; sounds := sounds self;
     time_out_ms := time_out_ms self; aag := aag self;
     num_groups := num_groups self; rnd := rnd self;
     slac_threshold := slac_threshold self; pause := pause self;
     settle_time := settle_time self;
     matching_process_task := matching_process_task self;
     mqtt_msg_counter := mqtt_msg_counter self;
     evse_plc_mac := evse_plc_mac self |}.

Definition set_nid (v : bytes) (self : SlacSession) : SlacSession :=
  {| state := state self; nmk := nmk self; nid := v;
     forwarding_sta := forwarding_sta self; pev_id := pev_id self;
     pev_mac := pev_mac self; evse_id := evse_id self;
     evse_mac := evse_mac self; run_id := run_id self;
     application_type := application_type self;
     security_type := security_type self;
     num_start_attn_rcvd := num_start_attn_rcvd self;
     num_expected_sounds := num_expected_sounds self;
     num_total_sounds := num_total_sounds self; sounds := sounds self;
     time_out_ms := time_out_ms self; aag := aag self;
     num_groups := num_groups self; rnd := rnd self;
     slac_threshold := slac_threshold self; pause := pause self;
     settle_time := settle_time self;
     matching_process_task := matching_process_task self;
     mqtt_msg_counter := mqtt_msg_counter self;
     evse_plc_mac := evse_plc_mac self |}.

Definition set_forwarding_sta (v : bytes) (self : SlacSession) : SlacSession :=
  {| state := state self; nmk := nmk self; nid := nid self;
     forwarding_sta := v; pev_id := pev_id self; pev_mac := pev_mac self;
     evse_id := evse_id self; evse_mac := evse_mac self;
     run_id := run_id self; application_type := application_type self;
     security_type := security_type self;
     num_start_attn_rcvd := num_start_attn_rcvd self;
     num_expected_sounds := num_expected_sounds self;
     num_total_sounds := num_total_sounds self; sounds := sounds self;
     time_out_ms := time_out_ms self; aag := aag self;
     num_groups := num_groups self; rnd := rnd self;
     slac_threshold := slac_threshold self; pause := pause self;
     settle_time := settle_time self;
     matching_process_task := matching_process_task self;
     mqtt_msg_counter := mqtt_msg_counter self;
     evse_plc_mac := evse_plc_mac self |}.

Definition set_pev_id (v : option bytes) (self : SlacSession) : SlacSession :=
  {| state := state self; nmk := nmk self; nid := nid self;
     forwarding_sta := forwarding_sta self; pev_id := v;
     pev_mac := pev_mac self; evse_id := evse_id self;
     evse_mac := evse_mac self; run_id := run_id self;
     application_type := application_type self;
     security_type := security_type self;
     num_start_attn_rcvd := num_start_attn_rcvd self;
     num_expected_sounds := num_expected_sounds self;
     num_total_sounds := num_total_sounds self; sounds := sounds self;
     time_out_ms := time_out_ms self; aag := aag self;
     num_groups := num_groups self; rnd := rnd self;
     slac_threshold := slac_threshold self; pause := pause self;
     settle_time := settle_time self;
     matching_process_task := matching_process_task self;
     mqtt_msg_counter := mqtt_msg_counter self;
     evse_plc_mac := evse_plc_mac self |}.

Definition set_pev_mac (v : bytes) (self : SlacSession) : SlacSession :=
  {| state := state self; nmk := nmk self; nid := nid self;
     forwarding_sta := forwarding_sta self; pev_id := pev_id self;
     pev_mac := v; evse_id := evse_id self; evse_mac := evse_mac self;
     run_id := run_id self; application_type := application_type self;
     security_type := security_type self;
     num_start_attn_rcvd := num_start_attn_rcvd self;
     num_expected_sounds := num_expected_sounds self;
     num_total_sounds := num_total_sounds self; sounds := sounds self;
     time_out_ms := time_out_ms self; aag := aag self;
     num_groups := num_groups self; rnd := rnd self;
     slac_threshold := slac_threshold self; pause := pause self;
     settle_time := settle_time self;
     matching_process_task := matching_process_task self;
     mqtt_msg_counter := mqtt_msg_counter self;
     evse_plc_mac := evse_plc_mac self |}.

Definition set_num_expected_sounds (v : option Z) (self : SlacSession) : SlacSession :=
  {| state := state self; nmk := nmk self; nid := nid self;
     forwarding_sta := forwarding_sta self; pev_id := pev_id self;
     pev_mac := pev_mac self; evse_id := evse_id self;
     evse_mac := evse_mac self; run_id := run_id self;
     application_type := application_type self;
     security_type := security_type self;
     num_start_attn_rcvd := num_start_attn_rcvd self;
     num_expected_sounds := v; num_total_sounds := num_total_sounds self;
     sounds := sounds self; time_out_ms := time_out_ms self; aag := aag self;
     num_groups := num_groups self; rnd := rnd self;
     slac_threshold := slac_threshold self; pause := pause self;
     settle_time := settle_time self;
     matching_process_task := matching_process_task self;
     mqtt_msg_counter := mqtt_msg_counter self;
     evse_plc_mac := evse_plc_mac self |}.

Definition set_num_total_sounds (v : Z) (self : SlacSession) : SlacSession :=
  {| state := state self; nmk := nmk self; nid := nid self;
     forwarding_sta := forwarding_sta self; pev_id := pev_id self;
     pev_mac := pev_mac self; evse_id := evse_id self;
     evse_mac := evse_mac self; run_id := run_id self;
     application_type := application_type self;
     security_type := security_type self;
     num_start_attn_rcvd := num_start_attn_rcvd self;
     num_expected_sounds := num_expected_sounds self; num_total_sounds := v;
     sounds := sounds self; time_out_ms := time_out_ms self; aag := aag self;
     num_groups := num_groups self; rnd := rnd self;
     slac_threshold := slac_threshold self; pause := pause self;
     settle_time := settle_time self;
     matching_process_task := matching_process_task self;
     mqtt_msg_counter := mqtt_msg_counter self;
     evse_plc_mac := evse_plc_mac self |}.

Definition set_time_out_ms (v : Z) (self : SlacSession) : SlacSession :=
  {| state := state self; nmk := nmk self; nid := nid self;
     forwarding_sta := forwarding_sta self; pev_id := pev_id self;
     pev_mac := pev_mac self; evse_id := evse_id self;
     evse_mac := evse_mac self; run_id := run_id self;
     application_type := application_type self;
     security_type := security_type self;
     num_start_attn_rcvd := num_start_attn_rcvd self;
     num_expected_sounds := num_expected_sounds self;
     num_total_sounds := num_total_sounds self; sounds := sounds self;
     time_out_ms := v; aag := aag self; num_groups := num_groups self;
     rnd := rnd self; slac_threshold := slac_threshold self;
     pause := pause self; settle_time := settle_time self;
     matching_process_task := matching_process_task self;
     mqtt_msg_counter := mqtt_msg_counter self;
     evse_plc_mac := evse_plc_mac self |}.

Definition set_aag (v : AagValue) (self : SlacSession) : SlacSession :=
  {| state := state self; nmk := nmk self; nid := nid self;
     forwarding_sta := forwarding_sta self; pev_id := pev_id self;
     pev_mac := pev_mac self; evse_id := evse_id self;
     evse_mac := evse_mac self; run_id := run_id self;
     application_type := application_type self;
     security_type := security_type self;
     num_start_attn_rcvd := num_start_attn_rcvd self;
     num_expected_sounds := num_expected_sounds self;
     num_total_sounds := num_total_sounds self; sounds := sounds self;
     time_out_ms := time_out_ms self; aag := v;
     num_groups := num_groups self; rnd := rnd self;
     slac_threshold := slac_threshold self; pause := pause self;
     settle_time := settle_time self;
     matching_process_task := matching_process_task self;
     mqtt_msg_counter := mqtt_msg_counter self;
     evse_plc_mac := evse_plc_mac self |}.

Definition set_num_groups (v : option Z) (self : SlacSession) : SlacSession :=
  {| state := state self; nmk := nmk self; nid := nid self;
     forwarding_sta := forwarding_sta self; pev_id := pev_id self;
     pev_mac := pev_mac self; evse_id := evse_id self;
     evse_mac := evse_mac self; run_id := run_id self;
     application_type := application_type self;
     security_type := security_type self;
     num_start_attn_rcvd := num_start_attn_rcvd self;
     num_expected_sounds := num_expected_sounds self;
     num_total_sounds := num_total_sounds self; sounds := sounds self;
     time_out_ms := time_out_ms self; aag := aag self; num_groups := v;
     rnd := rnd self; slac_threshold := slac_threshold self;
     pause := pause self; settle_time := settle_time self;
     matching_process_task := matching_process_task self;
     mqtt_msg_counter := mqtt_msg_counter self;
     evse_plc_mac := evse_plc_mac self |}.

(** ** The world around a session *)

(** A frame handed to the socket adapter: the arguments of the
    [EthernetHeader], [HomePlugHeader] and payload constructors whose
    [pack_big] images are concatenated.  Building and packing a frame is
    taken not to raise. *)
Inductive OutPayload : Type :=
| PSetKeyReq (nid new_key : bytes)
| PAtennChar (source_address run_id : bytes) (num_sounds : Z)
    (num_groups : option Z) (aag : AagValue)
| PMatchCnf (pev_mac evse_mac run_id nid nmk : bytes).

Record OutFrame : Type := {
  out_dst_mac : bytes;
  out_src_mac : bytes;
  out_mm_type : Z;
  out_payload : OutPayload
}.

(** The environment as oracles.  [readeth n size] is the outcome of the
    [n]-th awaited read (timeouts of [asyncio.wait_for] included),
    [sendeth n frame] the outcome of the [n]-th send, [time_now_ms n] the
    [n]-th clock reading and [urandom n] the [n]-th draw of 16 bytes.
    [asyncio_sleep n delay] is the outcome of the [await asyncio.sleep(delay)]
    that follows the [n]-th draw: it returns, or the task is cancelled
    while it waits.  The only sleep of the file is the one of
    [evse_set_key], which draws one key per call, so the number of keys
    drawn so far tells the sleeps apart. *)
Record Adapter : Type := {
  readeth : nat -> option FramesSizes -> result bytes;
  sendeth : nat -> OutFrame -> result unit;
  send_recv_eth : nat -> OutFrame -> FramesSizes -> result bytes;
  time_now_ms : nat -> Z;
  urandom : nat -> bytes;
  asyncio_sleep : nat -> Z -> result unit
}.

Record World : Type := {
  self : SlacSession;
  io : Adapter;
  rx : list (option FramesSizes * result bytes);
  tx : list OutFrame;
  ticks : nat;
  draws : nat
}.

Definition with_self (f : SlacSession -> SlacSession) (w : World) : World :=
  {| self := f (self w); io := io w; rx := rx w; tx := tx w;
     ticks := ticks w; draws := draws w |}.

(** A method: it may mutate the world and then returns or raises. *)
Definition M (A : Type) : Type := World -> result A * World.

Definition ret {A} (a : A) : M A := fun w => (Ok a, w).

Definition raise {A} (e : exn) : M A := fun w => (Raise e, w).

Definition bind {A B} (m : M A) (k : A -> M B) : M B := fun w =>
  match m w with
  | (Ok a, w1) => k a w1
  | (Raise e, w1) => (Raise e, w1)
  end.

Definition lift {A} (r : result A) : M A := fun w => (r, w).

Definition modify (f : SlacSession -> SlacSession) : M unit := fun w =>
  (Ok tt, with_self f w).

Notation "'do' x <- m ; k" := (bind m (fun x => k))
  (at level 10, x name, m at level 100, k at level 200).
Notation "'do' ' p <- m ; k" := (bind m (fun x => let 'p := x in k))
  (at level 10, p pattern, m at level 100, k at level 200).
Notation "'run' m ; k" := (bind m (fun _ => k))
  (at level 10, m at level 100, k at level 200).

Definition get_self : M SlacSession := fun w => (Ok (self w), w).

(** [try: body / except Exception: handler] where the handler ends in
    [return]; [rest] is the code after the statement. *)
Definition try_except_Exception {A R} (body : M A) (handler : M R)
    (rest : A -> M R) : M R := fun w =>
  match body w with
  | (Ok a, w1) => rest a w1
  | (Raise e, w1) => if is_Exception e then handler w1 else (Raise e, w1)
  end.

(** The three ways in which a call of the adapter or of the clock changes
    the world. *)
Definition log_read (size : option FramesSizes) (outcome : result bytes)
    (w : World) : World :=
  {| self := self w; io := io w; rx := rx w ++ [(size, outcome)];
     tx := tx w; ticks := ticks w; draws := draws w |}.

Definition log_send (frame : OutFrame) (w : World) : World :=
  {| self := self w; io := io w; rx := rx w; tx := tx w ++ [frame];
     ticks := ticks w; draws := draws w |}.

Definition tick (w : World) : World :=
  {| self := self w; io := io w; rx := rx w; tx := tx w;
     ticks := S (ticks w); draws := draws w |}.

(** [time_now_ms()] *)
Definition now : M Z := fun w =>
  (Ok (time_now_ms (io w) (ticks w)), tick w).

(** [os.urandom(16)] *)
Definition draw : M bytes := fun w =>
  (Ok (urandom (io w) (draws w)),
   {| self := self w; io := io w; rx := rx w; tx := tx w;
      ticks := ticks w; draws := S (draws w) |}).

(** [await asyncio.sleep(delay)] *)
Definition sleep (delay : Z) : M unit := fun w =>
  (asyncio_sleep (io w) (draws w) delay, w).

(** [SlacEvseSession.send_frame] *)
Definition send_frame (frame_to_send : OutFrame) : M unit := fun w =>
  match sendeth (io w) (length (tx w)) frame_to_send with
  | Ok _ => (Ok tt, log_send frame_to_send w)
  | Raise e => (Raise e, w)
  end.

(** [SlacEvseSession.rcv_frame]; the size may be [None] because the caller
    passes whatever [process_sound_frame] returned. *)
Definition rcv_frame (rcv_frame_size : option FramesSizes) : M bytes :=
  fun w =>
  let outcome := readeth (io w) (length (rx w)) rcv_frame_size in
  (outcome, log_read rcv_frame_size outcome w).

(** The call of [send_recv_eth] in [evse_set_key]. *)
Definition call_send_recv_eth (frame_to_send : OutFrame)
    (rcv_frame_size : FramesSizes) : M bytes := fun w =>
  let outcome :=
    send_recv_eth (io w) (length (rx w)) frame_to_send rcv_frame_size in
  (outcome, log_send frame_to_send (log_read (Some rcv_frame_size) outcome w)).

(** [a < b] where [b] may be [None]: Python 3 raises [TypeError]. *)
Definition lt_optional (a : Z) (b : option Z) : result bool :=
  match b with
  | Some b' => Ok (a <? b')
  | None => Raise TypeError
  end.

(** The local variables of [cm_sounds_loop]. *)
Record SoundsLocals : Type := {
  sounds_rcvd : Z;
  aag_sums : list Z;
  time_start : Z;
  next_frame_expected : option FramesSizes
}.

(** How [cm_sounds_loop] returns: from the handler of the read, or after
    the check of time and count.  Python returns [None] in both cases; the
    tag only names the [return] statement. *)
Inductive SoundsReturn : Type :=
| ReturnFromHandler
| ReturnAfterCheck.

Inductive LoopStep : Type :=
| Continue (locals : SoundsLocals)
| Return (how : SoundsReturn).

(** A run of the loop is either still going after the iterations allowed,
    or it has left the loop by [return] or by an exception. *)
Inductive Run (A : Type) : Type :=
| Running (w : World)
| Stopped (r : result A) (w : World).
Arguments Running {A} w.
Arguments Stopped {A} r w.

Section Session.
Context `{Imports}.

(** [SlacSession.reset]. *)
Definition reset (self : SlacSession) : SlacSession := {|
  state := STATE_UNMATCHED;
  nmk := nmk self;
  nid := nid self;
  forwarding_sta := [];
  pev_id := None;
  pev_mac := [];
  evse_id := EVSE_ID;
  evse_mac := [];
  run_id := [];
  application_type := 0x00;
  security_type := 0x00;
  num_start_attn_rcvd := 0;
  num_expected_sounds := None;
  num_total_sounds := 0;
  sounds := SLAC_MSOUNDS;
  time_out_ms := SLAC_ATTEN_TIMEOUT;
  aag := DataclassField;
  num_groups := None;
  rnd := repeat 0 17;
  slac_threshold := SLAC_LIMIT;
  pause := SLAC_PAUSE;
  settle_time := SLAC_SETTLE_TIME;
  matching_process_task := None;
  mqtt_msg_counter := mqtt_msg_counter self;
  evse_plc_mac := evse_plc_mac self
|}.

(** The [CM_SET_KEY.REQ] frame built by [evse_set_key]. *)
Definition set_key_req (s : SlacSession) (nid' nmk' : bytes) : OutFrame :=
  {| out_dst_mac := evse_plc_mac s; out_src_mac := evse_mac s;
     out_mm_type := Z.lor CM_SET_KEY MMTYPE_REQ;
     out_payload := PSetKeyReq nid' nmk' |}.

(** [SlacEvseSession.evse_set_key].  The [try] block holds the decoding
    and the two assignments and catches [ValueError]; the sleep comes after
    it, so it is reached with the new keys stored, and what it raises
    leaves the method. *)
Definition evse_set_key : M bytes :=
  do nmk' <- draw;
  let nid' := generate_nid nmk' in
  do s <- get_self;
  let frame_to_send := set_key_req s nid' nmk' in
  do payload_rcvd <- call_send_recv_eth frame_to_send CM_SET_KEY_CNF;
  match SetKeyCnf_from_bytes payload_rcvd with
  | Ok _ =>
      run modify (set_nmk nmk');
      run modify (set_nid nid');
      run sleep SLAC_SETTLE_TIME;
      ret payload_rcvd
  | Raise e =>
      if is_ValueError e then ret payload_rcvd else raise e
  end.

(** [SlacEvseSession.leave_logical_network] *)
Definition leave_logical_network : M unit :=
  run evse_set_key;
  modify reset.

(** [SlacEvseSession.cm_start_atten_charac] *)
Definition cm_start_atten_charac : M unit :=
  try_except_Exception
    (do data_rcvd <- rcv_frame (Some CM_START_ATTEN_CHAR_IND);
     do _ <- lift (EthernetHeader_from_bytes data_rcvd);
     do homeplug_frame <- lift (HomePlugHeader_from_bytes data_rcvd);
     do start_atten_char <- lift (StartAtennChar_from_bytes data_rcvd);
     ret (homeplug_frame, start_atten_char))
    (modify (set_state STATE_UNMATCHED))
    (fun '(homeplug_frame, start_atten_char) =>
     do s <- get_self;
     if negb (application_type s =? sac_application_type start_atten_char)
        || negb (security_type s =? sac_security_type start_atten_char)
        || negb (bool_decide (run_id s = sac_run_id start_atten_char))
        || negb (sac_resp_type start_atten_char =? SLAC_RESP_TYPE)
        || negb (mm_type homeplug_frame
                 =? Z.lor CM_START_ATTEN_CHAR MMTYPE_IND)
     then modify (set_state STATE_UNMATCHED)
     else
       run modify (set_num_expected_sounds
                     (Some (sac_num_sounds start_atten_char)));
       run modify (set_time_out_ms (ATTEN_RESULTS_TIMEOUT * 100));
       modify (set_forwarding_sta (sac_forwarding_sta start_atten_char))).

(** The loop [for group in range(n): aag[group] += profile[group]] of
    [process_sound_frame]; an index outside either list raises. *)
Fixpoint add_groups (groups : list nat) (profile : list Z) (aag : list Z)
    : result (list Z) :=
  match groups with
  | [] => Ok aag
  | group :: rest =>
      match aag !! group, profile !! group with
      | Some a, Some p => add_groups rest profile (<[group := a + p]> aag)
      | _, _ => Raise IndexError
      end
  end.

(** [range(n)] for an integer [n]; empty when [n <= 0]. *)
Definition range (n : Z) : list nat := seq 0 (Z.to_nat n).

(** [SlacEvseSession.process_sound_frame].  The list [aag] is the caller's
    local accumulator, mutated in place: the updated list is returned next
    to the size.  When the method raises, the exception leaves
    [cm_sounds_loop] as well and the accumulator is unreachable. *)
Definition process_sound_frame (homeplug_frame : HomePlugHeader)
    (ether_frame : EthernetHeader) (data_rcvd : bytes) (sounds_rcvd : Z)
    (aag : list Z) : M (option FramesSizes * list Z) :=
  if mm_type homeplug_frame =? Z.lor CM_MNBC_SOUND MMTYPE_IND then
    do mnbc_sound_ind <- lift (MnbcSound_from_bytes data_rcvd);
    do s <- get_self;
    if bool_decide (run_id s = ms_run_id mnbc_sound_ind) then
      if negb (bool_decide (pev_mac s = src_mac ether_frame)) then
        raise ValueError
      else ret (Some CM_ATTEN_PROFILE_IND, aag)
    else ret (Some CM_ATTEN_PROFILE_IND, aag)
  else if mm_type homeplug_frame =? Z.lor CM_ATTEN_PROFILE MMTYPE_IND then
    do atten_profile_ind <- lift (AttenProfile_from_bytes data_rcvd);
    do s <- get_self;
    if bool_decide (pev_mac s = ap_pev_mac atten_profile_ind) then
      do aag' <- lift (add_groups (range (ap_num_groups atten_profile_ind))
                         (ap_aag atten_profile_ind) aag);
      run modify (set_num_groups (Some (ap_num_groups atten_profile_ind)));
      run modify (fun s => set_num_total_sounds (num_total_sounds s + 1) s);
      ret (Some CM_MNBC_SOUND_IND, aag')
    else ret (Some CM_MNBC_SOUND_IND, aag)
  else ret (None, aag).

(** The loop [for group in range(SLAC_GROUPS): self.aag[group] =
    hw(aag[group] / self.num_total_sounds)] of [cm_sounds_loop]. *)
Fixpoint average_groups (groups : list nat) (aag : list Z) (n : Z)
    (self_aag : AagValue) : result AagValue :=
  match groups with
  | [] => Ok self_aag
  | group :: rest =>
      match aag !! group with
      | None => Raise IndexError
      | Some total =>
          let v := half_round (inject_Z total / inject_Z n)%Q in
          match self_aag with
          | DataclassField => Raise TypeError
          | AagList l =>
              if bool_decide (group < length l)%nat
              then average_groups rest aag n (AagList (<[group := v]> l))
              else Raise IndexError
          end
      end
  end.

(** One iteration of [while True] in [cm_sounds_loop]. *)
Definition sounds_iteration (locals : SoundsLocals) : M LoopStep :=
  try_except_Exception
    (do data_rcvd <- rcv_frame (next_frame_expected locals);
     do ether_frame <- lift (EthernetHeader_from_bytes data_rcvd);
     do homeplug_frame <- lift (HomePlugHeader_from_bytes data_rcvd);
     ret (data_rcvd, ether_frame, homeplug_frame))
    (run modify (set_state STATE_UNMATCHED);
     ret (Return ReturnFromHandler))
    (fun '(data_rcvd, ether_frame, homeplug_frame) =>
     if (ether_type ether_frame =? ETH_TYPE_HPAV)
        && (mmv homeplug_frame =? HOMEPLUG_MMV)
     then
       do '(next_size, aag') <-
         process_sound_frame homeplug_frame ether_frame data_rcvd
           (sounds_rcvd locals) (aag_sums locals);
       do t <- now;
       let time_elapsed := t - time_start locals in
       do s <- get_self;
       do go_on <-
         lift (if time_elapsed <? time_out_ms s
               then lt_optional (num_total_sounds s) (num_expected_sounds s)
               else Ok false);
       if go_on : bool then
         ret (Continue {| sounds_rcvd := sounds_rcvd locals;
                          aag_sums := aag';
                          time_start := time_start locals;
                          next_frame_expected := next_size |})
       else
         run (if 0 <? num_total_sounds s then
                do averaged <-
                  lift (average_groups (seq 0 SLAC_GROUPS) aag'
                          (num_total_sounds s) (aag s));
                modify (set_aag averaged)
              else ret tt);
         ret (Return ReturnAfterCheck)
     else ret (Continue locals)).

Fixpoint sounds_while (fuel : nat) (locals : SoundsLocals) (w : World)
    : Run SoundsReturn :=
  match fuel with
  | O => Running w
  | S fuel' =>
      match sounds_iteration locals w with
      | (Ok (Continue locals'), w1) => sounds_while fuel' locals' w1
      | (Ok (Return how), w1) => Stopped (Ok how) w1
      | (Raise e, w1) => Stopped (Raise e) w1
      end
  end.

(** The statements of [cm_sounds_loop] before [while True]. *)
Definition sounds_prologue : M SoundsLocals :=
  run modify (set_aag (AagList (repeat 0 SLAC_GROUPS)));
  do t <- now;
  run modify (set_num_total_sounds 0);
  ret {| sounds_rcvd := 0;
         aag_sums := repeat 0 SLAC_GROUPS;
         time_start := t;
         next_frame_expected := Some CM_MNBC_SOUND_IND |}.

(** [SlacEvseSession.cm_sounds_loop], with at most [fuel] iterations. *)
Definition cm_sounds_loop (fuel : nat) (w : World) : Run SoundsReturn :=
  match sounds_prologue w with
  | (Ok locals, w0) => sounds_while fuel locals w0
  | (Raise e, w0) => Stopped (Raise e) w0
  end.

(** The [CM_ATTEN_CHAR.IND] frame built by [cm_atten_char]. *)
Definition atten_char_ind (s : SlacSession) : OutFrame :=
  {| out_dst_mac := pev_mac s; out_src_mac := evse_mac s;
     out_mm_type := Z.lor CM_ATTEN_CHAR MMTYPE_IND;
     out_payload := PAtennChar (pev_mac s) (run_id s)
                      (num_total_sounds s) (num_groups s) (aag s) |}.

(** [SlacEvseSession.cm_atten_char] *)
Definition cm_atten_char : M unit :=
  do s <- get_self;
  let frame_to_send := atten_char_ind s in
  run send_frame frame_to_send;
  try_except_Exception
    (do data_rcvd <- rcv_frame (Some CM_ATTEN_CHAR_RSP);
     do ether_frame <- lift (EthernetHeader_from_bytes data_rcvd);
     do homeplug_frame <- lift (HomePlugHeader_from_bytes data_rcvd);
     do atten_charac_response <- lift (AtennCharRsp_from_bytes data_rcvd);
     ret (ether_frame, homeplug_frame, atten_charac_response))
    (modify (set_state STATE_UNMATCHED))
    (fun '(ether_frame, homeplug_frame, atten_charac_response) =>
     do s <- get_self;
     run (if negb (ether_type ether_frame =? ETH_TYPE_HPAV)
             || negb (mmv homeplug_frame =? HOMEPLUG_MMV)
             || negb (bool_decide
                        (run_id s = acr_run_id atten_charac_response))
          then modify (set_state STATE_UNMATCHED)
          else ret tt);
     if negb (acr_result atten_charac_response =? 0)
     then modify (set_state STATE_UNMATCHED)
     else ret tt).

(** The [CM_SLAC_MATCH.CNF] frame built by [cm_slac_match]. *)
Definition slac_match_cnf (s : SlacSession) : OutFrame :=
  {| out_dst_mac := pev_mac s; out_src_mac := evse_mac s;
     out_mm_type := Z.lor CM_SLAC_MATCH MMTYPE_CNF;
     out_payload := PMatchCnf (pev_mac s) (evse_mac s) (run_id s)
                      (nid s) (nmk s) |}.

(** [SlacEvseSession.cm_slac_match] *)
Definition cm_slac_match : M unit :=
  try_except_Exception
    (do data_rcvd <- rcv_frame (Some CM_SLAC_MATCH_REQ);
     do ether_frame <- lift (EthernetHeader_from_bytes data_rcvd);
     do homeplug_frame <- lift (HomePlugHeader_from_bytes data_rcvd);
     do slac_match_req <- lift (MatchReq_from_bytes data_rcvd);
     ret (ether_frame, homeplug_frame, slac_match_req))
    (modify (set_state STATE_UNMATCHED))
    (fun '(ether_frame, homeplug_frame, slac_match_req) =>
     do s <- get_self;
     if negb (ether_type ether_frame =? ETH_TYPE_HPAV)
        || negb (mmv homeplug_frame =? HOMEPLUG_MMV)
        || negb (mm_type homeplug_frame =? Z.lor CM_SLAC_MATCH MMTYPE_REQ)
        || negb (bool_decide (mr_run_id slac_match_req = run_id s))
     then raise ValueError
     else
       run modify (set_pev_id (Some (mr_pev_id slac_match_req)));
       run modify (set_pev_mac (mr_pev_mac slac_match_req));
       do s <- get_self;
       let frame_to_send := slac_match_cnf s in
       run send_frame frame_to_send;
       modify (set_state STATE_MATCHED)).

(** [SlacEvseSession.atten_charac_routine]; [None] when the sounding loop
    is still going after [fuel] iterations. *)
Definition atten_charac_routine (fuel : nat) (w : World)
    : option (result unit * World) :=
  match cm_start_atten_charac w with
  | (Raise e, w1) => Some (Raise e, w1)
  | (Ok _, w1) =>
      match cm_sounds_loop fuel w1 with
      | Running _ => None
      | Stopped (Raise e) w2 => Some (Raise e, w2)
      | Stopped (Ok _) w2 =>
          Some ((run cm_atten_char; cm_slac_match) w2)
      end
  end.

End Session.

(** ** The wire format

    The theorems below hold for any decoders.  The decoders here follow the
    layout table of the specification and serve to run the methods on
    concrete frames; [wire_SetKeyCnf] is also the decoder that the theorem
    on [evse_set_key] assumes. *)

Definition slice (off len : nat) (b : bytes) : bytes := take len (drop off b).

Definition int_from_bytes_big (b : bytes) : Z :=
  fold_left (fun acc x => acc * 256 + x) b 0.

Definition int_from_bytes_little (b : bytes) : Z :=
  int_from_bytes_big (rev b).

Definition byte_at (off : nat) (b : bytes) : Z := nth off b 0.

(** A decoder fails when the frame is shorter than the layout. *)
Definition decode {A} (need : nat) (b : bytes) (v : A) : result A :=
  if (length b <? need)%nat then Raise ValueError else Ok v.

(** Modelled from the spec: [EthernetHeader.from_bytes], 14 bytes,
    [dst_mac(6) | src_mac(6) | ethertype(2, big-endian)]. *)
Definition wire_EthernetHeader (b : bytes) : result EthernetHeader :=
  decode 14 b {| dst_mac := slice 0 6 b; src_mac := slice 6 6 b;
                 ether_type := int_from_bytes_big (slice 12 2 b) |}.

(** Modelled from the spec: [HomePlugHeader.from_bytes], 5 bytes after the
    Ethernet header, [mmv(1) | mm_type(2, little-endian) | fmi(1) |
    fmsn(1)]. *)
Definition wire_HomePlugHeader (b : bytes) : result HomePlugHeader :=
  decode 19 b {| mmv := byte_at 14 b;
                 mm_type := int_from_bytes_little (slice 15 2 b);
                 fmi := byte_at 17 b; fmsn := byte_at 18 b |}.

(** Modelled from the spec: [StartAtennChar.from_bytes], 19 bytes of
    payload, [application_type(1) | security_type(1) | num_sounds(1) |
    time_out(1) | resp_type(1) | forwarding_sta(6) | run_id(8)]. *)
Definition wire_StartAtennChar (b : bytes) : result StartAtennChar :=
  decode 38 b {| sac_application_type := byte_at 19 b;
                 sac_security_type := byte_at 20 b;
                 sac_num_sounds := byte_at 21 b;
                 sac_time_out := byte_at 22 b;
                 sac_resp_type := byte_at 23 b;
                 sac_forwarding_sta := slice 24 6 b;
                 sac_run_id := slice 30 8 b |}.

(** Modelled from the spec: [MnbcSound.from_bytes], 52 bytes of payload,
    [application_type(1) | security_type(1) | sender_id(17) | cnt(1) |
    run_id(8) | rsvd(8) | rnd(16)]. *)
Definition wire_MnbcSound (b : bytes) : result MnbcSound :=
  decode 71 b {| ms_application_type := byte_at 19 b;
                 ms_security_type := byte_at 20 b;
                 ms_sender_id := slice 21 17 b;
                 ms_cnt := byte_at 38 b;
                 ms_run_id := slice 39 8 b;
                 ms_rnd := slice 55 16 b |}.

(** Modelled from the spec: [AttenProfile.from_bytes], [pev_mac(6) |
    num_groups(1) | rsvd(1) | aag[num_groups]]. *)
Definition wire_AttenProfile (b : bytes) : result AttenProfile :=
  let n := Z.to_nat (byte_at 25 b) in
  decode (27 + n) b {| ap_pev_mac := slice 19 6 b;
                       ap_num_groups := byte_at 25 b;
                       ap_aag := slice 27 n b |}.

(** Modelled from the spec: [AtennCharRsp.from_bytes], 51 bytes of payload,
    [application_type(1) | security_type(1) | source_addr(6) | run_id(8) |
    source_id(17) | resp_id(17) | result(1)]. *)
Definition wire_AtennCharRsp (b : bytes) : result AtennCharRsp :=
  decode 70 b {| acr_application_type := byte_at 19 b;
                 acr_security_type := byte_at 20 b;
                 acr_source_address := slice 21 6 b;
                 acr_run_id := slice 27 8 b;
                 acr_source_id := slice 35 17 b;
                 acr_resp_id := slice 52 17 b;
                 acr_result := byte_at 69 b |}.

(** Modelled from the spec: [MatchReq.from_bytes], 66 bytes of payload,
    [application_type(1) | security_type(1) | mvf_length(2) | pev_id(17) |
    pev_mac(6) | evse_id(17) | evse_mac(6) | run_id(8) | rsvd(8)]. *)
Definition wire_MatchReq (b : bytes) : result MatchReq :=
  decode 85 b {| mr_application_type := byte_at 19 b;
                 mr_security_type := byte_at 20 b;
                 mr_mvf_length := int_from_bytes_big (slice 21 2 b);
                 mr_pev_id := slice 23 17 b;
                 mr_pev_mac := slice 40 6 b;
                 mr_evse_id := slice 46 17 b;
                 mr_evse_mac := slice 63 6 b;
                 mr_run_id := slice 69 8 b |}.

(** Modelled from the spec: [SetKeyCnf.from_bytes], [result(1) |
    my_nonce(4) | your_nonce(4) | pid(1) | prn(2) | pmn(1) | cco_cap(1)]
    after the two headers.  The confirmation is taken when it parses and
    its result is not [0xFF]; the caller catches [ValueError], so that is
    what a refused confirmation raises. *)
Definition wire_SetKeyCnf (b : bytes) : result SetKeyCnf :=
  if (length b <? 33)%nat then Raise ValueError
  else if byte_at 19 b =? 0xFF then Raise ValueError
  else Ok {| skc_result := byte_at 19 b;
             skc_my_nonce := slice 20 4 b;
             skc_your_nonce := slice 24 4 b;
             skc_pid := byte_at 28 b;
             skc_prn := int_from_bytes_big (slice 29 2 b);
             skc_pmn := byte_at 31 b;
             skc_cco_cap := byte_at 32 b |}.

(** Modelled from the spec: the image of [pack_big] for the two headers
    followed by a payload, used to write down received frames. *)
Definition wire_frame (dst src : bytes) (ethertype mmv mmtype : Z)
    (payload : bytes) : bytes :=
  dst ++ src ++ [ethertype / 256; ethertype mod 256]
      ++ [mmv; mmtype mod 256; mmtype / 256; 0; 0] ++ payload.

(** Modelled from the spec: values for what [slac.enums] and [slac.utils]
    provide.  [SLAC_MSOUNDS], the advertised time out, the response type,
    the 900 ms sounding window and the 10 s settle time are the nominal
    values of the specification; the station identifier, the modem
    address, the attenuation limit and the pause are deployment settings
    with a value chosen here.  The hash behind [generate_nid] is not
    modelled: the sample keeps seven bytes of the key and clears the two top
    bits of the last one.  [half_round] rounds a half upwards. *)
Definition sample_generate_nid (nmk : bytes) : bytes :=
  match rev (take 7 nmk) with
  | last :: front => rev front ++ [Z.land last 0x3F]
  | [] => []
  end.

Definition sample_half_round (q : Q) : Z := Qfloor (q + (1 # 2))%Q.

Definition sample_imports : Imports := {|
  EVSE_ID := repeat 0x30 17;
  EVSE_PLC_MAC := [0x00; 0xB0; 0x52; 0x00; 0x00; 0x01];
  SLAC_MSOUNDS := 10;
  SLAC_ATTEN_TIMEOUT := 6;
  ATTEN_RESULTS_TIMEOUT := 9;
  SLAC_LIMIT := 40;
  SLAC_PAUSE := 20;
  SLAC_SETTLE_TIME := 10;
  SLAC_RESP_TYPE := 1;
  generate_nid := sample_generate_nid;
  half_round := sample_half_round;
  EthernetHeader_from_bytes := wire_EthernetHeader;
  HomePlugHeader_from_bytes := wire_HomePlugHeader;
  StartAtennChar_from_bytes := wire_StartAtennChar;
  MnbcSound_from_bytes := wire_MnbcSound;
  AttenProfile_from_bytes := wire_AttenProfile;
  AtennCharRsp_from_bytes := wire_AtennCharRsp;
  MatchReq_from_bytes := wire_MatchReq;
  SetKeyCnf_from_bytes := wire_SetKeyCnf
|}.

(** ** A sample session and sample frames *)

Definition sample_evse_mac : bytes := [0x02; 0x00; 0x00; 0x00; 0x00; 0x01].
Definition sample_pev_mac : bytes := [0x02; 0x00; 0x00; 0x00; 0x00; 0x02].
Definition other_mac : bytes := [0x02; 0x00; 0x00; 0x00; 0x00; 0x03].
Definition sample_run_id : bytes := [1; 2; 3; 4; 5; 6; 7; 8].
Definition other_run_id : bytes := [9; 9; 9; 9; 9; 9; 9; 9].
Definition sample_nmk : bytes := repeat 0xAA 16.

(** The session as it is after [evse_slac_parm] has accepted a
    [CM_SLAC_PARM.REQ]: state Matching, run identifier and PEV address
    learned, and the host address that [SlacEvseSession.__init__] stored. *)
Definition matching_session : SlacSession := {|
  state := STATE_MATCHING;
  nmk := sample_nmk;
  nid := sample_generate_nid sample_nmk;
  forwarding_sta := sample_pev_mac;
  pev_id := None;
  pev_mac := sample_pev_mac;
  evse_id := repeat 0x30 17;
  evse_mac := sample_evse_mac;
  run_id := sample_run_id;
  application_type := 0;
  security_type := 0;
  num_start_attn_rcvd := 0;
  num_expected_sounds := None;
  num_total_sounds := 0;
  sounds := 10;
  time_out_ms := 6;
  aag := AagList (repeat 0 SLAC_GROUPS);
  num_groups := None;
  rnd := repeat 0 17;
  slac_threshold := 40;
  pause := 20;
  settle_time := 10;
  matching_process_task := Some 1%nat;
  mqtt_msg_counter := 0;
  evse_plc_mac := [0x00; 0xB0; 0x52; 0x00; 0x00; 0x01]
|}.

(** [CM_START_ATTEN_CHAR.IND] announcing [num_sounds] sounds. *)
Definition start_atten_frame (num_sounds : Z) : bytes :=
  wire_frame sample_evse_mac sample_pev_mac ETH_TYPE_HPAV HOMEPLUG_MMV
    (Z.lor CM_START_ATTEN_CHAR MMTYPE_IND)
    ([0; 0; num_sounds; 6; 1] ++ sample_pev_mac ++ sample_run_id
       ++ repeat 0 22).

(** [CM_MNBC_SOUND.IND] sent from [src] for the run [rid]. *)
Definition mnbc_frame (src rid : bytes) (cnt : Z) : bytes :=
  wire_frame sample_evse_mac src ETH_TYPE_HPAV HOMEPLUG_MMV
    (Z.lor CM_MNBC_SOUND MMTYPE_IND)
    ([0; 0] ++ repeat 0 17 ++ [cnt] ++ rid ++ repeat 0 8 ++ repeat 0 16).

(** [CM_ATTEN_PROFILE.IND] from the modem, with every group at [level]. *)
Definition profile_frame (pev : bytes) (groups : nat) (level : Z) : bytes :=
  wire_frame sample_evse_mac [0x00; 0xB0; 0x52; 0x00; 0x00; 0x01]
    ETH_TYPE_HPAV HOMEPLUG_MMV (Z.lor CM_ATTEN_PROFILE MMTYPE_IND)
    (pev ++ [Z.of_nat groups; 0] ++ repeat level groups).

(** [CM_ATTEN_CHAR.RSP] for the run [rid] with the given result byte. *)
Definition atten_rsp_frame (rid : bytes) (res : Z) : bytes :=
  wire_frame sample_evse_mac sample_pev_mac ETH_TYPE_HPAV HOMEPLUG_MMV
    (Z.lor CM_ATTEN_CHAR MMTYPE_RSP)
    ([0; 0] ++ sample_pev_mac ++ rid ++ repeat 0 17 ++ repeat 0 17 ++ [res]).

(** [CM_SLAC_MATCH.REQ] for the run [rid]. *)
Definition match_req_frame (rid : bytes) : bytes :=
  wire_frame sample_evse_mac sample_pev_mac ETH_TYPE_HPAV HOMEPLUG_MMV
    (Z.lor CM_SLAC_MATCH MMTYPE_REQ)
    ([0; 0; 0; 0x3E] ++ repeat 0x31 17 ++ sample_pev_mac ++ repeat 0x30 17
       ++ sample_evse_mac ++ rid ++ repeat 0 8).

(** A frame of another protocol (EtherType IPv4), padded to 60 bytes. *)
Definition foreign_frame : bytes :=
  wire_frame sample_evse_mac other_mac 0x0800 0x45 0 (repeat 0 41).

(** A HomePlug frame of version 1 that is neither a sound nor a profile:
    [CM_SLAC_PARM.REQ]. *)
Definition parm_req_frame : bytes :=
  wire_frame sample_evse_mac sample_pev_mac ETH_TYPE_HPAV HOMEPLUG_MMV
    (Z.lor CM_SLAC_PARM MMTYPE_REQ) ([0; 0] ++ sample_run_id ++ repeat 0 31).

(** [CM_SET_KEY.CNF] from the modem with the given result byte. *)
Definition set_key_cnf_frame (res : Z) : bytes :=
  wire_frame sample_evse_mac [0x00; 0xB0; 0x52; 0x00; 0x00; 0x01]
    ETH_TYPE_HPAV HOMEPLUG_MMV (Z.lor CM_SET_KEY MMTYPE_CNF)
    ([res] ++ repeat 0 13 ++ repeat 0 27).

(** An adapter that plays the frames of a script in order, whatever size
    is asked for, and then times out; sends succeed, the clock shows the
    readings of [times] and then [late]. *)
Definition scripted (frames : list (result bytes)) (times : list Z)
    (late : Z) : Adapter := {|
  readeth := fun n _ => nth n frames (Raise TimeoutError);
  sendeth := fun _ _ => Ok tt;
  send_recv_eth := fun n _ _ => nth n frames (Raise TimeoutError);
  time_now_ms := fun n => nth n times late;
  urandom := fun n => repeat (Z.of_nat n + 0x10) 16;
  asyncio_sleep := fun _ _ => Ok tt
|}.

Definition world_of (s : SlacSession) (a : Adapter) : World :=
  {| self := s; io := a; rx := []; tx := []; ticks := 0; draws := 0 |}.

(** ** Statements in the words of the specification *)

(** The [CM_SET_KEY.CNF] parses and its result field is not [0xFF]. *)
Definition set_key_confirmed (payload : bytes) : bool :=
  (33 <=? length payload)%nat && negb (byte_at 19 payload =? 0xFF).

Section Words.
Context `{Imports}.

(** The profile carried by a read, when the frame is a
    [CM_ATTEN_PROFILE.IND] of HomePlug version 1 whose [pev_mac] field is
    the session's: the frames whose values are added up. *)
Definition accepted_profile (pev : bytes) (outcome : result bytes)
    : option AttenProfile :=
  match outcome with
  | Raise _ => None
  | Ok data =>
      match EthernetHeader_from_bytes data,
            HomePlugHeader_from_bytes data with
      | Ok eth, Ok hp =>
          if (ether_type eth =? ETH_TYPE_HPAV)
             && (mmv hp =? HOMEPLUG_MMV)
             && (mm_type hp =? Z.lor CM_ATTEN_PROFILE MMTYPE_IND)
          then match AttenProfile_from_bytes data with
               | Ok p =>
                   if bool_decide (pev = ap_pev_mac p) then Some p else None
               | Raise _ => None
               end
          else None
      | _, _ => None
      end
  end.


(** What one profile adds to a group: its value for the groups it has. *)
Definition contribution (group : nat) (p : AttenProfile) : Z :=
  if Z.of_nat group <? ap_num_groups p then nth group (ap_aag p) 0 else 0.

(** The sum of a group over the accepted profiles. *)
Fixpoint group_sum (group : nat) (ps : list AttenProfile) : Z :=
  match ps with
  | [] => 0
  | p :: rest => contribution group p + group_sum group rest
  end.


(** The sums of all groups, as the accumulator of the loop holds them. *)
Definition sums_of (ps : list AttenProfile) : list Z :=
  (fun group => group_sum group ps) <$> seq 0 SLAC_GROUPS.

(** The effect of one received frame on the accumulator and the counter. *)
Definition accumulated (profile : option AttenProfile)
    (sums sums' : list Z) (total total' : Z) : Prop :=
  match profile with
  | Some p =>
      add_groups (range (ap_num_groups p)) (ap_aag p) sums = Ok sums' /\
      total' = total + 1
  | None => sums' = sums /\ total' = total
  end.

(** What one iteration of the sounding loop does, by the way it ends. *)
Definition iteration_summary (locals : SoundsLocals) (w : World)
    (r : result LoopStep) (w1 : World) : Prop :=
  let outcome :=
    readeth (io w) (length (rx w)) (next_frame_expected locals) in
  let profile := accepted_profile (pev_mac (self w)) outcome in
  let elapsed := time_now_ms (io w) (ticks w) - time_start locals in
  let total := num_total_sounds (self w) in
  let total' := num_total_sounds (self w1) in
  io w1 = io w /\
  rx w1 = rx w ++ [(next_frame_expected locals, outcome)] /\
  pev_mac (self w1) = pev_mac (self w) /\
  num_expected_sounds (self w1) = num_expected_sounds (self w) /\
  time_out_ms (self w1) = time_out_ms (self w) /\
  match r with
  | Ok (Continue locals') =>
      time_start locals' = time_start locals /\
      aag (self w1) = aag (self w) /\
      accumulated profile (aag_sums locals) (aag_sums locals') total total' /\
      ((ticks w1 = ticks w /\ locals' = locals /\ total' = total) \/
       (ticks w1 = S (ticks w) /\ elapsed < time_out_ms (self w) /\
        exists e, num_expected_sounds (self w) = Some e /\ total' < e))
  | Ok (Return ReturnAfterCheck) =>
      ticks w1 = S (ticks w) /\
      (time_out_ms (self w) <= elapsed \/
       exists e, num_expected_sounds (self w) = Some e /\ e <= total') /\
      exists sums',
        accumulated profile (aag_sums locals) sums' total total' /\
        if 0 <? total'
        then average_groups (seq 0 SLAC_GROUPS) sums' total' (aag (self w))
               = Ok (aag (self w1))
        else aag (self w1) = aag (self w)
  | Ok (Return ReturnFromHandler) =>
      total' = total /\ state (self w1) = STATE_UNMATCHED
  | Raise _ => total <= total' <= total + 1
  end.

(** Every read from now on yields a frame whose headers decode and that
    is not a HomePlug frame of version 1. *)
Definition foreign_from (w : World) : Prop :=
  forall n size, (length (rx w) <= n)%nat ->
    exists data eth hp,
      readeth (io w) n size = Ok data /\
      EthernetHeader_from_bytes data = Ok eth /\
      HomePlugHeader_from_bytes data = Ok hp /\
      (ether_type eth =? ETH_TYPE_HPAV) && (mmv hp =? HOMEPLUG_MMV) = false.

End Words.


(** ** Sample runs *)

(** The world in which a run ends or is interrupted. *)
Definition final {A} (r : Run A) : World :=
  match r with
  | Running w => w
  | Stopped _ w => w
  end.

(** The world at the start of the sounding loop: [cm_start_atten_charac]
    has read a [CM_START_ATTEN_CHAR.IND] announcing [num_sounds] sounds;
    [frames] are the outcomes of the reads that follow. *)
Definition sounding_world (num_sounds : Z) (frames : list (result bytes))
    (times : list Z) (late : Z) : World :=
  snd (cm_start_atten_charac (H := sample_imports)
         (world_of matching_session
            (scripted (Ok (start_atten_frame num_sounds) :: frames)
               times late))).

(** The first read of the loop times out although a sound is on its way
    and the clock has not advanced. *)
Definition timeout_world : World :=
  sounding_world 10
    [Raise TimeoutError; Ok (mnbc_frame sample_pev_mac sample_run_id 9)]
    [] 0.

(** A sound of the session's run sent from another address. *)
Definition intruder_world : World :=
  sounding_world 10
    [Ok (mnbc_frame other_mac sample_run_id 9);
     Ok (profile_frame sample_pev_mac 58 10)]
    [0; 5; 10] 10.

(** Two sounds announced, both received with their profiles. *)
Definition two_sounds_world : World :=
  sounding_world 2
    [Ok (mnbc_frame sample_pev_mac sample_run_id 1);
     Ok (profile_frame sample_pev_mac 58 10);
     Ok (mnbc_frame sample_pev_mac sample_run_id 0);
     Ok (profile_frame sample_pev_mac 58 13)]
    [0; 10; 20; 30; 40] 2000.


(** No sound announced, and a profile arrives first. *)
Definition zero_sounds_world : World :=
  sounding_world 0 [Ok (profile_frame sample_pev_mac 58 10)] [0; 1] 1.


(** An adapter on which only frames of another protocol arrive. *)
Definition flooded : Adapter := {|
  readeth := fun _ _ => Ok foreign_frame;
  sendeth := fun _ _ => Ok tt;
  send_recv_eth := fun _ _ _ => Ok foreign_frame;
  time_now_ms := fun n => Z.of_nat n * 1000;
  urandom := fun _ => repeat 0 16;
  asyncio_sleep := fun _ _ => Ok tt
|}.

Definition flooded_world : World :=
  world_of (set_time_out_ms 900
              (set_num_expected_sounds (Some 10) matching_session))
    flooded.

(** A whole routine: one sound, then a [CM_ATTEN_CHAR.RSP] of another run
    with result 0, then a [CM_SLAC_MATCH.REQ] of the session's run. *)
Definition routine_world : World :=
  world_of matching_session
    (scripted [Ok (start_atten_frame 1);
               Ok (mnbc_frame sample_pev_mac sample_run_id 0);
               Ok (profile_frame sample_pev_mac 58 10);
               Ok (atten_rsp_frame other_run_id 0);
               Ok (match_req_frame sample_run_id)]
       [0; 10; 20] 20).

(** The session is matching and the request names another run. *)
Definition other_run_world : World :=
  world_of matching_session
    (scripted [Ok (match_req_frame other_run_id)] [] 0).

(** The modem confirms the key, refuses it, or does not answer. *)
Definition confirming_world : World :=
  world_of matching_session (scripted [Ok (set_key_cnf_frame 0)] [] 0).

Definition refusing_world : World :=
  world_of matching_session (scripted [Ok (set_key_cnf_frame 0xFF)] [] 0).

Definition silent_world : World :=
  world_of matching_session (scripted [Raise TimeoutError] [] 0).

(** The modem confirms the key, and the task is cancelled while
    [evse_set_key] waits for the key to settle. *)
Definition interrupted : Adapter := {|
  readeth := fun _ _ => Raise TimeoutError;
  sendeth := fun _ _ => Ok tt;
  send_recv_eth := fun _ _ _ => Ok (set_key_cnf_frame 0);
  time_now_ms := fun _ => 0;
  urandom := fun n => repeat (Z.of_nat n + 0x10) 16;
  asyncio_sleep := fun _ _ => Raise CancelledError
|}.

Definition settling_world : World := world_of matching_session interrupted.

(** The decoded views of the response and of the request of
    [routine_world]. *)
Definition rsp_eth : EthernetHeader :=
  {| dst_mac := sample_evse_mac; src_mac := sample_pev_mac;
     ether_type := 0x88E1 |}.

Definition rsp_hp : HomePlugHeader :=
  {| mmv := 1; mm_type := 0x606F; fmi := 0; fmsn := 0 |}.

Definition rsp_other_run : AtennCharRsp :=
  {| acr_application_type := 0; acr_security_type := 0;
     acr_source_address := sample_pev_mac; acr_run_id := other_run_id;
     acr_source_id := repeat 0 17; acr_resp_id := repeat 0 17;
     acr_result := 0 |}.

Definition req_hp : HomePlugHeader :=
  {| mmv := 1; mm_type := 0x607C; fmi := 0; fmsn := 0 |}.

Definition req_same_run : MatchReq :=
  {| mr_application_type := 0; mr_security_type := 0; mr_mvf_length := 0x3E;
     mr_pev_id := repeat 0x31 17; mr_pev_mac := sample_pev_mac;
     mr_evse_id := repeat 0x30 17; mr_evse_mac := sample_evse_mac;
     mr_run_id := sample_run_id |}.

(** ** The methods outside the matching routine *)

(** *** [is_link_status_active] *)

(** [v.to_bytes(length, "little")] and [v.to_bytes(length, "big")] for a
    value that fits, as the two constants of [is_link_status_active] do. *)
Fixpoint int_to_bytes_little (length : nat) (v : Z) : bytes :=
  match length with
  | O => []
  | S length' => v mod 256 :: int_to_bytes_little length' (v / 256)
  end.

Definition int_to_bytes_big (length : nat) (v : Z) : bytes :=
  rev (int_to_bytes_little length v).

(** The two local constants of [is_link_status_active]. *)
Definition LINK_STATUS : Z := 0xA0B8.
Definition vendor_mme : Z := 0x00B052.

Section LinkStatus.

(** [EthernetHeader(dst_mac=..., src_mac=...).pack_big()], whose code is in
    [slac.messages]. *)
Variable EthernetHeader_pack_big : bytes -> bytes -> bytes.

(** The adapter's [send_recv_eth] on a frame given as bytes, after [n]
    earlier reads. *)
Variable send_recv_raw : nat -> bytes -> FramesSizes -> result bytes.

(** The [LINK_STATUS.REQ] frame: the Ethernet header, a HomePlug header
    without the fragmentation fields, and the vendor code. *)
Definition link_status_req (s : SlacSession) : bytes :=
  let mmv := [0x00] in
  let mm_type := Z.lor LINK_STATUS MMTYPE_REQ in
  let homeplug_header_no_fragm := mmv ++ int_to_bytes_little 2 mm_type in
  let link_status_req_payload := int_to_bytes_big 3 vendor_mme in
  EthernetHeader_pack_big (evse_plc_mac s) (evse_mac s)
    ++ homeplug_header_no_fragm ++ link_status_req_payload.

(** [SlacEvseSession.is_link_status_active].  The request is not one of
    the frames of [OutPayload]; it is the argument of [send_recv_raw].  The
    [ValueError] raised inside the [try] block is caught there. *)
Definition is_link_status_active : M bool :=
  do s <- get_self;
  let frame_to_send := link_status_req s in
  do payload_rcvd <-
    (fun w =>
       let outcome :=
         send_recv_raw (length (rx w)) frame_to_send LINK_STATUS_CNF in
       (outcome, log_read (Some LINK_STATUS_CNF) outcome w));
  let mm_type_rcvd := int_from_bytes_little (slice 15 2 payload_rcvd) in
  if negb (mm_type_rcvd =? Z.lor LINK_STATUS MMTYPE_CNF)
  then ret false
  else ret true.

End LinkStatus.

(** *** [evse_slac_parm] *)

(** The fields of [SlacParmReq] read by [evse_slac_parm]. *)
Record SlacParmReq : Type := {
  spr_application_type : Z;
  spr_security_type : Z;
  spr_run_id : bytes
}.

(** The [CM_SLAC_PARM.CNF] frame: the arguments of the [EthernetHeader],
    [HomePlugHeader] and [SlacParmCnf] constructors. *)
Record ParmCnfFrame : Type := {
  cnf_dst_mac : bytes;
  cnf_src_mac : bytes;
  cnf_mm_type : Z;
  cnf_forwarding_sta : bytes;
  cnf_run_id : bytes
}.

Definition set_application_type (v : Z) (self : SlacSession) : SlacSession :=
  {| state := state self; nmk := nmk self; nid := nid self;
     forwarding_sta := forwarding_sta self; pev_id := pev_id self;
     pev_mac := pev_mac self; evse_id := evse_id self;
     evse_mac := evse_mac self; run_id := run_id self;
     application_type := v;
     security_type := security_type self;
     num_start_attn_rcvd := num_start_attn_rcvd self;
     num_expected_sounds := num_expected_sounds self;
     num_total_sounds := num_total_sounds self; sounds := sounds self;
     time_out_ms := time_out_ms self; aag := aag self;
     num_groups := num_groups self; rnd := rnd self;
     slac_threshold := slac_threshold self; pause := pause self;
     settle_time := settle_time self;
     matching_process_task := matching_process_task self;
     mqtt_msg_counter := mqtt_msg_counter self;
     evse_plc_mac := evse_plc_mac self |}.

Definition set_security_type (v : Z) (self : SlacSession) : SlacSession :=
  {| state := state self; nmk := nmk self; nid := nid self;
     forwarding_sta := forwarding_sta self; pev_id := pev_id self;
     pev_mac := pev_mac self; evse_id := evse_id self;
     evse_mac := evse_mac self; run_id := run_id self;
     application_type := application_type self;
     security_type := v;
     num_start_attn_rcvd := num_start_attn_rcvd self;
     num_expected_sounds := num_expected_sounds self;
     num_total_sounds := num_total_sounds self; sounds := sounds self;
     time_out_ms := time_out_ms self; aag := aag self;
     num_groups := num_groups self; rnd := rnd self;
     slac_threshold := slac_threshold self; pause := pause self;
     settle_time := settle_time self;
     matching_process_task := matching_process_task self;
     mqtt_msg_counter := mqtt_msg_counter self;
     evse_plc_mac := evse_plc_mac self |}.

Definition set_run_id (v : bytes) (self : SlacSession) : SlacSession :=
  {| state := state self; nmk := nmk self; nid := nid self;
     forwarding_sta := forwarding_sta self; pev_id := pev_id self;
     pev_mac := pev_mac self; evse_id := evse_id self;
     evse_mac := evse_mac self; run_id := v;
     application_type := application_type self;
     security_type := security_type self;
     num_start_attn_rcvd := num_start_attn_rcvd self;
     num_expected_sounds := num_expected_sounds self;
     num_total_sounds := num_total_sounds self; sounds := sounds self;
     time_out_ms := time_out_ms self; aag := aag self;
     num_groups := num_groups self; rnd := rnd self;
     slac_threshold := slac_threshold self; pause := pause self;
     settle_time := settle_time self;
     matching_process_task := matching_process_task self;
     mqtt_msg_counter := mqtt_msg_counter self;
     evse_plc_mac := evse_plc_mac self |}.

Definition is_TimeoutError (e : exn) : bool :=
  match e with
  | TimeoutError => true
  | _ => false
  end.

(** The world of [evse_slac_parm]: its confirmation is not one of the
    frames of [OutPayload], so the confirmations sent are logged next to
    the world. *)
Record ParmWorld : Type := {
  world : World;
  parm_cnf_sent : list ParmCnfFrame
}.

Section SlacParm.
Context `{Imports}.

(** [SlacParmReq.from_bytes], whose code is in [slac.messages]. *)
Variable SlacParmReq_from_bytes : bytes -> result SlacParmReq.

(** Whether closing the socket and creating a new one in [reset_socket]
    raises; the socket itself is not part of the world. *)
Variable reset_socket : result unit.

(** The outcome of sending the [n]-th confirmation. *)
Variable sendeth_parm_cnf : nat -> ParmCnfFrame -> result unit.

(** The [CM_SLAC_PARM.CNF] frame built by [evse_slac_parm]. *)
Definition slac_parm_cnf (s : SlacSession) : ParmCnfFrame :=
  {| cnf_dst_mac := pev_mac s; cnf_src_mac := evse_mac s;
     cnf_mm_type := Z.lor CM_SLAC_PARM MMTYPE_CNF;
     cnf_forwarding_sta := pev_mac s; cnf_run_id := run_id s |}.

(** [SlacEvseSession.evse_slac_parm].  The first [try] names the built-in
    [TimeoutError] only (the class that [asyncio.wait_for] raises from
    Python 3.11 on), the second one [Exception]. *)
Definition evse_slac_parm (pw : ParmWorld) : result unit * ParmWorld :=
  let sent := parm_cnf_sent pw in
  let leave '(r, w) := (r, {| world := w; parm_cnf_sent := sent |}) in
  match reset_socket with
  | Raise e => (Raise e, pw)
  | Ok _ =>
      match rcv_frame (Some CM_SLAC_PARM_REQ) (world pw) with
      | (Raise e, w1) =>
          if is_TimeoutError e
          then leave (modify (set_state STATE_UNMATCHED) w1)
          else leave (Raise e, w1)
      | (Ok data_rcvd, w1) =>
          match
            (do ether_frame <- lift (EthernetHeader_from_bytes data_rcvd);
             do homeplug_frame <- lift (HomePlugHeader_from_bytes data_rcvd);
             do slac_parm_req <- lift (SlacParmReq_from_bytes data_rcvd);
             ret (ether_frame, homeplug_frame, slac_parm_req)) w1
          with
          | (Raise e, w2) =>
              if is_Exception e
              then leave (modify (set_state STATE_UNMATCHED) w2)
              else leave (Raise e, w2)
          | (Ok (ether_frame, homeplug_frame, slac_parm_req), w2) =>
              if negb (mm_type homeplug_frame
                       =? Z.lor CM_SLAC_PARM MMTYPE_REQ)
              then leave (modify (set_state STATE_UNMATCHED) w2)
              else
                let w3 :=
                  with_self
                    (fun s =>
                       set_forwarding_sta (src_mac ether_frame)
                         (set_pev_mac (src_mac ether_frame)
                            (set_run_id (spr_run_id slac_parm_req)
                               (set_security_type
                                  (spr_security_type slac_parm_req)
                                  (set_application_type
                                     (spr_application_type slac_parm_req)
                                     s))))) w2 in
                let frame_to_send := slac_parm_cnf (self w3) in
                match sendeth_parm_cnf (length sent) frame_to_send with
                | Raise e => leave (Raise e, w3)
                | Ok _ =>
                    (Ok tt,
                     {| world := with_self (set_state STATE_MATCHING) w3;
                        parm_cnf_sent := sent ++ [frame_to_send] |})
                end
          end
      end
  end.

End SlacParm.

(** ** Further statements about runs *)

(** What the sounding loop leaves alone in a session: the keys, the
    identifiers and addresses, and what [cm_start_atten_charac] stored.
    The state stays or becomes Unmatched. *)
Definition kept_by_sounding (s s' : SlacSession) : Prop :=
  nmk s' = nmk s /\ nid s' = nid s /\ run_id s' = run_id s /\
  pev_mac s' = pev_mac s /\ pev_id s' = pev_id s /\
  evse_mac s' = evse_mac s /\ evse_id s' = evse_id s /\
  evse_plc_mac s' = evse_plc_mac s /\
  forwarding_sta s' = forwarding_sta s /\
  application_type s' = application_type s /\
  security_type s' = security_type s /\
  num_expected_sounds s' = num_expected_sounds s /\
  time_out_ms s' = time_out_ms s /\
  (state s' = state s \/ state s' = STATE_UNMATCHED).

(** [aag] holds a list with one entry for each of the 58 groups. *)
Definition aag_is_list (s : SlacSession) : Prop :=
  exists l, aag s = AagList l /\ length l = SLAC_GROUPS.

Section MoreWords.
Context `{Imports}.

(** The two headers and the payload of a frame that was read, as the
    [try] blocks of the methods decode them: the first failure wins. *)
Definition decoded {A} (outcome : result bytes)
    (payload_from_bytes : bytes -> result A)
    : result (EthernetHeader * HomePlugHeader * A) :=
  match outcome with
  | Raise e => Raise e
  | Ok data =>
      match EthernetHeader_from_bytes data with
      | Raise e => Raise e
      | Ok eth =>
          match HomePlugHeader_from_bytes data with
          | Raise e => Raise e
          | Ok hp =>
              match payload_from_bytes data with
              | Raise e => Raise e
              | Ok payload => Ok (eth, hp, payload)
              end
          end
      end
  end.

(** [data] is a [CM_MNBC_SOUND.IND] of HomePlug version 1 for the run
    [rid], sent from the address [pev]. *)
Definition sound_of (rid pev : bytes) (data : bytes) : Prop :=
  exists eth hp sound,
    EthernetHeader_from_bytes data = Ok eth /\
    HomePlugHeader_from_bytes data = Ok hp /\
    ether_type eth = ETH_TYPE_HPAV /\
    mmv hp = HOMEPLUG_MMV /\
    mm_type hp = Z.lor CM_MNBC_SOUND MMTYPE_IND /\
    MnbcSound_from_bytes data = Ok sound /\
    ms_run_id sound = rid /\
    src_mac eth = pev.

(** [data] is a [CM_ATTEN_PROFILE.IND] of HomePlug version 1 that decodes
    to [p], names the address [pev], and has at most 58 groups, each with
    a value. *)
Definition profile_of (pev : bytes) (data : bytes) (p : AttenProfile)
    : Prop :=
  exists eth hp,
    EthernetHeader_from_bytes data = Ok eth /\
    HomePlugHeader_from_bytes data = Ok hp /\
    ether_type eth = ETH_TYPE_HPAV /\
    mmv hp = HOMEPLUG_MMV /\
    mm_type hp = Z.lor CM_ATTEN_PROFILE MMTYPE_IND /\
    AttenProfile_from_bytes data = Ok p /\
    ap_pev_mac p = pev /\
    (Z.to_nat (ap_num_groups p) <= SLAC_GROUPS)%nat /\
    (Z.to_nat (ap_num_groups p) <= length (ap_aag p))%nat.

(** The statements of [cm_sounds_loop] from the clock reading to the end
    of the iteration, for the accumulator [sums] and the size [size]
    returned by [process_sound_frame]. *)
Definition check_and_finish (locals : SoundsLocals) (size : option FramesSizes)
    (sums : list Z) (w : World) : result LoopStep * World :=
  let elapsed := time_now_ms (io w) (ticks w) - time_start locals in
  let s := self w in
  let w1 := tick w in
  match (if elapsed <? time_out_ms s
         then lt_optional (num_total_sounds s) (num_expected_sounds s)
         else Ok false) with
  | Raise e => (Raise e, w1)
  | Ok true =>
      (Ok (Continue {| sounds_rcvd := sounds_rcvd locals;
                       aag_sums := sums;
                       time_start := time_start locals;
                       next_frame_expected := size |}), w1)
  | Ok false =>
      if 0 <? num_total_sounds s then
        match average_groups (seq 0 SLAC_GROUPS) sums (num_total_sounds s)
                (aag s) with
        | Ok averaged =>
            (Ok (Return ReturnAfterCheck), with_self (set_aag averaged) w1)
        | Raise e => (Raise e, w1)
        end
      else (Ok (Return ReturnAfterCheck), w1)
  end.

End MoreWords.

(** ** Sample runs of the other methods *)

(** Modelled from the spec: [SlacParmReq.from_bytes], 10 bytes of payload,
    [application_type(1) | security_type(1) | run_id(8)]. *)
Definition wire_SlacParmReq (b : bytes) : result SlacParmReq :=
  decode 29 b {| spr_application_type := byte_at 19 b;
                 spr_security_type := byte_at 20 b;
                 spr_run_id := slice 21 8 b |}.

(** Modelled from the spec: [EthernetHeader.pack_big], [dst_mac(6) |
    src_mac(6) | ethertype(2, big-endian)] with EtherType [0x88E1]. *)
Definition wire_pack_ethernet (dst src : bytes) : bytes :=
  dst ++ src ++ [0x88; 0xE1].

(** The decoded views of the sample frames that the EV sends. *)
Definition start_hp : HomePlugHeader :=
  {| mmv := 1; mm_type := 0x606A; fmi := 0; fmsn := 0 |}.

Definition start_ten : StartAtennChar :=
  {| sac_application_type := 0; sac_security_type := 0;
     sac_num_sounds := 10; sac_time_out := 6; sac_resp_type := 1;
     sac_forwarding_sta := sample_pev_mac; sac_run_id := sample_run_id |}.

Definition sound_hp : HomePlugHeader :=
  {| mmv := 1; mm_type := 0x6076; fmi := 0; fmsn := 0 |}.

Definition sound_view (cnt : Z) : MnbcSound :=
  {| ms_application_type := 0; ms_security_type := 0;
     ms_sender_id := repeat 0 17; ms_cnt := cnt;
     ms_run_id := sample_run_id; ms_rnd := repeat 0 16 |}.

Definition parm_hp : HomePlugHeader :=
  {| mmv := 1; mm_type := 0x6064; fmi := 0; fmsn := 0 |}.

Definition parm_view : SlacParmReq :=
  {| spr_application_type := 0; spr_security_type := 0;
     spr_run_id := sample_run_id |}.

(** The decoded views of a profile sent by the modem. *)
Definition modem_eth : EthernetHeader :=
  {| dst_mac := sample_evse_mac;
     src_mac := [0x00; 0xB0; 0x52; 0x00; 0x00; 0x01];
     ether_type := 0x88E1 |}.

Definition profile_hp : HomePlugHeader :=
  {| mmv := 1; mm_type := 0x6086; fmi := 0; fmsn := 0 |}.

Definition profile_view (groups : nat) (level : Z) : AttenProfile :=
  {| ap_pev_mac := sample_pev_mac; ap_num_groups := Z.of_nat groups;
     ap_aag := repeat level groups |}.

(** The locals of the sounding loop at its first iteration, the window
    having started at time 0. *)
Definition first_locals : SoundsLocals :=
  {| sounds_rcvd := 0; aag_sums := repeat 0 SLAC_GROUPS; time_start := 0;
     next_frame_expected := Some CM_MNBC_SOUND_IND |}.

(** A [CM_START_ATTEN_CHAR.IND] announcing ten sounds is on its way. *)
Definition announcing_world : World :=
  world_of matching_session (scripted [Ok (start_atten_frame 10)] [] 0).

(** A sound arrives although no number of sounds was announced; the clock
    shows [time] at every reading. *)
Definition unannounced_world (time : Z) : World :=
  world_of matching_session
    (scripted [Ok (mnbc_frame sample_pev_mac sample_run_id 0)] [] time).

(** The response to [CM_ATTEN_CHAR.IND] names another run. *)
Definition rsp_world : World :=
  world_of matching_session
    (scripted [Ok (atten_rsp_frame other_run_id 0)] [] 0).

(** A [CM_SLAC_MATCH.REQ] of the session's run is on its way. *)
Definition requesting_world : World :=
  world_of matching_session
    (scripted [Ok (match_req_frame sample_run_id)] [] 0).

(** The same request on an adapter that cannot send. *)
Definition mute : Adapter := {|
  readeth := fun _ _ => Ok (match_req_frame sample_run_id);
  sendeth := fun _ _ => Raise OSError;
  send_recv_eth := fun _ _ _ => Raise OSError;
  time_now_ms := fun _ => 0;
  urandom := fun _ => repeat 0 16;
  asyncio_sleep := fun _ _ => Ok tt
|}.

Definition mute_world : World := world_of matching_session mute.

(** Nothing arrives any more: every read times out. *)
Definition unplugged_world : World :=
  world_of matching_session (scripted [] [] 0).

(** A [LINK_STATUS.CNF] of 60 bytes, as the modem of the sample session
    sends it. *)
Definition link_status_cnf_frame : bytes :=
  sample_evse_mac ++ [0x00; 0xB0; 0x52; 0x00; 0x00; 0x01] ++ [0x88; 0xE1]
    ++ [0x00; 0xB9; 0xA0] ++ [0x00; 0xB0; 0x52] ++ repeat 0 40.

(** An unmatched station on which a [CM_SLAC_PARM.REQ] arrives, followed
    by the [CM_START_ATTEN_CHAR.IND] of the same run. *)
Definition idle_session : SlacSession :=
  set_state STATE_UNMATCHED
    (set_run_id [] (set_pev_mac [] (set_forwarding_sta [] matching_session))).

Definition parm_world : ParmWorld :=
  {| world := world_of idle_session
                (scripted [Ok parm_req_frame; Ok (start_atten_frame 10)]
                   [] 0);
     parm_cnf_sent := [] |}.

(** The socket fails while the station waits for a request. *)
Definition broken_parm_world : ParmWorld :=
  {| world := world_of idle_session (scripted [Raise OSError] [] 0);
     parm_cnf_sent := [] |}.

(** * Properties *)

Section Properties.
Context `{Imports}.

(** ** [reset] *)

(** C2 (amended): [reset] leaves [nmk] and [nid] unchanged, empties
    [evse_mac], puts [evse_id] back to the configured identifier, and sets
    [state], [forwarding_sta], [pev_id], [pev_mac], [run_id],
    [application_type], [security_type], the counter of start
    indications, [num_expected_sounds], [num_total_sounds], [time_out_ms],
    [num_groups] and the matching task handle to their defaults. *)
Theorem reset_defaults (s : SlacSession) :
  nmk (reset s) = nmk s /\
  nid (reset s) = nid s /\
  evse_mac (reset s) = [] /\
  evse_id (reset s) = EVSE_ID /\
  state (reset s) = STATE_UNMATCHED /\
  forwarding_sta (reset s) = [] /\
  pev_id (reset s) = None /\
  pev_mac (reset s) = [] /\
  run_id (reset s) = [] /\
  application_type (reset s) = 0 /\
  security_type (reset s) = 0 /\
  num_start_attn_rcvd (reset s) = 0 /\
  num_expected_sounds (reset s) = None /\
  num_total_sounds (reset s) = 0 /\
  time_out_ms (reset s) = SLAC_ATTEN_TIMEOUT /\
  num_groups (reset s) = None /\
  matching_process_task (reset s) = None.
Proof. unfold reset; cbn. repeat split. Qed.

(** ** The sounding loop: reads that fail *)

Lemma sounds_iteration_read_raises (locals : SoundsLocals) (w : World)
    (e : exn) :
  readeth (io w) (length (rx w)) (next_frame_expected locals) = Raise e ->
  sounds_iteration locals w =
    let w1 := log_read (next_frame_expected locals) (Raise e) w in
    if is_Exception e
    then (Ok (Return ReturnFromHandler), with_self (set_state STATE_UNMATCHED) w1)
    else (Raise e, w1).
Proof.
  intros Hread.
  unfold sounds_iteration, try_except_Exception, bind, rcv_frame.
  rewrite Hread. cbn. destruct (is_Exception e); reflexivity.
Qed.

(** C1 (amended): when a read of the sounding loop times out, the loop is
    left at once, whatever the clock shows: the state becomes Unmatched,
    [cm_sounds_loop] returns, no further read is attempted and the clock is
    not consulted. *)
Theorem sounds_read_timeout_returns (fuel : nat) (locals : SoundsLocals)
    (w : World) :
  readeth (io w) (length (rx w)) (next_frame_expected locals)
    = Raise TimeoutError ->
  sounds_while (S fuel) locals w =
    Stopped (Ok ReturnFromHandler)
      (with_self (set_state STATE_UNMATCHED)
         (log_read (next_frame_expected locals) (Raise TimeoutError) w)).
Proof.
  intros Hread. cbn [sounds_while].
  rewrite (sounds_iteration_read_raises _ _ _ Hread). reflexivity.
Qed.

(** The headers of a frame that was read and decoded. *)
Lemma sounds_iteration_decoded (locals : SoundsLocals) (w : World)
    (data : bytes) (eth : EthernetHeader) (hp : HomePlugHeader) :
  readeth (io w) (length (rx w)) (next_frame_expected locals) = Ok data ->
  EthernetHeader_from_bytes data = Ok eth ->
  HomePlugHeader_from_bytes data = Ok hp ->
  sounds_iteration locals w =
    let w1 := log_read (next_frame_expected locals) (Ok data) w in
    if (ether_type eth =? ETH_TYPE_HPAV) && (mmv hp =? HOMEPLUG_MMV)
    then
      (do '(next_size, aag') <-
         process_sound_frame hp eth data (sounds_rcvd locals)
           (aag_sums locals);
       do t <- now;
       let time_elapsed := t - time_start locals in
       do s <- get_self;
       do go_on <-
         lift (if time_elapsed <? time_out_ms s
               then lt_optional (num_total_sounds s) (num_expected_sounds s)
               else Ok false);
       if go_on : bool then
         ret (Continue {| sounds_rcvd := sounds_rcvd locals;
                          aag_sums := aag';
                          time_start := time_start locals;
                          next_frame_expected := next_size |})
       else
         run (if 0 <? num_total_sounds s then
                do averaged <-
                  lift (average_groups (seq 0 SLAC_GROUPS) aag'
                          (num_total_sounds s) (aag s));
                modify (set_aag averaged)
              else ret tt);
         ret (Return ReturnAfterCheck)) w1
    else (Ok (Continue locals), w1).
Proof.
  intros Hread Heth Hhp.
  unfold sounds_iteration, try_except_Exception.
  unfold bind at 1. unfold rcv_frame. rewrite Hread.
  unfold bind at 1. unfold lift at 1. rewrite Heth.
  unfold bind at 1. unfold lift at 1. rewrite Hhp.
  cbn [ret]. cbv zeta.
  destruct ((ether_type eth =? ETH_TYPE_HPAV) && (mmv hp =? HOMEPLUG_MMV));
    reflexivity.
Qed.

(** C4 (amended): a [CM_MNBC_SOUND.IND] frame of the session's run whose
    Ethernet source is not [pev_mac] makes [process_sound_frame] raise
    [ValueError]; nothing catches it, so it leaves [cm_sounds_loop].  The
    session is as before the read: no state change and [num_total_sounds]
    not incremented. *)
Theorem sound_from_other_mac_raises (fuel : nat) (locals : SoundsLocals)
    (w : World) (data : bytes) (eth : EthernetHeader) (hp : HomePlugHeader)
    (sound : MnbcSound) :
  readeth (io w) (length (rx w)) (next_frame_expected locals) = Ok data ->
  EthernetHeader_from_bytes data = Ok eth ->
  HomePlugHeader_from_bytes data = Ok hp ->
  ether_type eth = ETH_TYPE_HPAV ->
  mmv hp = HOMEPLUG_MMV ->
  mm_type hp = Z.lor CM_MNBC_SOUND MMTYPE_IND ->
  MnbcSound_from_bytes data = Ok sound ->
  ms_run_id sound = run_id (self w) ->
  src_mac eth <> pev_mac (self w) ->
  sounds_while (S fuel) locals w =
    Stopped (Raise ValueError)
      (log_read (next_frame_expected locals) (Ok data) w).
Proof.
  intros Hread Heth Hhp Hty Hmmv Hmm Hsnd Hrun Hsrc.
  cbn [sounds_while].
  rewrite (sounds_iteration_decoded _ _ _ _ _ Hread Heth Hhp).
  rewrite Hty, Hmmv, !Z.eqb_refl. cbn [andb]. cbv zeta.
  unfold bind at 1. unfold process_sound_frame.
  rewrite Hmm, Z.eqb_refl.
  unfold bind at 1. unfold lift at 1. rewrite Hsnd.
  unfold bind at 1. unfold get_self at 1.
  cbn [self log_read].
  rewrite bool_decide_eq_true_2 by (symmetry; exact Hrun).
  rewrite bool_decide_eq_false_2 by (intros Heq; apply Hsrc; symmetry; exact Heq).
  reflexivity.
Qed.

(** ** The sounding loop: one iteration *)

Lemma mnbc_is_not_profile :
  (Z.lor CM_MNBC_SOUND MMTYPE_IND =? Z.lor CM_ATTEN_PROFILE MMTYPE_IND) = false.
Proof. reflexivity. Qed.

Lemma process_sound_frame_summary (hp : HomePlugHeader) (eth : EthernetHeader)
    (data : bytes) (n : Z) (sums : list Z) (w : World)
    (r : result (option FramesSizes * list Z)) (w1 : World) :
  process_sound_frame hp eth data n sums w = (r, w1) ->
  let profile :=
    if mm_type hp =? Z.lor CM_ATTEN_PROFILE MMTYPE_IND
    then match AttenProfile_from_bytes data with
         | Ok p => if bool_decide (pev_mac (self w) = ap_pev_mac p)
                   then Some p else None
         | Raise _ => None
         end
    else None in
  io w1 = io w /\ rx w1 = rx w /\ tx w1 = tx w /\ ticks w1 = ticks w /\
  pev_mac (self w1) = pev_mac (self w) /\
  num_expected_sounds (self w1) = num_expected_sounds (self w) /\
  time_out_ms (self w1) = time_out_ms (self w) /\
  aag (self w1) = aag (self w) /\
  state (self w1) = state (self w) /\
  match r with
  | Ok (_, sums') =>
      accumulated profile sums sums'
        (num_total_sounds (self w)) (num_total_sounds (self w1))
  | Raise _ => w1 = w
  end.
Proof.
  unfold process_sound_frame.
  destruct (mm_type hp =? Z.lor CM_MNBC_SOUND MMTYPE_IND) eqn:Hmnbc.
  - apply Z.eqb_eq in Hmnbc. rewrite Hmnbc, mnbc_is_not_profile.
    unfold bind, lift, get_self, ret, raise.
    destruct (MnbcSound_from_bytes data) as [sound | e];
      [| intros [= <- <-]; cbn; auto 12].
    destruct (bool_decide (run_id (self w) = ms_run_id sound));
      [destruct (bool_decide (pev_mac (self w) = src_mac eth)); cbn [negb] |];
      intros [= <- <-]; cbn; auto 12.
  - destruct (mm_type hp =? Z.lor CM_ATTEN_PROFILE MMTYPE_IND);
      [| intros [= <- <-]; cbn; auto 12].
    unfold bind, lift, get_self, ret, modify.
    destruct (AttenProfile_from_bytes data) as [p | e];
      [| intros [= <- <-]; cbn; auto 12].
    destruct (bool_decide (pev_mac (self w) = ap_pev_mac p));
      [| intros [= <- <-]; cbn; auto 12].
    destruct (add_groups (range (ap_num_groups p)) (ap_aag p) sums)
      as [sums' | e] eqn:Hadd; intros [= <- <-]; cbn; auto 12.
Qed.

Lemma sounds_iteration_header_raises (locals : SoundsLocals) (w : World)
    (data : bytes) (e : exn) :
  readeth (io w) (length (rx w)) (next_frame_expected locals) = Ok data ->
  (EthernetHeader_from_bytes data = Raise e \/
   (exists eth, EthernetHeader_from_bytes data = Ok eth) /\
   HomePlugHeader_from_bytes data = Raise e) ->
  sounds_iteration locals w =
    let w1 := log_read (next_frame_expected locals) (Ok data) w in
    if is_Exception e
    then (Ok (Return ReturnFromHandler),
          with_self (set_state STATE_UNMATCHED) w1)
    else (Raise e, w1).
Proof.
  intros Hread Hbad.
  unfold sounds_iteration, try_except_Exception, bind, rcv_frame, lift.
  rewrite Hread.
  destruct Hbad as [Heth | [[eth Heth] Hhp]]; rewrite Heth; [| rewrite Hhp];
    cbn; destruct (is_Exception e); reflexivity.
Qed.

(** The statements after the check, when the loop is left. *)
Lemma sounds_exit_summary (sums' : list Z) (w2 : World)
    (r : result LoopStep) (w1 : World) :
  (run (if 0 <? num_total_sounds (self w2)
        then
          do averaged <-
            lift (average_groups (seq 0 SLAC_GROUPS) sums'
                    (num_total_sounds (self w2)) (aag (self w2)));
          modify (set_aag averaged)
        else ret tt);
   ret (Return ReturnAfterCheck)) (tick w2) = (r, w1) ->
  io w1 = io w2 /\ rx w1 = rx w2 /\ ticks w1 = S (ticks w2) /\
  pev_mac (self w1) = pev_mac (self w2) /\
  num_expected_sounds (self w1) = num_expected_sounds (self w2) /\
  time_out_ms (self w1) = time_out_ms (self w2) /\
  num_total_sounds (self w1) = num_total_sounds (self w2) /\
  match r with
  | Ok (Return ReturnAfterCheck) =>
      if 0 <? num_total_sounds (self w2)
      then average_groups (seq 0 SLAC_GROUPS) sums'
             (num_total_sounds (self w2)) (aag (self w2))
           = Ok (aag (self w1))
      else aag (self w1) = aag (self w2)
  | Ok _ => False
  | Raise _ => True
  end.
Proof.
  unfold bind, lift, modify, ret.
  destruct (0 <? num_total_sounds (self w2)).
  - destruct (average_groups _ _ _ _) as [averaged | e];
      intros [= <- <-]; cbn; auto 10.
  - intros [= <- <-]; cbn; auto 10.
Qed.

Lemma sounds_iteration_summary (locals : SoundsLocals) (w : World)
    (r : result LoopStep) (w1 : World) :
  sounds_iteration locals w = (r, w1) ->
  iteration_summary locals w r w1.
Proof.
  unfold iteration_summary, accepted_profile.
  destruct (readeth (io w) (length (rx w)) (next_frame_expected locals))
    as [data | e] eqn:Hread.
  2:{ rewrite (sounds_iteration_read_raises _ _ _ Hread). cbv zeta.
      destruct (is_Exception e); intros [= <- <-]; cbn; auto 10 with lia. }
  destruct (EthernetHeader_from_bytes data) as [eth | e] eqn:Heth.
  2:{ rewrite (sounds_iteration_header_raises _ _ _ e Hread) by auto.
      cbv zeta.
      destruct (is_Exception e); intros [= <- <-]; cbn; auto 10 with lia. }
  destruct (HomePlugHeader_from_bytes data) as [hp | e] eqn:Hhp.
  2:{ rewrite (sounds_iteration_header_raises _ _ _ e Hread) by eauto.
      cbv zeta.
      destruct (is_Exception e); intros [= <- <-]; cbn; auto 10 with lia. }
  rewrite (sounds_iteration_decoded _ _ _ _ _ Hread Heth Hhp). cbv zeta.
  destruct ((ether_type eth =? ETH_TYPE_HPAV) && (mmv hp =? HOMEPLUG_MMV)).
  2:{ intros [= <- <-]; cbn. auto 12. }
  cbn [andb].
  unfold bind at 1.
  destruct (process_sound_frame hp eth data (sounds_rcvd locals)
              (aag_sums locals)
              (log_read (next_frame_expected locals) (Ok data) w))
    as [[[next_size sums'] | e] w2] eqn:Hproc;
    apply process_sound_frame_summary in Hproc; cbn [self log_read io rx tx ticks] in Hproc;
    destruct Hproc as (Hio & Hrx & Htx & Hticks & Hpev & Hexp & Hto & Haag & Hst & Hacc).
  2:{ intros [= <- <-]. subst w2. cbn. auto 10 with lia. }
  assert (num_total_sounds (self w) <= num_total_sounds (self w2)
          <= num_total_sounds (self w) + 1) as Hbound.
  { revert Hacc. unfold accumulated.
    destruct (if mm_type hp =? _ then _ else _); intros [_ ->]; lia. }
  unfold bind at 1. unfold now at 1.
  unfold bind at 1. unfold get_self at 1. cbn [self tick].
  unfold bind at 1. unfold lift at 1.
  rewrite Hio, Hticks, Hto, Hexp.
  destruct (Z.ltb_spec (time_now_ms (io w) (ticks w) - time_start locals)
              (time_out_ms (self w))) as [Hin | Hout].
  - destruct (num_expected_sounds (self w)) as [e |] eqn:He; cbn [lt_optional].
    2:{ intros [= <- <-]. cbn. auto 10 with lia. }
    destruct (Z.ltb_spec (num_total_sounds (self w2)) e) as [Hless | Hmore].
    + intros [= <- <-]. cbn. rewrite Hticks. split_and!; eauto 10.
    + intros Hexit. apply sounds_exit_summary in Hexit.
      destruct Hexit as (Hio' & Hrx' & Hticks' & Hpev' & Hexp' & Hto' & Htot' & Hr).
      rewrite Hio', Hrx', Hticks', Hpev', Hexp', Hto', !Htot'.
      split_and!; try congruence.
      destruct r as [[locals' | [|]] | e']; try contradiction; [| lia].
      rewrite Haag in Hr. split_and!; eauto 10 with lia.
  - intros Hexit. apply sounds_exit_summary in Hexit.
    destruct Hexit as (Hio' & Hrx' & Hticks' & Hpev' & Hexp' & Hto' & Htot' & Hr).
    rewrite Hio', Hrx', Hticks', Hpev', Hexp', Hto', !Htot'.
    split_and!; try congruence.
    destruct r as [[locals' | [|]] | e']; try contradiction; [| lia].
    rewrite Haag in Hr. split_and!; eauto 10 with lia.
Qed.

(** ** The two loops over the groups *)

Lemma add_groups_seq (count start : nat) (profile sums sums' : list Z) :
  add_groups (seq start count) profile sums = Ok sums' ->
  length sums' = length sums /\
  forall group,
    sums' !! group =
      if bool_decide (start <= group < start + count)%nat
      then (fun a => a + nth group profile 0) <$> sums !! group
      else sums !! group.
Proof.
  revert start sums. induction count as [| count IH]; intros start sums.
  - cbn. intros [= <-]. split; [reflexivity |].
    intros group. rewrite bool_decide_eq_false_2 by lia. reflexivity.
  - cbn [seq add_groups].
    destruct (sums !! start) as [a |] eqn:Ha; [| discriminate].
    destruct (profile !! start) as [p |] eqn:Hp; [| discriminate].
    intros Hrest. apply IH in Hrest as (Hlen & Hlook).
    rewrite length_insert in Hlen.
    split; [exact Hlen |].
    intros group. rewrite Hlook.
    destruct (decide (group = start)) as [-> | Hne].
    + rewrite bool_decide_eq_false_2 by lia.
      rewrite bool_decide_eq_true_2 by lia.
      rewrite list_lookup_insert_eq by (apply lookup_lt_Some in Ha; lia).
      rewrite Ha. cbn. f_equal. f_equal.
      symmetry. apply nth_lookup_Some with (d := 0) in Hp. exact Hp.
    + rewrite list_lookup_insert_ne by congruence.
      destruct (decide (S start <= group < S start + count)%nat).
      * rewrite !bool_decide_eq_true_2 by lia. reflexivity.
      * rewrite !bool_decide_eq_false_2 by lia. reflexivity.
Qed.

Lemma average_groups_seq (count start : nat) (sums : list Z) (n : Z)
    (l : list Z) :
  (start + count <= length sums)%nat ->
  (start + count <= length l)%nat ->
  exists l',
    average_groups (seq start count) sums n (AagList l) = Ok (AagList l') /\
    length l' = length l /\
    forall group,
      l' !! group =
        if bool_decide (start <= group < start + count)%nat
        then (fun total => half_round (inject_Z total / inject_Z n)%Q)
               <$> sums !! group
        else l !! group.
Proof.
  revert start l. induction count as [| count IH]; intros start l Hs Hl.
  - exists l. cbn. split_and!; try reflexivity.
    intros group. rewrite bool_decide_eq_false_2 by lia. reflexivity.
  - cbn [seq average_groups].
    destruct (lookup_lt_is_Some_2 sums start) as [total Htotal]; [lia |].
    rewrite Htotal.
    rewrite bool_decide_eq_true_2 by lia.
    destruct (IH (S start)
                (<[start := half_round (inject_Z total / inject_Z n)%Q]> l))
      as (l' & Hrun & Hlen & Hlook); [lia | rewrite length_insert; lia |].
    exists l'. rewrite length_insert in Hlen. split_and!; try assumption.
    intros group. rewrite Hlook.
    destruct (decide (group = start)) as [-> | Hne].
    + rewrite bool_decide_eq_false_2 by lia.
      rewrite bool_decide_eq_true_2 by lia.
      rewrite list_lookup_insert_eq by lia. rewrite Htotal. reflexivity.
    + rewrite list_lookup_insert_ne by congruence.
      destruct (decide (S start <= group < S start + count)%nat).
      * rewrite !bool_decide_eq_true_2 by lia. reflexivity.
      * rewrite !bool_decide_eq_false_2 by lia. reflexivity.
Qed.


(** ** The accumulator holds the sums of the accepted profiles *)




Lemma sums_of_nil : sums_of [] = repeat 0 SLAC_GROUPS.
Proof. reflexivity. Qed.







Lemma sounds_prologue_unfold (w : World) :
  sounds_prologue w =
    (Ok {| sounds_rcvd := 0;
           aag_sums := repeat 0 SLAC_GROUPS;
           time_start := time_now_ms (io w) (ticks w);
           next_frame_expected := Some CM_MNBC_SOUND_IND |},
     with_self (set_num_total_sounds 0)
       (tick (with_self (set_aag (AagList (repeat 0 SLAC_GROUPS))) w))).
Proof. reflexivity. Qed.


(** ** Count and time when the loop is left *)

Lemma sounds_while_bound (fuel : nat) (locals : SoundsLocals)
    (w w' : World) :
  sounds_while fuel locals w = Stopped (Ok ReturnAfterCheck) w' ->
  (forall e, num_expected_sounds (self w) = Some e ->
             num_total_sounds (self w) < e) ->
  io w' = io w /\
  time_out_ms (self w') = time_out_ms (self w) /\
  num_expected_sounds (self w') = num_expected_sounds (self w) /\
  ((exists e, num_expected_sounds (self w) = Some e /\
              num_total_sounds (self w') <= e) \/
   time_out_ms (self w)
     <= time_now_ms (io w) (Nat.pred (ticks w')) - time_start locals).
Proof.
  revert locals w.
  induction fuel as [| fuel IH]; intros locals w; [discriminate |].
  cbn [sounds_while].
  destruct (sounds_iteration locals w) as [r w1] eqn:Hiter.
  apply sounds_iteration_summary in Hiter.
  destruct Hiter as (Hio & Hrx & Hpev & Hexp & Hto & Hr).
  destruct r as [[locals' | [|]] | e]; try discriminate.
  - intros Hrun Hbelow.
    destruct Hr as (Hstart & _ & _ & Hgo).
    apply IH in Hrun.
    + rewrite Hio, Hto, Hexp, Hstart in Hrun. exact Hrun.
    + intros e He. rewrite Hexp in He.
      destruct Hgo as [(_ & _ & ->) | (_ & _ & e' & He' & Hlt)].
      * apply Hbelow. exact He.
      * congruence.
  - intros [= <-] Hbelow.
    destruct Hr as (Hticks & Hwhy & sums' & Hacc & _).
    split_and!; try assumption.
    rewrite Hticks. cbn [Nat.pred].
    destruct Hwhy as [Hlate | (e & He & Hreached)]; [right; exact Hlate |].
    left. exists e. split; [exact He |].
    specialize (Hbelow e He).
    revert Hacc. unfold accumulated.
    destruct (accepted_profile _ _); intros [_ ->]; lia.
Qed.

Lemma sounds_while_expected (fuel : nat) (locals : SoundsLocals)
    (w w' : World) (r : result SoundsReturn) :
  sounds_while fuel locals w = Stopped r w' ->
  num_expected_sounds (self w') = num_expected_sounds (self w).
Proof.
  revert locals w.
  induction fuel as [| fuel IH]; intros locals w; [discriminate |].
  cbn [sounds_while].
  destruct (sounds_iteration locals w) as [r1 w1] eqn:Hiter.
  apply sounds_iteration_summary in Hiter.
  destruct Hiter as (_ & _ & _ & Hexp & _).
  destruct r1 as [[locals' | how] | e1].
  - intros Hended. rewrite (IH _ _ Hended). exact Hexp.
  - intros [= <- <-]. exact Hexp.
  - intros [= <- <-]. exact Hexp.
Qed.

(** With [num_expected_sounds] set, the count stays within it however the
    loop is left: by a return or by an exception. *)
Lemma sounds_while_count (fuel : nat) (locals : SoundsLocals)
    (w w' : World) (r : result SoundsReturn) (e : Z) :
  sounds_while fuel locals w = Stopped r w' ->
  num_expected_sounds (self w) = Some e ->
  num_total_sounds (self w) < e ->
  num_expected_sounds (self w') = Some e /\
  num_total_sounds (self w') <= e.
Proof.
  revert locals w.
  induction fuel as [| fuel IH]; intros locals w; [discriminate |].
  cbn [sounds_while].
  destruct (sounds_iteration locals w) as [r1 w1] eqn:Hiter.
  apply sounds_iteration_summary in Hiter.
  destruct Hiter as (_ & _ & _ & Hexp & _ & Hr).
  intros Hended He Hbelow. rewrite He in Hexp.
  destruct r1 as [[locals' | [|]] | e1].
  - destruct Hr as (_ & _ & _ & Hgo).
    apply (IH _ _ Hended Hexp).
    destruct Hgo as [(_ & _ & ->) | (_ & _ & e' & He' & Hlt)];
      [exact Hbelow | congruence].
  - injection Hended as <- <-. destruct Hr as [-> _].
    split; [exact Hexp | lia].
  - injection Hended as <- <-. destruct Hr as (_ & _ & sums' & Hacc & _).
    split; [exact Hexp |].
    revert Hacc. unfold accumulated.
    destruct (accepted_profile _ _); intros [_ ->]; lia.
  - injection Hended as <- <-. split; [exact Hexp | lia].
Qed.

(** C7 (amended): however [cm_sounds_loop] leaves its loop, by a return or
    by an exception, [num_total_sounds <= num_expected_sounds] holds when
    [num_expected_sounds] is set to at least 1; when it is not set, the
    loop returns after its check of time and count only if the sounding
    window has expired at the last clock reading. *)
Theorem sounds_loop_exit_bound (fuel : nat) (w w' : World)
    (r : result SoundsReturn) :
  (forall e, num_expected_sounds (self w) = Some e -> 1 <= e) ->
  cm_sounds_loop fuel w = Stopped r w' ->
  match num_expected_sounds (self w') with
  | Some e => num_total_sounds (self w') <= e
  | None =>
      r = Ok ReturnAfterCheck ->
      time_out_ms (self w')
        <= time_now_ms (io w') (Nat.pred (ticks w'))
           - time_now_ms (io w) (ticks w)
  end.
Proof.
  intros Hexp. unfold cm_sounds_loop. rewrite sounds_prologue_unfold.
  intros Hended.
  pose proof (sounds_while_expected _ _ _ _ _ Hended) as Hsame.
  cbn [self with_self tick num_expected_sounds set_num_total_sounds set_aag]
    in Hsame.
  rewrite Hsame.
  destruct (num_expected_sounds (self w)) as [e |] eqn:He.
  - apply (sounds_while_count _ _ _ _ _ e) in Hended as [_ Hle].
    + exact Hle.
    + exact He.
    + cbn. specialize (Hexp e eq_refl). lia.
  - intros ->. apply sounds_while_bound in Hended.
    + cbn [io self with_self tick time_out_ms num_expected_sounds
           set_num_total_sounds set_aag time_start] in Hended.
      destruct Hended as (-> & -> & _ & [(e & He2 & _) | Hlate]);
        [congruence | exact Hlate].
    + cbn. intros e He2. congruence.
Qed.

(** ** Frames that are not HomePlug frames of version 1 *)

Lemma sounds_while_foreign (fuel : nat) (locals : SoundsLocals)
    (w : World) :
  foreign_from w ->
  exists w',
    sounds_while fuel locals w = Running w' /\
    length (rx w') = (length (rx w) + fuel)%nat /\
    ticks w' = ticks w /\
    self w' = self w.
Proof.
  revert w. induction fuel as [| fuel IH]; intros w Hforeign.
  - exists w. cbn. split_and!; try reflexivity. lia.
  - destruct (Hforeign (length (rx w)) (next_frame_expected locals))
      as (data & eth & hp & Hread & Heth & Hhp & Hcheck); [lia |].
    cbn [sounds_while].
    rewrite (sounds_iteration_decoded _ _ _ _ _ Hread Heth Hhp).
    cbv zeta. rewrite Hcheck.
    destruct (IH (log_read (next_frame_expected locals) (Ok data) w))
      as (w' & Hrun & Hlen & Hticks & Hself).
    + intros n size Hn. apply Hforeign.
      cbn in Hn. rewrite length_app in Hn. lia.
    + exists w'. split; [exact Hrun |].
      cbn in Hlen. rewrite length_app in Hlen. cbn in Hlen, Hticks, Hself.
      split_and!; try assumption. lia.
Qed.

(** C9: the check of the sounding window is reached only through a frame
    of EtherType [0x88E1] and version [0x01].  When every read yields a
    frame that fails this test, the loop is still running after any number
    of iterations, whatever the clock shows: the only clock reading taken
    is the one before the loop. *)
Theorem sounds_loop_foreign_frames_forever (fuel : nat) (w : World) :
  foreign_from w ->
  exists w',
    cm_sounds_loop fuel w = Running w' /\
    length (rx w') = (length (rx w) + fuel)%nat /\
    ticks w' = S (ticks w) /\
    self w' = set_num_total_sounds 0
                (set_aag (AagList (repeat 0 SLAC_GROUPS)) (self w)).
Proof.
  intros Hforeign. unfold cm_sounds_loop. rewrite sounds_prologue_unfold.
  match goal with
  | |- context [sounds_while fuel ?l ?w0] =>
      destruct (sounds_while_foreign fuel l w0 Hforeign)
        as (w' & Hrun & Hlen & Hticks & Hself)
  end.
  exists w'. rewrite Hself.
  split_and!; [exact Hrun | exact Hlen | exact Hticks | reflexivity].
Qed.

(** ** HomePlug frames that are neither sounds nor profiles *)



(** ** [cm_slac_match] *)

(** C3 (amended): when the [CM_SLAC_MATCH.REQ] read by [cm_slac_match]
    carries another run identifier than the session's, the method raises
    [ValueError]: no [CM_SLAC_MATCH.CNF] is sent and the session, its state
    included, is left as it was. *)
Theorem slac_match_other_run_raises (w : World) (data : bytes)
    (eth : EthernetHeader) (hp : HomePlugHeader) (req : MatchReq) :
  readeth (io w) (length (rx w)) (Some CM_SLAC_MATCH_REQ) = Ok data ->
  EthernetHeader_from_bytes data = Ok eth ->
  HomePlugHeader_from_bytes data = Ok hp ->
  MatchReq_from_bytes data = Ok req ->
  mr_run_id req <> run_id (self w) ->
  cm_slac_match w =
    (Raise ValueError, log_read (Some CM_SLAC_MATCH_REQ) (Ok data) w).
Proof.
  intros Hread Heth Hhp Hreq Hrun.
  unfold cm_slac_match, try_except_Exception.
  unfold bind at 1. unfold rcv_frame. rewrite Hread.
  unfold bind at 1. unfold lift at 1. rewrite Heth.
  unfold bind at 1. unfold lift at 1. rewrite Hhp.
  unfold bind at 1. unfold lift at 1. rewrite Hreq.
  cbn [ret]. unfold bind at 1. unfold get_self at 1. cbn [self log_read].
  rewrite (bool_decide_eq_false_2 _ Hrun). cbn [negb].
  rewrite !orb_true_r. reflexivity.
Qed.

(** A well-formed request of the session's run is answered: the PEV
    identifier and address are stored, the confirmation is sent and the
    state becomes Matched. *)
Lemma slac_match_answers (w : World) (data : bytes)
    (eth : EthernetHeader) (hp : HomePlugHeader) (req : MatchReq) :
  readeth (io w) (length (rx w)) (Some CM_SLAC_MATCH_REQ) = Ok data ->
  EthernetHeader_from_bytes data = Ok eth ->
  HomePlugHeader_from_bytes data = Ok hp ->
  MatchReq_from_bytes data = Ok req ->
  ether_type eth = ETH_TYPE_HPAV ->
  mmv hp = HOMEPLUG_MMV ->
  mm_type hp = Z.lor CM_SLAC_MATCH MMTYPE_REQ ->
  mr_run_id req = run_id (self w) ->
  let s1 := set_pev_mac (mr_pev_mac req)
              (set_pev_id (Some (mr_pev_id req)) (self w)) in
  sendeth (io w) (length (tx w)) (slac_match_cnf s1) = Ok tt ->
  cm_slac_match w =
    (Ok tt,
     with_self (fun _ => set_state STATE_MATCHED s1)
       (log_send (slac_match_cnf s1)
          (log_read (Some CM_SLAC_MATCH_REQ) (Ok data) w))).
Proof.
  intros Hread Heth Hhp Hreq Hty Hmmv Hmm Hrun s1 Hsend.
  unfold cm_slac_match, try_except_Exception.
  unfold bind at 1. unfold rcv_frame. rewrite Hread.
  unfold bind at 1. unfold lift at 1. rewrite Heth.
  unfold bind at 1. unfold lift at 1. rewrite Hhp.
  unfold bind at 1. unfold lift at 1. rewrite Hreq.
  cbn [ret]. unfold bind at 1. unfold get_self at 1. cbn [self log_read].
  rewrite Hty, Hmmv, Hmm, !Z.eqb_refl.
  rewrite (bool_decide_eq_true_2 _ Hrun). cbn [negb orb].
  unfold bind, modify, get_self, send_frame, with_self; cbn.
  fold s1. rewrite Hsend. reflexivity.
Qed.

(** ** [evse_set_key] *)

Lemma wire_SetKeyCnf_confirmed (payload : bytes) :
  set_key_confirmed payload = true <->
  exists cnf, wire_SetKeyCnf payload = Ok cnf.
Proof.
  unfold set_key_confirmed, wire_SetKeyCnf.
  destruct (Nat.ltb_spec (length payload) 33) as [Hlt | Hge].
  - rewrite (proj2 (Nat.leb_gt _ _) Hlt). cbn [andb].
    split; [discriminate | intros [cnf Hcnf]; discriminate].
  - rewrite (proj2 (Nat.leb_le _ _) Hge). cbn [andb].
    destruct (byte_at 19 payload =? 255); cbn [negb].
    + split; [discriminate | intros [cnf Hcnf]; discriminate].
    + split; [eauto | reflexivity].
Qed.

Lemma wire_SetKeyCnf_raises (payload : bytes) (e : exn) :
  wire_SetKeyCnf payload = Raise e -> e = ValueError.
Proof.
  unfold wire_SetKeyCnf.
  destruct (length payload <? 33)%nat; [congruence |].
  destruct (byte_at 19 payload =? 255); congruence.
Qed.

(** [evse_set_key] step by step: the draw, the exchange with the modem,
    and the assignment of the keys when the decoder accepts the payload. *)
Lemma evse_set_key_unfold (w : World) :
  evse_set_key w =
    let nmk' := urandom (io w) (draws w) in
    let nid' := generate_nid nmk' in
    let frame := set_key_req (self w) nid' nmk' in
    let outcome :=
      send_recv_eth (io w) (length (rx w)) frame CM_SET_KEY_CNF in
    let w1 :=
      log_send frame
        (log_read (Some CM_SET_KEY_CNF) outcome (snd (draw w))) in
    match outcome with
    | Raise e => (Raise e, w1)
    | Ok payload =>
        match SetKeyCnf_from_bytes payload with
        | Ok _ =>
            let w2 := with_self (fun s => set_nid nid' (set_nmk nmk' s)) w1 in
            match asyncio_sleep (io w) (S (draws w)) SLAC_SETTLE_TIME with
            | Ok _ => (Ok payload, w2)
            | Raise e => (Raise e, w2)
            end
        | Raise e =>
            if is_ValueError e then (Ok payload, w1) else (Raise e, w1)
        end
    end.
Proof.
  unfold evse_set_key, bind, draw, get_self, call_send_recv_eth; cbn.
  destruct (send_recv_eth _ _ _ _) as [payload | e]; [| reflexivity].
  destruct (SetKeyCnf_from_bytes payload) as [cnf | e].
  - unfold sleep; cbn.
    destruct (asyncio_sleep _ _ _) as [[] | e]; reflexivity.
  - destruct (is_ValueError e); reflexivity.
Qed.

(** With the decoder of the specification, the new keys are stored exactly
    for the payloads whose result byte is not [0xFF]. *)
Lemma evse_set_key_commit_wire (w : World) (payload : bytes) :
  (forall b, SetKeyCnf_from_bytes b = wire_SetKeyCnf b) ->
  let nmk' := urandom (io w) (draws w) in
  let nid' := generate_nid nmk' in
  let s' := self (snd (evse_set_key w)) in
  send_recv_eth (io w) (length (rx w)) (set_key_req (self w) nid' nmk')
    CM_SET_KEY_CNF = Ok payload ->
  if set_key_confirmed payload
  then nmk s' = nmk' /\ nid s' = nid'
  else nmk s' = nmk (self w) /\ nid s' = nid (self w) /\
       fst (evse_set_key w) = Ok payload.
Proof.
  intros Hdec nmk' nid' s' Hrecv. subst s'.
  rewrite (evse_set_key_unfold w). cbv zeta. fold nmk'. fold nid'.
  rewrite Hrecv, Hdec.
  destruct (set_key_confirmed payload) eqn:Hok.
  - apply wire_SetKeyCnf_confirmed in Hok as [cnf Hcnf]. rewrite Hcnf.
    destruct (asyncio_sleep _ _ _) as [[] | e]; cbn; auto.
  - destruct (wire_SetKeyCnf payload) as [cnf | e] eqn:Hcnf.
    + assert (set_key_confirmed payload = true) as Hyes
        by (apply wire_SetKeyCnf_confirmed; eauto).
      congruence.
    + rewrite (wire_SetKeyCnf_raises _ _ Hcnf). cbn. auto.
Qed.

(** C5 (amended): [evse_set_key] stores the freshly drawn [nmk] and the
    [nid] derived from it exactly when [send_recv_eth] returns a payload
    that [SetKeyCnf.from_bytes] accepts; the method then sleeps for
    [SLAC_SETTLE_TIME] and returns the payload, unless the sleep raises (a
    cancellation), in which case the exception leaves the method with the
    new keys stored.  When the decoder raises [ValueError] the previous
    [nmk] and [nid] stay and the payload is returned without raising; any
    other exception of the decoder leaves the method, the previous keys in
    place.  When [send_recv_eth] itself raises, the previous [nmk] and [nid]
    stay as well, and the exception leaves the method.  The method never
    looks at the result byte itself. *)
Theorem evse_set_key_commit (w : World) :
  let nmk' := urandom (io w) (draws w) in
  let nid' := generate_nid nmk' in
  let r := fst (evse_set_key w) in
  let s' := self (snd (evse_set_key w)) in
  match send_recv_eth (io w) (length (rx w))
          (set_key_req (self w) nid' nmk') CM_SET_KEY_CNF with
  | Ok payload =>
      match SetKeyCnf_from_bytes payload with
      | Ok _ =>
          nmk s' = nmk' /\ nid s' = nid' /\
          match asyncio_sleep (io w) (S (draws w)) SLAC_SETTLE_TIME with
          | Ok _ => r = Ok payload
          | Raise e => r = Raise e
          end
      | Raise e =>
          nmk s' = nmk (self w) /\ nid s' = nid (self w) /\
          r = if is_ValueError e then Ok payload else Raise e
      end
  | Raise e =>
      r = Raise e /\ nmk s' = nmk (self w) /\ nid s' = nid (self w)
  end.
Proof.
  intros nmk' nid' r s'. subst r s'.
  rewrite (evse_set_key_unfold w). cbv zeta. fold nmk'. fold nid'.
  destruct (send_recv_eth (io w) (length (rx w))
              (set_key_req (self w) nid' nmk') CM_SET_KEY_CNF)
    as [payload | e]; [| cbn; auto].
  destruct (SetKeyCnf_from_bytes payload) as [cnf | e].
  - destruct (asyncio_sleep _ _ _) as [[] | e]; cbn; auto.
  - destruct (is_ValueError e); cbn; auto.
Qed.

(** ** [cm_atten_char] and [atten_charac_routine] *)

(** A response of another run with result 0: the state is set to Unmatched
    by the first test, the second test passes, and the method returns. *)
Lemma atten_char_other_run (w : World) (data : bytes)
    (eth : EthernetHeader) (hp : HomePlugHeader) (rsp : AtennCharRsp) :
  sendeth (io w) (length (tx w)) (atten_char_ind (self w)) = Ok tt ->
  readeth (io w) (length (rx w)) (Some CM_ATTEN_CHAR_RSP) = Ok data ->
  EthernetHeader_from_bytes data = Ok eth ->
  HomePlugHeader_from_bytes data = Ok hp ->
  AtennCharRsp_from_bytes data = Ok rsp ->
  acr_run_id rsp <> run_id (self w) ->
  acr_result rsp = 0 ->
  cm_atten_char w =
    (Ok tt,
     with_self (set_state STATE_UNMATCHED)
       (log_read (Some CM_ATTEN_CHAR_RSP) (Ok data)
          (log_send (atten_char_ind (self w)) w))).
Proof.
  intros Hsend Hread Heth Hhp Hrsp Hrun Hres.
  unfold cm_atten_char.
  unfold bind at 1. unfold get_self at 1. cbv zeta.
  unfold bind at 1. unfold send_frame. rewrite Hsend.
  unfold try_except_Exception.
  unfold bind at 1. unfold rcv_frame. cbn [io rx log_send]. rewrite Hread.
  unfold bind at 1. unfold lift at 1. rewrite Heth.
  unfold bind at 1. unfold lift at 1. rewrite Hhp.
  unfold bind at 1. unfold lift at 1. rewrite Hrsp.
  cbn [ret]. unfold bind at 1. unfold get_self at 1. cbn [self log_read log_send].
  assert (bool_decide (run_id (self w) = acr_run_id rsp) = false) as ->
    by (apply bool_decide_eq_false_2; congruence).
  cbn [negb]. rewrite !orb_true_r. rewrite Hres. cbn.
  reflexivity.
Qed.

(** C8: a [CM_ATTEN_CHAR.RSP] of another run with result byte 0 makes
    [cm_atten_char] set the state to Unmatched and return normally;
    [atten_charac_routine] goes on with [cm_slac_match], which answers a
    well-formed [CM_SLAC_MATCH.REQ] of the session's run and sets the
    state to Matched.  The two frames sent are the [CM_ATTEN_CHAR.IND] with
    the counts and the profile of the session, and the
    [CM_SLAC_MATCH.CNF], of message type [CM_SLAC_MATCH | MMTYPE_CNF],
    addressed to the [pev_mac] of the request and carrying the run
    identifier, [nid] and [nmk] of the session. *)
Theorem mismatched_rsp_then_matched (fuel : nat) (w0 w_s w : World)
    (how : SoundsReturn) (data1 data2 : bytes) (eth1 eth2 : EthernetHeader)
    (hp1 hp2 : HomePlugHeader) (rsp : AtennCharRsp) (req : MatchReq) :
  cm_start_atten_charac w0 = (Ok tt, w_s) ->
  cm_sounds_loop fuel w_s = Stopped (Ok how) w ->
  sendeth (io w) (length (tx w)) (atten_char_ind (self w)) = Ok tt ->
  readeth (io w) (length (rx w)) (Some CM_ATTEN_CHAR_RSP) = Ok data1 ->
  EthernetHeader_from_bytes data1 = Ok eth1 ->
  HomePlugHeader_from_bytes data1 = Ok hp1 ->
  AtennCharRsp_from_bytes data1 = Ok rsp ->
  acr_run_id rsp <> run_id (self w) ->
  acr_result rsp = 0 ->
  readeth (io w) (S (length (rx w))) (Some CM_SLAC_MATCH_REQ) = Ok data2 ->
  EthernetHeader_from_bytes data2 = Ok eth2 ->
  HomePlugHeader_from_bytes data2 = Ok hp2 ->
  MatchReq_from_bytes data2 = Ok req ->
  ether_type eth2 = ETH_TYPE_HPAV ->
  mmv hp2 = HOMEPLUG_MMV ->
  mm_type hp2 = Z.lor CM_SLAC_MATCH MMTYPE_REQ ->
  mr_run_id req = run_id (self w) ->
  let s1 := set_pev_mac (mr_pev_mac req)
              (set_pev_id (Some (mr_pev_id req))
                 (set_state STATE_UNMATCHED (self w))) in
  sendeth (io w) (S (length (tx w))) (slac_match_cnf s1) = Ok tt ->
  exists w1 w2,
    cm_atten_char w = (Ok tt, w1) /\
    state (self w1) = STATE_UNMATCHED /\
    atten_charac_routine fuel w0 = Some (Ok tt, w2) /\
    state (self w2) = STATE_MATCHED /\
    tx w2 =
      tx w ++
        [{| out_dst_mac := pev_mac (self w);
            out_src_mac := evse_mac (self w);
            out_mm_type := Z.lor CM_ATTEN_CHAR MMTYPE_IND;
            out_payload :=
              PAtennChar (pev_mac (self w)) (run_id (self w))
                (num_total_sounds (self w)) (num_groups (self w))
                (aag (self w)) |};
         {| out_dst_mac := mr_pev_mac req;
            out_src_mac := evse_mac (self w);
            out_mm_type := Z.lor CM_SLAC_MATCH MMTYPE_CNF;
            out_payload :=
              PMatchCnf (mr_pev_mac req) (evse_mac (self w))
                (run_id (self w)) (nid (self w)) (nmk (self w)) |}].
Proof.
  intros Hstart Hloop Hsend1 Hread1 Heth1 Hhp1 Hrsp Hrun1 Hres
    Hread2 Heth2 Hhp2 Hreq Hty Hmmv Hmm Hrun2 s1 Hsend2.
  pose proof (atten_char_other_run w data1 eth1 hp1 rsp
                Hsend1 Hread1 Heth1 Hhp1 Hrsp Hrun1 Hres) as Hchar.
  set (w1 := with_self (set_state STATE_UNMATCHED)
               (log_read (Some CM_ATTEN_CHAR_RSP) (Ok data1)
                  (log_send (atten_char_ind (self w)) w))) in *.
  assert (length (rx w1) = S (length (rx w))) as Hrx
    by (cbn; rewrite length_app; cbn; lia).
  assert (length (tx w1) = S (length (tx w))) as Htx
    by (cbn; rewrite length_app; cbn; lia).
  assert (cm_slac_match w1 =
            (Ok tt,
             with_self (fun _ => set_state STATE_MATCHED s1)
               (log_send (slac_match_cnf s1)
                  (log_read (Some CM_SLAC_MATCH_REQ) (Ok data2) w1))))
    as Hmatch.
  { apply (slac_match_answers w1 data2 eth2 hp2 req); try assumption.
    - rewrite Hrx. exact Hread2.
    - rewrite Htx. exact Hsend2. }
  eexists w1, _. repeat split.
  - exact Hchar.
  - unfold atten_charac_routine. rewrite Hstart, Hloop.
    unfold bind. rewrite Hchar. rewrite Hmatch. reflexivity.
  - reflexivity.
  - cbn. rewrite <- app_assoc. reflexivity.
Qed.

End Properties.

(** * Further properties *)

Section MoreProperties.
Context `{Imports}.

(** ** [cm_start_atten_charac] *)

(** [cm_start_atten_charac] step by step. *)
Lemma start_atten_charac_unfold (w : World) :
  cm_start_atten_charac w =
    let outcome :=
      readeth (io w) (length (rx w)) (Some CM_START_ATTEN_CHAR_IND) in
    let w1 := log_read (Some CM_START_ATTEN_CHAR_IND) outcome w in
    match decoded outcome StartAtennChar_from_bytes with
    | Raise e =>
        if is_Exception e
        then (Ok tt, with_self (set_state STATE_UNMATCHED) w1)
        else (Raise e, w1)
    | Ok (_, hp, sac) =>
        if (application_type (self w) =? sac_application_type sac)
           && (security_type (self w) =? sac_security_type sac)
           && bool_decide (run_id (self w) = sac_run_id sac)
           && (sac_resp_type sac =? SLAC_RESP_TYPE)
           && (mm_type hp =? Z.lor CM_START_ATTEN_CHAR MMTYPE_IND)
        then
          (Ok tt,
           with_self
             (fun s =>
                set_forwarding_sta (sac_forwarding_sta sac)
                  (set_time_out_ms (ATTEN_RESULTS_TIMEOUT * 100)
                     (set_num_expected_sounds (Some (sac_num_sounds sac))
                        s))) w1)
        else (Ok tt, with_self (set_state STATE_UNMATCHED) w1)
    end.
Proof.
  unfold cm_start_atten_charac, try_except_Exception, decoded.
  unfold bind at 1. unfold rcv_frame.
  destruct (readeth (io w) (length (rx w)) (Some CM_START_ATTEN_CHAR_IND))
    as [data | e]; [| cbn; destruct (is_Exception e); reflexivity].
  unfold bind at 1. unfold lift at 1.
  destruct (EthernetHeader_from_bytes data) as [eth | e];
    [| cbn; destruct (is_Exception e); reflexivity].
  unfold bind at 1. unfold lift at 1.
  destruct (HomePlugHeader_from_bytes data) as [hp | e];
    [| cbn; destruct (is_Exception e); reflexivity].
  unfold bind at 1. unfold lift at 1.
  destruct (StartAtennChar_from_bytes data) as [sac | e];
    [| cbn; destruct (is_Exception e); reflexivity].
  cbn [ret]. unfold bind at 1. unfold get_self at 1. cbn [self log_read].
  destruct (application_type (self w) =? sac_application_type sac);
    destruct (security_type (self w) =? sac_security_type sac);
    destruct (bool_decide (run_id (self w) = sac_run_id sac));
    destruct (sac_resp_type sac =? SLAC_RESP_TYPE);
    destruct (mm_type hp =? Z.lor CM_START_ATTEN_CHAR MMTYPE_IND);
    reflexivity.
Qed.

(** X1: [cm_start_atten_charac] makes one read and sends nothing, and how
    it ends is decided as follows.  If the read or one of the three
    decoders raises, an exception outside [Exception] (a cancellation)
    leaves the method, and any other one sets the state to Unmatched,
    changes nothing else and returns.  If the frame decodes, the
    application type, the security type and the run identifier of the
    session are compared with those of the frame, the response type of the
    frame with [SLAC_RESP_TYPE] and the message type with
    [CM_START_ATTEN_CHAR | MMTYPE_IND]: when all five agree, the number of
    sounds, the time out [ATTEN_RESULTS_TIMEOUT * 100] and the forwarding
    station are stored and the state is left alone; when one of them
    differs, the state is set to Unmatched and nothing else changes. *)
Theorem start_atten_charac_cases (w : World) :
  let outcome :=
    readeth (io w) (length (rx w)) (Some CM_START_ATTEN_CHAR_IND) in
  let w1 := log_read (Some CM_START_ATTEN_CHAR_IND) outcome w in
  let unmatched := (Ok tt, with_self (set_state STATE_UNMATCHED) w1) in
  match decoded outcome StartAtennChar_from_bytes with
  | Raise e =>
      cm_start_atten_charac w =
        if is_Exception e then unmatched else (Raise e, w1)
  | Ok (_, hp, sac) =>
      let all_agree :=
        application_type (self w) = sac_application_type sac /\
        security_type (self w) = sac_security_type sac /\
        run_id (self w) = sac_run_id sac /\
        sac_resp_type sac = SLAC_RESP_TYPE /\
        mm_type hp = Z.lor CM_START_ATTEN_CHAR MMTYPE_IND in
      (all_agree ->
       cm_start_atten_charac w =
         (Ok tt,
          with_self
            (fun s =>
               set_forwarding_sta (sac_forwarding_sta sac)
                 (set_time_out_ms (ATTEN_RESULTS_TIMEOUT * 100)
                    (set_num_expected_sounds (Some (sac_num_sounds sac))
                       s))) w1)) /\
      (~ all_agree -> cm_start_atten_charac w = unmatched)
  end.
Proof.
  cbv zeta. rewrite start_atten_charac_unfold. cbv zeta.
  destruct (decoded _ StartAtennChar_from_bytes) as [[[eth hp] sac] | e];
    [| reflexivity].
  destruct (Z.eqb_spec (application_type (self w)) (sac_application_type sac));
    [| split; [intros (? & _); contradiction | reflexivity]].
  destruct (Z.eqb_spec (security_type (self w)) (sac_security_type sac));
    [| split; [intros (_ & ? & _); contradiction | reflexivity]].
  destruct (bool_decide_reflect (run_id (self w) = sac_run_id sac));
    [| split; [intros (_ & _ & ? & _); contradiction | reflexivity]].
  destruct (Z.eqb_spec (sac_resp_type sac) SLAC_RESP_TYPE);
    [| split; [intros (_ & _ & _ & ? & _); contradiction | reflexivity]].
  destruct (Z.eqb_spec (mm_type hp) (Z.lor CM_START_ATTEN_CHAR MMTYPE_IND));
    [| split; [intros (_ & _ & _ & _ & ?); contradiction | reflexivity]].
  split; [reflexivity |].
  intros Hnot. exfalso. apply Hnot. auto.
Qed.

(** X2: a [CM_START_ATTEN_CHAR.IND] that decodes and passes the five tests
    is accepted: [num_expected_sounds] becomes its [num_sounds],
    [forwarding_sta] its [forwarding_sta], and [time_out_ms] becomes
    [ATTEN_RESULTS_TIMEOUT * 100] whatever [time_out] the frame carries.
    The state is not changed and nothing is sent. *)
Theorem start_atten_charac_accepts (w : World) (data : bytes)
    (eth : EthernetHeader) (hp : HomePlugHeader) (sac : StartAtennChar) :
  readeth (io w) (length (rx w)) (Some CM_START_ATTEN_CHAR_IND) = Ok data ->
  EthernetHeader_from_bytes data = Ok eth ->
  HomePlugHeader_from_bytes data = Ok hp ->
  StartAtennChar_from_bytes data = Ok sac ->
  sac_application_type sac = application_type (self w) ->
  sac_security_type sac = security_type (self w) ->
  sac_run_id sac = run_id (self w) ->
  sac_resp_type sac = SLAC_RESP_TYPE ->
  mm_type hp = Z.lor CM_START_ATTEN_CHAR MMTYPE_IND ->
  let w' := snd (cm_start_atten_charac w) in
  fst (cm_start_atten_charac w) = Ok tt /\
  num_expected_sounds (self w') = Some (sac_num_sounds sac) /\
  time_out_ms (self w') = ATTEN_RESULTS_TIMEOUT * 100 /\
  forwarding_sta (self w') = sac_forwarding_sta sac /\
  state (self w') = state (self w) /\
  tx w' = tx w.
Proof.
  intros Hread Heth Hhp Hsac Happ Hsec Hrun Hresp Hmm.
  unfold cm_start_atten_charac, try_except_Exception, bind, rcv_frame, lift.
  rewrite Hread, Heth, Hhp, Hsac.
  cbn [ret get_self self log_read].
  rewrite Happ, Hsec, Hresp, Hmm, !Z.eqb_refl.
  rewrite bool_decide_eq_true_2 by (symmetry; exact Hrun).
  cbn. auto 10.
Qed.

(** ** Bounds of the accumulation *)

Lemma add_groups_seq_bounds (count start : nat) (profile sums : list Z) :
  ((start + count <= length sums)%nat ->
   (start + count <= length profile)%nat ->
   exists sums', add_groups (seq start count) profile sums = Ok sums') /\
  ((0 < count)%nat ->
   (length sums < start + count \/ length profile < start + count)%nat ->
   add_groups (seq start count) profile sums = Raise IndexError).
Proof.
  revert start sums. induction count as [| count IH]; intros start sums.
  - split; [intros _ _; exists sums; reflexivity | lia].
  - cbn [seq add_groups]. split.
    + intros Hs Hp.
      destruct (lookup_lt_is_Some_2 sums start) as [a ->]; [lia |].
      destruct (lookup_lt_is_Some_2 profile start) as [p ->]; [lia |].
      apply IH; [rewrite length_insert |]; lia.
    + intros _ Hshort.
      destruct (sums !! start) as [a |] eqn:Ha; [| reflexivity].
      destruct (profile !! start) as [p |] eqn:Hp; [| reflexivity].
      apply lookup_lt_Some in Ha, Hp.
      apply IH; [| rewrite length_insert]; lia.
Qed.

(** X3: a [CM_ATTEN_PROFILE.IND] of the session's PEV that announces more
    groups than the accumulator has (58) or than the frame carries values
    makes [process_sound_frame] raise [IndexError]; the session is left as
    it was, so the sound is not counted. *)
Theorem profile_with_too_many_groups_raises (hp : HomePlugHeader)
    (eth : EthernetHeader) (data : bytes) (n : Z) (sums : list Z)
    (w : World) (p : AttenProfile) :
  mm_type hp = Z.lor CM_ATTEN_PROFILE MMTYPE_IND ->
  AttenProfile_from_bytes data = Ok p ->
  ap_pev_mac p = pev_mac (self w) ->
  (length sums < Z.to_nat (ap_num_groups p) \/
   length (ap_aag p) < Z.to_nat (ap_num_groups p))%nat ->
  process_sound_frame hp eth data n sums w = (Raise IndexError, w).
Proof.
  intros Hmm Hp Hpev Hmany.
  unfold process_sound_frame. rewrite Hmm, Z.eqb_refl.
  change (Z.lor CM_ATTEN_PROFILE MMTYPE_IND
          =? Z.lor CM_MNBC_SOUND MMTYPE_IND) with false. cbv iota.
  unfold bind, lift, get_self. rewrite Hp.
  rewrite bool_decide_eq_true_2 by (symmetry; exact Hpev).
  unfold range.
  rewrite (proj2 (add_groups_seq_bounds _ 0 (ap_aag p) sums)); [reflexivity | lia | lia].
Qed.

Lemma kept_by_sounding_refl (s : SlacSession) : kept_by_sounding s s.
Proof. unfold kept_by_sounding. auto 20. Qed.

Lemma kept_by_sounding_trans (s1 s2 s3 : SlacSession) :
  kept_by_sounding s1 s2 -> kept_by_sounding s2 s3 -> kept_by_sounding s1 s3.
Proof.
  unfold kept_by_sounding.
  intros (? & ? & ? & ? & ? & ? & ? & ? & ? & ? & ? & ? & ? & Hst1)
         (? & ? & ? & ? & ? & ? & ? & ? & ? & ? & ? & ? & ? & Hst2).
  split_and!; try congruence.
  destruct Hst1 as [Hst1 | Hst1], Hst2 as [Hst2 | Hst2];
    rewrite ?Hst2, ?Hst1; auto.
Qed.

Lemma process_sound_frame_kept (hp : HomePlugHeader) (eth : EthernetHeader)
    (data : bytes) (n : Z) (sums : list Z) (w : World) :
  let w1 := snd (process_sound_frame hp eth data n sums w) in
  tx w1 = tx w /\ draws w1 = draws w /\ aag (self w1) = aag (self w) /\
  kept_by_sounding (self w) (self w1).
Proof.
  unfold process_sound_frame, bind, lift, get_self, ret, raise, modify.
  repeat match goal with
         | |- context [if ?b then _ else _] => destruct b
         | |- context [match ?x with Ok _ => _ | Raise _ => _ end] =>
             destruct x
         end;
    cbn; unfold kept_by_sounding; cbn; auto 20.
Qed.

Lemma sounds_iteration_kept (locals : SoundsLocals) (w : World) :
  let w1 := snd (sounds_iteration locals w) in
  tx w1 = tx w /\ draws w1 = draws w /\
  kept_by_sounding (self w) (self w1).
Proof.
  destruct (sounds_iteration locals w) as [r w1] eqn:Hiter. cbn [snd].
  pose proof (sounds_iteration_summary _ _ _ _ Hiter) as Hsum.
  revert Hiter.
  destruct (readeth (io w) (length (rx w)) (next_frame_expected locals))
    as [data | e] eqn:Hread.
  2:{ rewrite (sounds_iteration_read_raises _ _ _ Hread). cbv zeta.
      destruct (is_Exception e); intros [= <- <-]; cbn;
        unfold kept_by_sounding; cbn; auto 20. }
  destruct (EthernetHeader_from_bytes data) as [eth | e] eqn:Heth.
  2:{ rewrite (sounds_iteration_header_raises _ _ _ e Hread) by auto.
      cbv zeta.
      destruct (is_Exception e); intros [= <- <-]; cbn;
        unfold kept_by_sounding; cbn; auto 20. }
  destruct (HomePlugHeader_from_bytes data) as [hp | e] eqn:Hhp.
  2:{ rewrite (sounds_iteration_header_raises _ _ _ e Hread) by eauto.
      cbv zeta.
      destruct (is_Exception e); intros [= <- <-]; cbn;
        unfold kept_by_sounding; cbn; auto 20. }
  rewrite (sounds_iteration_decoded _ _ _ _ _ Hread Heth Hhp). cbv zeta.
  destruct ((ether_type eth =? ETH_TYPE_HPAV) && (mmv hp =? HOMEPLUG_MMV)).
  2:{ intros [= <- <-]; cbn. split_and!; try reflexivity.
      apply kept_by_sounding_refl. }
  pose proof (process_sound_frame_kept hp eth data (sounds_rcvd locals)
                (aag_sums locals)
                (log_read (next_frame_expected locals) (Ok data) w))
    as Hkept.
  unfold bind at 1.
  destruct (process_sound_frame hp eth data (sounds_rcvd locals)
              (aag_sums locals)
              (log_read (next_frame_expected locals) (Ok data) w))
    as [[[size sums'] | e] w2]; cbn [snd self tx draws log_read] in Hkept;
    destruct Hkept as (Htx & Hdraws & Haag & Hkept).
  2:{ intros [= <- <-]. auto. }
  unfold bind, now, get_self, lift, modify, ret.
  repeat match goal with
         | |- context [if ?b then _ else _] => destruct b
         | |- context [match ?x with Ok _ => _ | Raise _ => _ end] =>
             destruct x
         | |- context [match ?x with Some _ => _ | None => _ end] =>
             destruct x
         end;
    cbn; intros [= <- <-]; cbn; split_and!; try assumption;
    (exact Hkept ||
     (eapply kept_by_sounding_trans; [exact Hkept |];
      unfold kept_by_sounding; cbn; auto 20)).
Qed.

Lemma sounds_while_kept (fuel : nat) (locals : SoundsLocals) (w : World) :
  let w' := final (sounds_while fuel locals w) in
  tx w' = tx w /\ draws w' = draws w /\
  kept_by_sounding (self w) (self w').
Proof.
  revert locals w. induction fuel as [| fuel IH]; intros locals w.
  - cbn. split_and!; try reflexivity. apply kept_by_sounding_refl.
  - cbn [sounds_while].
    pose proof (sounds_iteration_kept locals w) as Hstep.
    destruct (sounds_iteration locals w) as [[[locals' | how] | e] w1];
      cbn [snd] in Hstep; destruct Hstep as (Htx & Hdraws & Hkept).
    + specialize (IH locals' w1). cbv zeta in IH |- *.
      destruct IH as (Htx' & Hdraws' & Hkept').
      split_and!; try congruence.
      eapply kept_by_sounding_trans; eassumption.
    + cbn. auto.
    + cbn. auto.
Qed.

(** X4: however long [cm_sounds_loop] runs and however it ends, it sends
    no frame, draws no key, and leaves the keys, the run identifier, the
    addresses, [num_expected_sounds] and [time_out_ms] of the session as
    they were; the state is unchanged or Unmatched, never Matched anew. *)
Theorem sounds_loop_keeps_session (fuel : nat) (w : World) :
  let w' := final (cm_sounds_loop fuel w) in
  tx w' = tx w /\ draws w' = draws w /\
  kept_by_sounding (self w) (self w').
Proof.
  unfold cm_sounds_loop. rewrite sounds_prologue_unfold.
  match goal with
  | |- context [sounds_while fuel ?l ?w0] =>
      pose proof (sounds_while_kept fuel l w0) as Hkept
  end.
  cbv zeta in Hkept |- *. cbn [tx draws self with_self tick] in Hkept.
  destruct Hkept as (Htx & Hdraws & Hkept).
  split_and!; assumption.
Qed.

Lemma sounds_iteration_processed (locals : SoundsLocals) (w : World)
    (data : bytes) (eth : EthernetHeader) (hp : HomePlugHeader)
    (size : option FramesSizes) (sums : list Z) (w2 : World) :
  readeth (io w) (length (rx w)) (next_frame_expected locals) = Ok data ->
  EthernetHeader_from_bytes data = Ok eth ->
  HomePlugHeader_from_bytes data = Ok hp ->
  ether_type eth = ETH_TYPE_HPAV ->
  mmv hp = HOMEPLUG_MMV ->
  process_sound_frame hp eth data (sounds_rcvd locals) (aag_sums locals)
    (log_read (next_frame_expected locals) (Ok data) w)
    = (Ok (size, sums), w2) ->
  sounds_iteration locals w = check_and_finish locals size sums w2.
Proof.
  intros Hread Heth Hhp Hty Hmmv Hproc.
  rewrite (sounds_iteration_decoded _ _ _ _ _ Hread Heth Hhp). cbv zeta.
  rewrite Hty, Hmmv, !Z.eqb_refl. cbn [andb].
  unfold bind at 1. rewrite Hproc.
  unfold check_and_finish, bind, now, get_self, lift, modify, ret.
  cbn [self tick].
  destruct (time_now_ms (io w2) (ticks w2) - time_start locals
            <? time_out_ms (self w2)).
  - destruct (lt_optional _ _) as [[|] | e]; try reflexivity.
    destruct (0 <? num_total_sounds (self w2)); [| reflexivity].
    destruct (average_groups _ _ _ _); reflexivity.
  - destruct (0 <? num_total_sounds (self w2)); [| reflexivity].
    destruct (average_groups _ _ _ _); reflexivity.
Qed.

Lemma sounds_iteration_on_sound (locals : SoundsLocals) (w : World)
    (data : bytes) :
  readeth (io w) (length (rx w)) (next_frame_expected locals) = Ok data ->
  sound_of (run_id (self w)) (pev_mac (self w)) data ->
  sounds_iteration locals w =
    check_and_finish locals (Some CM_ATTEN_PROFILE_IND) (aag_sums locals)
      (log_read (next_frame_expected locals) (Ok data) w).
Proof.
  intros Hread (eth & hp & sound & Heth & Hhp & Hty & Hmmv & Hmm & Hsound
                & Hrun & Hsrc).
  apply (sounds_iteration_processed _ _ data eth hp); try assumption.
  unfold process_sound_frame. rewrite Hmm, Z.eqb_refl.
  unfold bind, lift, get_self. rewrite Hsound. cbn [self log_read].
  rewrite bool_decide_eq_true_2 by (symmetry; exact Hrun).
  rewrite bool_decide_eq_true_2 by (symmetry; exact Hsrc).
  reflexivity.
Qed.

Lemma sounds_iteration_on_profile (locals : SoundsLocals) (w : World)
    (data : bytes) (p : AttenProfile) :
  readeth (io w) (length (rx w)) (next_frame_expected locals) = Ok data ->
  profile_of (pev_mac (self w)) data p ->
  length (aag_sums locals) = SLAC_GROUPS ->
  exists sums',
    length sums' = SLAC_GROUPS /\
    sounds_iteration locals w =
      check_and_finish locals (Some CM_MNBC_SOUND_IND) sums'
        (with_self
           (fun s =>
              set_num_total_sounds (num_total_sounds s + 1)
                (set_num_groups (Some (ap_num_groups p)) s))
           (log_read (next_frame_expected locals) (Ok data) w)).
Proof.
  intros Hread (eth & hp & Heth & Hhp & Hty & Hmmv & Hmm & Hp & Hpev
                & Hfew & Hvalues) Hlen.
  destruct (proj1 (add_groups_seq_bounds (Z.to_nat (ap_num_groups p)) 0
                     (ap_aag p) (aag_sums locals)))
    as [sums' Hadd]; [lia | lia |].
  exists sums'. split.
  - apply add_groups_seq in Hadd as [Hlen' _]. congruence.
  - apply (sounds_iteration_processed _ _ data eth hp); try assumption.
    unfold process_sound_frame. rewrite Hmm, Z.eqb_refl.
    change (Z.lor CM_ATTEN_PROFILE MMTYPE_IND
            =? Z.lor CM_MNBC_SOUND MMTYPE_IND) with false. cbv iota.
    unfold bind, lift, get_self, modify, ret. rewrite Hp.
    cbn [self log_read].
    rewrite bool_decide_eq_true_2 by (symmetry; exact Hpev).
    unfold range. rewrite Hadd. reflexivity.
Qed.

(** More iterations allowed do not change how a run ends. *)
Lemma sounds_while_more_fuel (fuel extra : nat) (locals : SoundsLocals)
    (w w' : World) (r : result SoundsReturn) :
  sounds_while fuel locals w = Stopped r w' ->
  sounds_while (fuel + extra) locals w = Stopped r w'.
Proof.
  revert locals w. induction fuel as [| fuel IH]; intros locals w;
    [discriminate |].
  cbn [sounds_while Nat.add].
  destruct (sounds_iteration locals w) as [[[locals' | how] | e] w1];
    auto.
Qed.

(** X5: when [num_expected_sounds] is unset and a sound of the session
    arrives inside the window, the comparison of the count with [None]
    raises [TypeError], which leaves [cm_sounds_loop]. *)
Theorem sound_with_unset_expected_raises (fuel : nat)
    (locals : SoundsLocals) (w : World) (data : bytes) :
  readeth (io w) (length (rx w)) (next_frame_expected locals) = Ok data ->
  sound_of (run_id (self w)) (pev_mac (self w)) data ->
  num_expected_sounds (self w) = None ->
  time_now_ms (io w) (ticks w) - time_start locals < time_out_ms (self w) ->
  sounds_while (S fuel) locals w =
    Stopped (Raise TypeError)
      (tick (log_read (next_frame_expected locals) (Ok data) w)).
Proof.
  intros Hread Hsound Hunset Htime. cbn [sounds_while].
  rewrite (sounds_iteration_on_sound _ _ _ Hread Hsound).
  unfold check_and_finish. cbn [self io ticks log_read].
  rewrite (proj2 (Z.ltb_lt _ _) Htime), Hunset. reflexivity.
Qed.

(** X6: once the window has expired, a sound of the session ends the loop
    by the return after the check, whatever [num_expected_sounds] is, set
    or not.  With no profile counted so far [aag] is left as it is;
    otherwise every entry of [aag] becomes the half-rounded quotient of
    the group's sum in the accumulator by [num_total_sounds].  The
    accumulator and [aag] have their 58 entries, as they have throughout
    every run of [cm_sounds_loop]. *)
Theorem sound_after_expiry_returns (fuel : nat) (locals : SoundsLocals)
    (w : World) (data : bytes) (l : list Z) :
  readeth (io w) (length (rx w)) (next_frame_expected locals) = Ok data ->
  sound_of (run_id (self w)) (pev_mac (self w)) data ->
  time_out_ms (self w) <= time_now_ms (io w) (ticks w) - time_start locals ->
  length (aag_sums locals) = SLAC_GROUPS ->
  aag (self w) = AagList l ->
  length l = SLAC_GROUPS ->
  let n := num_total_sounds (self w) in
  let w1 := tick (log_read (next_frame_expected locals) (Ok data) w) in
  sounds_while (S fuel) locals w =
    Stopped (Ok ReturnAfterCheck)
      (if 0 <? n
       then
         with_self
           (set_aag
              (AagList
                 ((fun total => half_round (inject_Z total / inject_Z n)%Q)
                    <$> aag_sums locals))) w1
       else w1).
Proof.
  intros Hread Hsound Hlate Hsums Haag Hlen n w1. cbn [sounds_while].
  rewrite (sounds_iteration_on_sound _ _ _ Hread Hsound).
  unfold check_and_finish. cbn [self io ticks log_read].
  rewrite (proj2 (Z.ltb_ge _ _) Hlate). fold n.
  destruct (0 <? n); [| reflexivity].
  destruct (average_groups_seq SLAC_GROUPS 0 (aag_sums locals) n l)
    as (l' & Hrun & Hlen' & Hlook); [lia | lia |].
  rewrite Haag, Hrun.
  assert (l' = (fun total => half_round (inject_Z total / inject_Z n)%Q)
                 <$> aag_sums locals) as ->; [| reflexivity].
  apply list_eq. intros group. rewrite Hlook, list_lookup_fmap.
  case_bool_decide as Hin; [reflexivity |].
  rewrite (proj2 (lookup_ge_None l group)) by lia.
  rewrite (proj2 (lookup_ge_None (aag_sums locals) group)) by lia.
  reflexivity.
Qed.

Lemma sounds_while_pairs (k : nat) (locals : SoundsLocals) (w : World) :
  next_frame_expected locals = Some CM_MNBC_SOUND_IND ->
  length (aag_sums locals) = SLAC_GROUPS ->
  (exists l, aag (self w) = AagList l /\ length l = SLAC_GROUPS) ->
  0 <= num_total_sounds (self w) ->
  num_expected_sounds (self w)
    = Some (num_total_sounds (self w) + Z.of_nat (S k)) ->
  (forall i, (i <= k)%nat ->
     exists data,
       readeth (io w) (length (rx w) + 2 * i) (Some CM_MNBC_SOUND_IND)
         = Ok data /\
       sound_of (run_id (self w)) (pev_mac (self w)) data) ->
  (forall i, (i <= k)%nat ->
     exists data p,
       readeth (io w) (length (rx w) + 2 * i + 1)
         (Some CM_ATTEN_PROFILE_IND) = Ok data /\
       profile_of (pev_mac (self w)) data p) ->
  (forall j, (j < 2 * k + 1)%nat ->
     time_now_ms (io w) (ticks w + j) - time_start locals
       < time_out_ms (self w)) ->
  exists w',
    sounds_while (2 * S k) locals w = Stopped (Ok ReturnAfterCheck) w' /\
    num_total_sounds (self w') = num_total_sounds (self w) + Z.of_nat (S k) /\
    length (rx w') = (length (rx w) + 2 * S k)%nat.
Proof.
  revert locals w. induction k as [| k IH];
    intros locals w Hsize Hlen (l & Haag & Hl) Hpos Hexp Hsounds Hprofiles
      Hclock.
  all: destruct (Hsounds 0%nat) as (data1 & Hread1 & Hsound1); [lia |].
  all: destruct (Hprofiles 0%nat) as (data2 & p & Hread2 & Hprofile2);
    [lia |].
  all: rewrite Nat.mul_0_r, Nat.add_0_r in Hread1, Hread2.
  all: rewrite <- Hsize in Hread1.
  all: pose proof (sounds_iteration_on_sound _ _ _ Hread1 Hsound1) as Hit1.
  all: unfold check_and_finish in Hit1; cbn [self io ticks log_read] in Hit1.
  all: pose proof (Hclock 0%nat ltac:(lia)) as Hc0;
    rewrite Nat.add_0_r in Hc0.
  all: rewrite (proj2 (Z.ltb_lt _ _) Hc0), Hexp in Hit1;
    cbn [lt_optional] in Hit1.
  all: rewrite (proj2 (Z.ltb_lt (num_total_sounds (self w)) _)) in Hit1
    by lia.
  all: match type of Hit1 with
       | _ = (Ok (Continue ?la), ?wa) => set (locals1 := la) in *;
                                         set (w1 := wa) in *
       end.
  all: assert (readeth (io w1) (length (rx w1))
                 (next_frame_expected locals1) = Ok data2) as Hread2'
    by (cbn; rewrite length_app; cbn [length]; exact Hread2).
  all: destruct (sounds_iteration_on_profile locals1 w1 data2 p Hread2'
                   Hprofile2 Hlen) as (sums' & Hlen' & Hit2).
  all: unfold check_and_finish in Hit2;
    cbn [self io ticks log_read with_self tick w1 time_start locals1
         time_out_ms num_total_sounds num_expected_sounds aag
         set_num_total_sounds set_num_groups] in Hit2;
    rewrite Hexp in Hit2.
  - (* the last pair *)
    assert ((if time_now_ms (io w) (S (ticks w)) - time_start locals
                <? time_out_ms (self w)
             then lt_optional (num_total_sounds (self w) + 1)
                    (Some (num_total_sounds (self w) + Z.of_nat 1))
             else Ok false) = Ok false) as Hstop.
    { destruct (_ <? time_out_ms (self w)); [| reflexivity].
      cbn [lt_optional]. f_equal. apply Z.ltb_ge. lia. }
    rewrite Hstop in Hit2.
    rewrite (proj2 (Z.ltb_lt 0 (num_total_sounds (self w) + 1))) in Hit2
      by lia.
    rewrite Haag in Hit2.
    destruct (average_groups_seq SLAC_GROUPS 0 sums'
                (num_total_sounds (self w) + 1) l)
      as (l' & Havg & _); [lia | lia |].
    rewrite Havg in Hit2.
    eexists. split; [| split].
    + cbn [sounds_while Nat.mul Nat.add]. rewrite Hit1, Hit2. reflexivity.
    + cbn. lia.
    + cbn. rewrite !length_app. cbn [length]. lia.
  - (* a pair that is not the last *)
    pose proof (Hclock 1%nat ltac:(lia)) as Hc1.
    replace (ticks w + 1)%nat with (S (ticks w)) in Hc1 by lia.
    rewrite (proj2 (Z.ltb_lt _ _) Hc1) in Hit2. cbn [lt_optional] in Hit2.
    rewrite (proj2 (Z.ltb_lt (num_total_sounds (self w) + 1) _)) in Hit2
      by lia.
    match type of Hit2 with
    | _ = (Ok (Continue ?lb), ?wb) => set (locals2 := lb) in *;
                                      set (w2 := wb) in *
    end.
    destruct (IH locals2 w2) as (w' & Hended & Htotal & Hrx).
    + reflexivity.
    + exact Hlen'.
    + exists l. split; [exact Haag | exact Hl].
    + cbn. lia.
    + cbn. rewrite Hexp. f_equal. lia.
    + intros i Hi. destruct (Hsounds (S i)) as (d & Hd & Hs); [lia |].
      exists d. split; [| exact Hs].
      cbn [w2 w1 rx io tick with_self log_read].
      rewrite !length_app. cbn [length].
      replace (length (rx w) + 1 + 1 + 2 * i)%nat
        with (length (rx w) + 2 * S i)%nat by lia.
      exact Hd.
    + intros i Hi. destruct (Hprofiles (S i)) as (d & q & Hd & Hq); [lia |].
      exists d, q. split; [| exact Hq].
      cbn [w2 w1 rx io tick with_self log_read].
      rewrite !length_app. cbn [length].
      replace (length (rx w) + 1 + 1 + 2 * i + 1)%nat
        with (length (rx w) + 2 * S i + 1)%nat by lia.
      exact Hd.
    + intros j Hj.
      cbn [w2 w1 locals2 locals1 ticks io self tick with_self log_read
           time_start time_out_ms set_num_total_sounds set_num_groups].
      replace (S (S (ticks w)) + j)%nat with (ticks w + (2 + j))%nat by lia.
      apply Hclock. lia.
    + exists w'. split; [| split].
      * replace (2 * S (S k))%nat with (S (S (2 * S k))) by lia.
        cbn [sounds_while]. rewrite Hit1, Hit2. exact Hended.
      * rewrite Htotal. cbn. lia.
      * rewrite Hrx. cbn. rewrite !length_app. cbn [length]. lia.
Qed.

(** X7: when [num_expected_sounds] is [e >= 1] and the reads yield [e]
    times a sound of the session followed by a profile of the session's
    PEV, all inside the window up to the last profile, [cm_sounds_loop]
    returns after the check having read exactly [2 * e] frames, with
    [num_total_sounds = e]; [2 * e] iterations are enough. *)
Theorem sounds_loop_all_sounds_received (e fuel : nat) (w : World) :
  (1 <= e)%nat ->
  (2 * e <= fuel)%nat ->
  num_expected_sounds (self w) = Some (Z.of_nat e) ->
  (forall i, (i < e)%nat ->
     exists data,
       readeth (io w) (length (rx w) + 2 * i) (Some CM_MNBC_SOUND_IND)
         = Ok data /\
       sound_of (run_id (self w)) (pev_mac (self w)) data) ->
  (forall i, (i < e)%nat ->
     exists data p,
       readeth (io w) (length (rx w) + 2 * i + 1)
         (Some CM_ATTEN_PROFILE_IND) = Ok data /\
       profile_of (pev_mac (self w)) data p) ->
  (forall j, (1 <= j < 2 * e)%nat ->
     time_now_ms (io w) (ticks w + j) - time_now_ms (io w) (ticks w)
       < time_out_ms (self w)) ->
  exists w',
    cm_sounds_loop fuel w = Stopped (Ok ReturnAfterCheck) w' /\
    num_total_sounds (self w') = Z.of_nat e /\
    length (rx w') = (length (rx w) + 2 * e)%nat.
Proof.
  intros He Hfuel Hexp Hsounds Hprofiles Hclock.
  destruct e as [| k]; [lia |].
  unfold cm_sounds_loop. rewrite sounds_prologue_unfold.
  match goal with
  | |- context [sounds_while fuel ?l ?w0] =>
      destruct (sounds_while_pairs k l w0) as (w' & Hended & Htotal & Hrx)
  end.
  - reflexivity.
  - reflexivity.
  - exists (repeat 0 SLAC_GROUPS). split; reflexivity.
  - cbn. lia.
  - cbn [self with_self tick num_expected_sounds num_total_sounds
         set_num_total_sounds set_aag].
    rewrite Hexp. f_equal.
  - intros i Hi. apply Hsounds. lia.
  - intros i Hi. apply Hprofiles. lia.
  - intros j Hj.
    cbn [self io ticks with_self tick time_out_ms time_start
         set_num_total_sounds set_aag].
    replace (S (ticks w) + j)%nat with (ticks w + S j)%nat by lia.
    apply Hclock. lia.
  - exists w'. split; [| split].
    + replace fuel with (2 * S k + (fuel - 2 * S k))%nat by lia.
      apply sounds_while_more_fuel. exact Hended.
    + rewrite Htotal. cbn. lia.
    + rewrite Hrx. reflexivity.
Qed.

(** ** [cm_atten_char], in general *)

(** X8: when the indication is sent and the response is read and decoded,
    [cm_atten_char] returns normally; the session is left as it was if
    the response has EtherType [0x88E1], version [0x01], the session's run
    identifier and result 0, and otherwise only the state changes, to
    Unmatched.  The [mm_type] of the response plays no part. *)
Theorem atten_char_verdict (w : World) (data : bytes)
    (eth : EthernetHeader) (hp : HomePlugHeader) (rsp : AtennCharRsp) :
  sendeth (io w) (length (tx w)) (atten_char_ind (self w)) = Ok tt ->
  readeth (io w) (length (rx w)) (Some CM_ATTEN_CHAR_RSP) = Ok data ->
  EthernetHeader_from_bytes data = Ok eth ->
  HomePlugHeader_from_bytes data = Ok hp ->
  AtennCharRsp_from_bytes data = Ok rsp ->
  let w1 := log_read (Some CM_ATTEN_CHAR_RSP) (Ok data)
              (log_send (atten_char_ind (self w)) w) in
  cm_atten_char w =
    (Ok tt,
     if (ether_type eth =? ETH_TYPE_HPAV) && (mmv hp =? HOMEPLUG_MMV)
        && bool_decide (run_id (self w) = acr_run_id rsp)
        && (acr_result rsp =? 0)
     then w1
     else with_self (set_state STATE_UNMATCHED) w1).
Proof.
  intros Hsend Hread Heth Hhp Hrsp w1.
  unfold cm_atten_char.
  unfold bind at 1. unfold get_self at 1. cbv zeta.
  unfold bind at 1. unfold send_frame. rewrite Hsend.
  unfold try_except_Exception.
  unfold bind at 1. unfold rcv_frame. cbn [io rx log_send]. rewrite Hread.
  unfold bind at 1. unfold lift at 1. rewrite Heth.
  unfold bind at 1. unfold lift at 1. rewrite Hhp.
  unfold bind at 1. unfold lift at 1. rewrite Hrsp.
  cbn [ret]. unfold bind at 1. unfold get_self at 1.
  cbn [self log_read log_send]. fold w1.
  destruct (ether_type eth =? ETH_TYPE_HPAV);
    destruct (mmv hp =? HOMEPLUG_MMV);
    destruct (bool_decide (run_id (self w) = acr_run_id rsp));
    destruct (acr_result rsp =? 0); reflexivity.
Qed.

(** [cm_atten_char] step by step. *)
Lemma atten_char_unfold (w : World) :
  cm_atten_char w =
    match sendeth (io w) (length (tx w)) (atten_char_ind (self w)) with
    | Raise e => (Raise e, w)
    | Ok _ =>
        let outcome :=
          readeth (io w) (length (rx w)) (Some CM_ATTEN_CHAR_RSP) in
        let w1 := log_read (Some CM_ATTEN_CHAR_RSP) outcome
                    (log_send (atten_char_ind (self w)) w) in
        match decoded outcome AtennCharRsp_from_bytes with
        | Raise e =>
            if is_Exception e
            then (Ok tt, with_self (set_state STATE_UNMATCHED) w1)
            else (Raise e, w1)
        | Ok (eth, hp, rsp) =>
            (Ok tt,
             if (ether_type eth =? ETH_TYPE_HPAV)
                && (mmv hp =? HOMEPLUG_MMV)
                && bool_decide (run_id (self w) = acr_run_id rsp)
                && (acr_result rsp =? 0)
             then w1
             else with_self (set_state STATE_UNMATCHED) w1)
        end
    end.
Proof.
  unfold cm_atten_char.
  unfold bind at 1. unfold get_self at 1. cbv zeta.
  unfold bind at 1. unfold send_frame.
  destruct (sendeth (io w) (length (tx w)) (atten_char_ind (self w)))
    as [[] | e]; [| reflexivity].
  unfold try_except_Exception, bind, rcv_frame, lift, decoded.
  cbn [io rx log_send].
  destruct (readeth (io w) (length (rx w)) (Some CM_ATTEN_CHAR_RSP))
    as [data | e]; [| destruct (is_Exception e); reflexivity].
  destruct (EthernetHeader_from_bytes data) as [eth | e];
    [| destruct (is_Exception e); reflexivity].
  destruct (HomePlugHeader_from_bytes data) as [hp | e];
    [| destruct (is_Exception e); reflexivity].
  destruct (AtennCharRsp_from_bytes data) as [rsp | e];
    [| destruct (is_Exception e); reflexivity].
  cbn [ret get_self self log_read log_send].
  destruct (ether_type eth =? ETH_TYPE_HPAV);
    destruct (mmv hp =? HOMEPLUG_MMV);
    destruct (bool_decide (run_id (self w) = acr_run_id rsp));
    destruct (acr_result rsp =? 0); reflexivity.
Qed.

(** X9: whatever happens, [cm_atten_char] changes nothing in the session
    but the state, and that only to Unmatched.  If sending the indication
    raises, the exception leaves the method before anything is read.
    Otherwise exactly the indication built from the session is sent,
    exactly one read is made, and no exception of class [Exception]
    leaves the method. *)
Theorem atten_char_effects (w : World) :
  let r := fst (cm_atten_char w) in
  let w' := snd (cm_atten_char w) in
  (self w' = self w \/ self w' = set_state STATE_UNMATCHED (self w)) /\
  match sendeth (io w) (length (tx w)) (atten_char_ind (self w)) with
  | Raise e => r = Raise e /\ w' = w
  | Ok _ =>
      tx w' = tx w ++ [atten_char_ind (self w)] /\
      length (rx w') = S (length (rx w)) /\
      (r = Ok tt \/ exists e, r = Raise e /\ is_Exception e = false)
  end.
Proof.
  cbv zeta. rewrite atten_char_unfold.
  destruct (sendeth (io w) (length (tx w)) (atten_char_ind (self w)))
    as [[] | e]; [| cbn; auto].
  cbv zeta.
  destruct (decoded _ AtennCharRsp_from_bytes) as [[[eth hp] rsp] | e].
  - destruct (_ && _); cbn; rewrite length_app; cbn;
      split_and!; auto; lia.
  - destruct (is_Exception e) eqn:He; cbn; rewrite length_app; cbn;
      split_and!; eauto; lia.
Qed.

(** ** [cm_slac_match], in general *)

(** [cm_slac_match] step by step. *)
Lemma slac_match_unfold (w : World) :
  cm_slac_match w =
    let outcome := readeth (io w) (length (rx w)) (Some CM_SLAC_MATCH_REQ) in
    let w1 := log_read (Some CM_SLAC_MATCH_REQ) outcome w in
    match decoded outcome MatchReq_from_bytes with
    | Raise e =>
        if is_Exception e
        then (Ok tt, with_self (set_state STATE_UNMATCHED) w1)
        else (Raise e, w1)
    | Ok (eth, hp, req) =>
        if (ether_type eth =? ETH_TYPE_HPAV) && (mmv hp =? HOMEPLUG_MMV)
           && (mm_type hp =? Z.lor CM_SLAC_MATCH MMTYPE_REQ)
           && bool_decide (mr_run_id req = run_id (self w))
        then
          let s1 := set_pev_mac (mr_pev_mac req)
                      (set_pev_id (Some (mr_pev_id req)) (self w)) in
          let w2 := with_self (fun _ => s1) w1 in
          match sendeth (io w) (length (tx w)) (slac_match_cnf s1) with
          | Ok _ =>
              (Ok tt,
               with_self (set_state STATE_MATCHED)
                 (log_send (slac_match_cnf s1) w2))
          | Raise e => (Raise e, w2)
          end
        else (Raise ValueError, w1)
    end.
Proof.
  unfold cm_slac_match, try_except_Exception, decoded.
  unfold bind at 1. unfold rcv_frame.
  destruct (readeth (io w) (length (rx w)) (Some CM_SLAC_MATCH_REQ))
    as [data | e]; [| cbn; destruct (is_Exception e); reflexivity].
  unfold bind at 1. unfold lift at 1.
  destruct (EthernetHeader_from_bytes data) as [eth | e];
    [| cbn; destruct (is_Exception e); reflexivity].
  unfold bind at 1. unfold lift at 1.
  destruct (HomePlugHeader_from_bytes data) as [hp | e];
    [| cbn; destruct (is_Exception e); reflexivity].
  unfold bind at 1. unfold lift at 1.
  destruct (MatchReq_from_bytes data) as [req | e];
    [| cbn; destruct (is_Exception e); reflexivity].
  cbn [ret]. unfold bind at 1. unfold get_self at 1. cbn [self log_read].
  destruct (ether_type eth =? ETH_TYPE_HPAV);
    destruct (mmv hp =? HOMEPLUG_MMV);
    destruct (mm_type hp =? Z.lor CM_SLAC_MATCH MMTYPE_REQ);
    destruct (bool_decide (mr_run_id req = run_id (self w)));
    cbn [negb orb andb]; try reflexivity.
  unfold bind, modify, get_self, send_frame, with_self; cbn.
  destruct (sendeth _ _ _) as [[] | e]; reflexivity.
Qed.

(** X10: [cm_slac_match] brings a session that is not Matched to Matched
    only by answering: the call returns normally, the frame read decodes to
    a [CM_SLAC_MATCH.REQ] with the session's run identifier, exactly one
    frame is sent, the [CM_SLAC_MATCH.CNF] with the session's [nid] and
    [nmk] addressed to the [pev_mac] of the request, and [pev_id] and
    [pev_mac] are those of the request. *)
Theorem slac_match_matched_needs_cnf (w : World) :
  state (self w) <> STATE_MATCHED ->
  state (self (snd (cm_slac_match w))) = STATE_MATCHED ->
  let w' := snd (cm_slac_match w) in
  fst (cm_slac_match w) = Ok tt /\
  (exists eth hp req,
     decoded (readeth (io w) (length (rx w)) (Some CM_SLAC_MATCH_REQ))
       MatchReq_from_bytes = Ok (eth, hp, req) /\
     mm_type hp = Z.lor CM_SLAC_MATCH MMTYPE_REQ /\
     mr_run_id req = run_id (self w) /\
     pev_mac (self w') = mr_pev_mac req /\
     pev_id (self w') = Some (mr_pev_id req)) /\
  tx w' = tx w ++ [slac_match_cnf (self w')] /\
  out_dst_mac (slac_match_cnf (self w')) = pev_mac (self w') /\
  out_payload (slac_match_cnf (self w')) =
    PMatchCnf (pev_mac (self w')) (evse_mac (self w)) (run_id (self w))
      (nid (self w)) (nmk (self w)).
Proof.
  intros Hbefore. cbv zeta. rewrite slac_match_unfold. cbv zeta.
  destruct (decoded _ MatchReq_from_bytes) as [[[eth hp] req] | e].
  2:{ destruct (is_Exception e); cbn; intros Hst; [discriminate | tauto]. }
  destruct (ether_type eth =? ETH_TYPE_HPAV); [| cbn; tauto].
  destruct (mmv hp =? HOMEPLUG_MMV); [| cbn; tauto].
  destruct (Z.eqb_spec (mm_type hp) (Z.lor CM_SLAC_MATCH MMTYPE_REQ))
    as [Hmm |]; [| cbn; tauto].
  case_bool_decide as Hrun; [| cbn; tauto].
  cbn [andb].
  destruct (sendeth _ _ _) as [[] | e]; [| cbn; tauto].
  intros _. cbn. split_and!; eauto 10.
Qed.

(** X11: whatever it reads, [cm_slac_match] makes exactly one read, sends
    at most one frame, and leaves the keys, the run identifier and the
    station's own addresses alone.  When an exception leaves the method,
    the state is the one the session had. *)
Theorem slac_match_effects (w : World) :
  let r := fst (cm_slac_match w) in
  let w' := snd (cm_slac_match w) in
  length (rx w') = S (length (rx w)) /\
  (tx w' = tx w \/ tx w' = tx w ++ [slac_match_cnf (self w')]) /\
  nmk (self w') = nmk (self w) /\ nid (self w') = nid (self w) /\
  run_id (self w') = run_id (self w) /\
  evse_mac (self w') = evse_mac (self w) /\
  evse_plc_mac (self w') = evse_plc_mac (self w) /\
  num_total_sounds (self w') = num_total_sounds (self w) /\
  aag (self w') = aag (self w) /\
  match r with
  | Ok _ => state (self w') = STATE_UNMATCHED /\ tx w' = tx w
            \/ state (self w') = STATE_MATCHED /\ tx w' <> tx w
  | Raise e => state (self w') = state (self w) /\ tx w' = tx w
  end.
Proof.
  cbv zeta. rewrite slac_match_unfold. cbv zeta.
  destruct (decoded _ MatchReq_from_bytes) as [[[eth hp] req] | e].
  2:{ destruct (is_Exception e); cbn; rewrite length_app; cbn;
        split_and!; auto; lia. }
  destruct (_ && _).
  2:{ cbn; rewrite length_app; cbn; split_and!; auto; lia. }
  destruct (sendeth _ _ _) as [[] | e]; cbn; rewrite length_app; cbn;
    split_and!; auto; try lia.
  right. split; [reflexivity |].
  intros Heq. apply (f_equal length) in Heq.
  rewrite length_app in Heq. cbn in Heq. lia.
Qed.

(** X12: a [CM_SLAC_MATCH.REQ] that passes every test is recorded before
    the answer is sent.  If sending the answer raises, the exception
    leaves [cm_slac_match] with [pev_id] and [pev_mac] already replaced by
    those of the request, the state untouched and nothing logged as
    sent. *)
Theorem slac_match_send_raises (w : World) (eth : EthernetHeader)
    (hp : HomePlugHeader) (req : MatchReq) (e : exn) :
  decoded (readeth (io w) (length (rx w)) (Some CM_SLAC_MATCH_REQ))
    MatchReq_from_bytes = Ok (eth, hp, req) ->
  ether_type eth = ETH_TYPE_HPAV ->
  mmv hp = HOMEPLUG_MMV ->
  mm_type hp = Z.lor CM_SLAC_MATCH MMTYPE_REQ ->
  mr_run_id req = run_id (self w) ->
  sendeth (io w) (length (tx w))
    (slac_match_cnf (set_pev_mac (mr_pev_mac req)
                       (set_pev_id (Some (mr_pev_id req)) (self w))))
    = Raise e ->
  let w' := snd (cm_slac_match w) in
  fst (cm_slac_match w) = Raise e /\
  pev_id (self w') = Some (mr_pev_id req) /\
  pev_mac (self w') = mr_pev_mac req /\
  state (self w') = state (self w) /\
  tx w' = tx w.
Proof.
  intros Hdec Hty Hmmv Hmm Hrun Hsend. cbv zeta.
  rewrite slac_match_unfold. cbv zeta. rewrite Hdec.
  rewrite Hty, Hmmv, Hmm, !Z.eqb_refl.
  rewrite (bool_decide_eq_true_2 _ Hrun). cbn [andb].
  rewrite Hsend. cbn. auto.
Qed.

(** ** [evse_set_key] and [leave_logical_network] *)

(** X13: in a session whose [nid] is the one derived from its [nmk], this
    is still so after [evse_set_key] and after [leave_logical_network],
    however they end. *)
Theorem key_pair_stays_consistent (w : World) :
  nid (self w) = generate_nid (nmk (self w)) ->
  let s1 := self (snd (evse_set_key w)) in
  let s2 := self (snd (leave_logical_network w)) in
  nid s1 = generate_nid (nmk s1) /\ nid s2 = generate_nid (nmk s2).
Proof.
  intros Hpair. cbv zeta.
  unfold leave_logical_network, bind, modify.
  rewrite evse_set_key_unfold. cbv zeta.
  destruct (send_recv_eth _ _ _ _) as [payload | e]; [| cbn; auto].
  destruct (SetKeyCnf_from_bytes payload) as [cnf | e].
  - destruct (asyncio_sleep _ _ _) as [[] | e]; cbn; auto.
  - destruct (is_ValueError e); cbn; auto.
Qed.

(** X14: [leave_logical_network] resets the session only if
    [evse_set_key] returns.  Then the session is the reset of the session
    left by [evse_set_key]: state Unmatched, run identifier, EV address and
    the station's own [evse_mac] empty, and the key pair either the old
    one or the new one.  If [evse_set_key] raises, the exception leaves
    [leave_logical_network] and nothing is reset: the session is the one
    before the call, or, when the sleep after a confirmed key was
    interrupted, the one before the call with the new key pair stored.
    In both cases one key is drawn and one [CM_SET_KEY.REQ] is handed to
    the adapter. *)
Theorem leave_logical_network_cases (w : World) :
  let nmk' := urandom (io w) (draws w) in
  let nid' := generate_nid nmk' in
  let r := fst (leave_logical_network w) in
  let w' := snd (leave_logical_network w) in
  draws w' = S (draws w) /\
  tx w' = tx w ++ [set_key_req (self w) nid' nmk'] /\
  length (rx w') = S (length (rx w)) /\
  match fst (evse_set_key w) with
  | Raise e =>
      r = Raise e /\
      w' = snd (evse_set_key w) /\
      match send_recv_eth (io w) (length (rx w))
              (set_key_req (self w) nid' nmk') CM_SET_KEY_CNF with
      | Ok payload =>
          match SetKeyCnf_from_bytes payload with
          | Ok _ => self w' = set_nid nid' (set_nmk nmk' (self w))
          | Raise _ => self w' = self w
          end
      | Raise _ => self w' = self w
      end
  | Ok _ =>
      r = Ok tt /\
      (self w' = reset (self w) \/
       self w' = reset (set_nid nid' (set_nmk nmk' (self w)))) /\
      state (self w') = STATE_UNMATCHED /\
      evse_mac (self w') = [] /\ pev_mac (self w') = [] /\
      run_id (self w') = [] /\
      evse_plc_mac (self w') = evse_plc_mac (self w)
  end.
Proof.
  cbv zeta. unfold leave_logical_network, bind, modify.
  rewrite evse_set_key_unfold. cbv zeta.
  destruct (send_recv_eth _ _ _ _) as [payload | e].
  2:{ cbn. rewrite length_app. cbn. split_and!; auto; lia. }
  destruct (SetKeyCnf_from_bytes payload) as [cnf | e].
  { destruct (asyncio_sleep _ _ _) as [[] | e];
      cbn; rewrite length_app; cbn; split_and!; auto; lia. }
  destruct (is_ValueError e); cbn; rewrite length_app; cbn;
    split_and!; auto; lia.
Qed.

(** The frame that [evse_set_key] hands to the adapter, however it ends. *)
Lemma evse_set_key_sends (w : World) :
  tx (snd (evse_set_key w)) =
    tx w ++ [set_key_req (self w)
               (generate_nid (urandom (io w) (draws w)))
               (urandom (io w) (draws w))].
Proof.
  rewrite evse_set_key_unfold. cbv zeta.
  destruct (send_recv_eth _ _ _ _) as [payload | e]; [| reflexivity].
  destruct (SetKeyCnf_from_bytes payload) as [cnf | e].
  - destruct (asyncio_sleep _ _ _) as [[] | e]; reflexivity.
  - destruct (is_ValueError e); reflexivity.
Qed.

(** X15: after [leave_logical_network] has returned, the session no longer
    knows the host address: the next [evse_set_key] sends its
    [CM_SET_KEY.REQ] with an empty source address, to the same
    [evse_plc_mac] as before. *)
Theorem set_key_after_leave_has_no_source (w w1 : World) :
  leave_logical_network w = (Ok tt, w1) ->
  exists frame,
    tx (snd (evse_set_key w1)) = tx w1 ++ [frame] /\
    out_src_mac frame = [] /\
    out_dst_mac frame = evse_plc_mac (self w) /\
    out_mm_type frame = Z.lor CM_SET_KEY MMTYPE_REQ.
Proof.
  intros Hleave.
  assert (Hself : evse_mac (self w1) = [] /\
                  evse_plc_mac (self w1) = evse_plc_mac (self w)).
  { revert Hleave. unfold leave_logical_network, bind, modify.
    rewrite evse_set_key_unfold. cbv zeta.
    destruct (send_recv_eth _ _ _ _) as [payload | e]; [| intros [=]].
    destruct (SetKeyCnf_from_bytes payload) as [cnf | e].
    - destruct (asyncio_sleep _ _ _) as [[] | e]; intros [= <-].
      cbn. auto.
    - destruct (is_ValueError e); intros [= <-]. cbn. auto. }
  destruct Hself as [Hmac Hplc].
  eexists. split; [apply evse_set_key_sends |].
  cbn. auto.
Qed.

(** ** What [cm_sounds_loop] leaves in [aag] *)

Lemma average_groups_list (groups : list nat) (sums : list Z) (n : Z)
    (l : list Z) (a : AagValue) :
  average_groups groups sums n (AagList l) = Ok a ->
  exists l', a = AagList l' /\ length l' = length l.
Proof.
  revert l. induction groups as [| group rest IH]; intros l; cbn.
  - intros [= <-]. eauto.
  - destruct (sums !! group); [| discriminate].
    case_bool_decide; [| discriminate].
    intros Hrest. apply IH in Hrest as (l' & -> & Hlen).
    rewrite length_insert in Hlen. eauto.
Qed.

Lemma sounds_iteration_aag (locals : SoundsLocals) (w : World) :
  aag_is_list (self w) ->
  aag_is_list (self (snd (sounds_iteration locals w))).
Proof.
  intros Hlist.
  destruct (readeth (io w) (length (rx w)) (next_frame_expected locals))
    as [data | e] eqn:Hread.
  2:{ rewrite (sounds_iteration_read_raises _ _ _ Hread). cbv zeta.
      destruct (is_Exception e); exact Hlist. }
  destruct (EthernetHeader_from_bytes data) as [eth | e] eqn:Heth.
  2:{ rewrite (sounds_iteration_header_raises _ _ _ e Hread) by auto.
      cbv zeta. destruct (is_Exception e); exact Hlist. }
  destruct (HomePlugHeader_from_bytes data) as [hp | e] eqn:Hhp.
  2:{ rewrite (sounds_iteration_header_raises _ _ _ e Hread) by eauto.
      cbv zeta. destruct (is_Exception e); exact Hlist. }
  rewrite (sounds_iteration_decoded _ _ _ _ _ Hread Heth Hhp). cbv zeta.
  destruct ((ether_type eth =? ETH_TYPE_HPAV) && (mmv hp =? HOMEPLUG_MMV));
    [| exact Hlist].
  unfold bind at 1.
  destruct (process_sound_frame hp eth data (sounds_rcvd locals)
              (aag_sums locals)
              (log_read (next_frame_expected locals) (Ok data) w))
    as [[[size sums'] | e] w2] eqn:Hproc;
    apply process_sound_frame_summary in Hproc;
    cbn [self log_read] in Hproc;
    destruct Hproc as (_ & _ & _ & _ & _ & _ & _ & Haag & _).
  2:{ unfold aag_is_list. cbn [snd]. rewrite Haag. exact Hlist. }
  assert (Hlist2 : aag_is_list (self w2))
    by (unfold aag_is_list; rewrite Haag; exact Hlist).
  clear Haag Hlist Hread.
  unfold bind at 1. unfold now at 1.
  unfold bind at 1. unfold get_self at 1. cbn [self tick].
  unfold bind at 1. unfold lift at 1.
  destruct (if _ <? time_out_ms (self w2)
            then lt_optional (num_total_sounds (self w2))
                   (num_expected_sounds (self w2))
            else Ok false) as [[|] | e]; try exact Hlist2.
  destruct (0 <? num_total_sounds (self w2)); [| exact Hlist2].
  unfold bind, lift, modify, ret.
  destruct Hlist2 as (l & Hl & Hlen). cbn [self tick].
  destruct (average_groups (seq 0 SLAC_GROUPS) sums'
              (num_total_sounds (self w2)) (aag (self w2)))
    as [averaged | e] eqn:Havg.
  - rewrite Hl in Havg. apply average_groups_list in Havg as (l' & -> & Hl').
    exists l'. cbn. split; [reflexivity | congruence].
  - exists l. cbn. auto.
Qed.

Lemma sounds_while_aag (fuel : nat) (locals : SoundsLocals) (w : World) :
  aag_is_list (self w) ->
  aag_is_list (self (final (sounds_while fuel locals w))).
Proof.
  revert locals w. induction fuel as [| fuel IH]; intros locals w Hlist;
    [exact Hlist |].
  cbn [sounds_while].
  pose proof (sounds_iteration_aag locals w Hlist) as Hstep.
  destruct (sounds_iteration locals w) as [[[locals' | how] | e] w1];
    cbn [snd] in Hstep; [apply IH | |]; exact Hstep.
Qed.

(** X16: whatever [aag] held before (the [Field] object left by [reset]
    included), however long [cm_sounds_loop] runs and however it ends,
    [aag] is a list of 58 entries: the averaging at the end of the loop
    never leaves it shorter or of another kind. *)
Theorem sounds_loop_aag_is_list (fuel : nat) (w : World) :
  aag_is_list (self (final (cm_sounds_loop fuel w))).
Proof.
  unfold cm_sounds_loop. rewrite sounds_prologue_unfold.
  apply sounds_while_aag.
  exists (repeat 0 SLAC_GROUPS). split; [reflexivity | apply repeat_length].
Qed.

(** ** [atten_charac_routine] on a link that has gone silent *)

(** [cm_start_atten_charac] when its read raises. *)
Lemma start_atten_charac_read_raises (w : World) (e : exn) :
  readeth (io w) (length (rx w)) (Some CM_START_ATTEN_CHAR_IND) = Raise e ->
  cm_start_atten_charac w =
    let w1 := log_read (Some CM_START_ATTEN_CHAR_IND) (Raise e) w in
    if is_Exception e
    then (Ok tt, with_self (set_state STATE_UNMATCHED) w1)
    else (Raise e, w1).
Proof.
  intros Hread.
  unfold cm_start_atten_charac, try_except_Exception, bind, rcv_frame.
  rewrite Hread. cbn. destruct (is_Exception e); reflexivity.
Qed.

(** X17: [atten_charac_routine] runs its four steps whatever the earlier
    ones found.  When every read fails with an exception of class
    [Exception] (a timeout, say) and frames can be sent, the routine
    returns normally after four reads, one for each step; the sounding loop
    makes a single read and takes the time once; and [cm_atten_char] still
    sends a [CM_ATTEN_CHAR.IND], reporting zero sounds and an all-zero
    profile.  The session ends Unmatched. *)
Theorem routine_on_silent_link (fuel : nat) (w : World) :
  (forall n size, (length (rx w) <= n)%nat ->
     exists e, readeth (io w) n size = Raise e /\ is_Exception e = true) ->
  (forall frame, sendeth (io w) (length (tx w)) frame = Ok tt) ->
  exists w',
    atten_charac_routine (S fuel) w = Some (Ok tt, w') /\
    state (self w') = STATE_UNMATCHED /\
    fst <$> rx w' =
      (fst <$> rx w) ++ [Some CM_START_ATTEN_CHAR_IND; Some CM_MNBC_SOUND_IND;
                         Some CM_ATTEN_CHAR_RSP; Some CM_SLAC_MATCH_REQ] /\
    tx w' =
      tx w ++ [atten_char_ind
                 (set_num_total_sounds 0
                    (set_aag (AagList (repeat 0 SLAC_GROUPS)) (self w)))] /\
    ticks w' = S (ticks w).
Proof.
  intros Hreads Hsend.
  destruct (Hreads (length (rx w)) (Some CM_START_ATTEN_CHAR_IND))
    as (e1 & Hr1 & He1); [lia |].
  destruct (Hreads (S (length (rx w))) (Some CM_MNBC_SOUND_IND))
    as (e2 & Hr2 & He2); [lia |].
  destruct (Hreads (S (S (length (rx w)))) (Some CM_ATTEN_CHAR_RSP))
    as (e3 & Hr3 & He3); [lia |].
  destruct (Hreads (S (S (S (length (rx w))))) (Some CM_SLAC_MATCH_REQ))
    as (e4 & Hr4 & He4); [lia |].
  unfold atten_charac_routine.
  rewrite (start_atten_charac_read_raises _ _ Hr1). cbv zeta. rewrite He1.
  unfold cm_sounds_loop. rewrite sounds_prologue_unfold.
  cbn [sounds_while].
  rewrite (sounds_iteration_read_raises _ _ e2).
  2:{ cbn [io rx with_self tick log_read next_frame_expected].
      rewrite length_app. cbn [length].
      replace (length (rx w) + 1)%nat with (S (length (rx w))) by lia.
      exact Hr2. }
  cbv zeta. rewrite He2.
  unfold bind at 1. rewrite atten_char_unfold.
  cbn [io tx rx self with_self tick log_read].
  rewrite Hsend. cbv zeta.
  rewrite !length_app. cbn [length].
  replace (length (rx w) + 1 + 1)%nat with (S (S (length (rx w)))) by lia.
  rewrite Hr3. cbn [decoded]. rewrite He3.
  rewrite slac_match_unfold.
  cbn [io tx rx self with_self tick log_read log_send].
  cbv zeta.
  rewrite !length_app. cbn [length].
  replace (length (rx w) + 1 + 1 + 1)%nat
    with (S (S (S (length (rx w))))) by lia.
  rewrite Hr4. cbn [decoded]. rewrite He4.
  eexists. split; [reflexivity |].
  cbn [self with_self log_read log_send tick rx tx ticks].
  split_and!; try reflexivity.
  rewrite !fmap_app. cbn. rewrite <- !app_assoc. reflexivity.
Qed.

(** ** [reset] *)

(** X18: what [reset] returns depends on nothing in the session but the
    key pair, the message counter and the modem address; in particular a
    second [reset] changes nothing. *)
Theorem reset_keeps_only_keys (s s' : SlacSession) :
  nmk s = nmk s' -> nid s = nid s' ->
  mqtt_msg_counter s = mqtt_msg_counter s' ->
  evse_plc_mac s = evse_plc_mac s' ->
  reset s = reset s' /\ reset (reset s) = reset s.
Proof.
  intros Hnmk Hnid Hmqtt Hplc. unfold reset. cbn.
  rewrite Hnmk, Hnid, Hmqtt, Hplc. auto.
Qed.

(** ** [is_link_status_active] *)

Section LinkStatusProperties.
Variable EthernetHeader_pack_big : bytes -> bytes -> bytes.
Variable send_recv_raw : nat -> bytes -> FramesSizes -> result bytes.

(** X19: when the adapter returns a payload, [is_link_status_active]
    returns [True] exactly when byte 15 of the payload is [0xB9] and byte
    16 is [0xA0], the little-endian image of [LINK_STATUS | MMTYPE_CNF].  A
    payload that is too short to hold them gives [False], not an
    exception, and the session is untouched whatever the verdict. *)
Theorem link_status_verdict (w : World) (payload : bytes) :
  send_recv_raw (length (rx w))
    (link_status_req EthernetHeader_pack_big (self w)) LINK_STATUS_CNF
    = Ok payload ->
  Forall (fun b => 0 <= b < 256) payload ->
  exists verdict : bool,
    is_link_status_active EthernetHeader_pack_big send_recv_raw w =
      (Ok verdict, log_read (Some LINK_STATUS_CNF) (Ok payload) w) /\
    (verdict = true <->
     payload !! 15%nat = Some 0xB9 /\ payload !! 16%nat = Some 0xA0).
Proof.
  intros Hrecv Hbytes.
  unfold is_link_status_active, bind, get_self. cbv zeta.
  rewrite Hrecv.
  assert (H15 : payload !! 15%nat = drop 15 payload !! 0%nat)
    by (rewrite lookup_drop; reflexivity).
  assert (H16 : payload !! 16%nat = drop 15 payload !! 1%nat)
    by (rewrite lookup_drop; reflexivity).
  assert (Hdrop : Forall (fun b => 0 <= b < 256) (drop 15 payload))
    by (apply Forall_drop; exact Hbytes).
  unfold slice. rewrite H15, H16. clear H15 H16.
  destruct (drop 15 payload) as [| b0 [| b1 rest]].
  - exists false. split; [reflexivity |]. cbn. split; [discriminate |].
    intros [[=] _].
  - inversion Hdrop as [| ? ? Hb0 _]; subst.
    exists false. split.
    + unfold int_from_bytes_little, int_from_bytes_big. cbn.
      destruct (Z.eqb_spec (0 * 256 + b0) (Z.lor LINK_STATUS MMTYPE_CNF))
        as [Heq |];
        [| reflexivity].
      exfalso. change (Z.lor LINK_STATUS MMTYPE_CNF) with 41145 in Heq. lia.
    + cbn. split; [discriminate |]. intros [_ [=]].
  - inversion Hdrop as [| ? ? Hb0 Hdrop']; subst.
    inversion Hdrop' as [| ? ? Hb1 _]; subst.
    change (take 2 (b0 :: b1 :: rest)) with [b0; b1].
    unfold int_from_bytes_little, int_from_bytes_big.
    cbn [rev app fold_left].
    change (Z.lor LINK_STATUS MMTYPE_CNF) with 41145.
    destruct (Z.eqb_spec ((0 * 256 + b1) * 256 + b0) 41145) as [Heq | Hne].
    + exists true. split; [reflexivity |]. cbn.
      split; [| reflexivity]. intros _. split; f_equal; lia.
    + exists false. split; [reflexivity |]. cbn.
      split; [discriminate |]. intros [[= ->] [= ->]]. lia.
Qed.

End LinkStatusProperties.

(** ** [evse_slac_parm] *)

Section SlacParmProperties.
Variable SlacParmReq_from_bytes : bytes -> result SlacParmReq.
Variable reset_socket : result unit.
Variable sendeth_parm_cnf : nat -> ParmCnfFrame -> result unit.

(** [evse_slac_parm] step by step. *)
Lemma slac_parm_unfold (pw : ParmWorld) :
  evse_slac_parm SlacParmReq_from_bytes reset_socket sendeth_parm_cnf pw =
    let w := world pw in
    let sent := parm_cnf_sent pw in
    match reset_socket with
    | Raise e => (Raise e, pw)
    | Ok _ =>
        let outcome :=
          readeth (io w) (length (rx w)) (Some CM_SLAC_PARM_REQ) in
        let w1 := log_read (Some CM_SLAC_PARM_REQ) outcome w in
        let unmatched :=
          (Ok tt, {| world := with_self (set_state STATE_UNMATCHED) w1;
                     parm_cnf_sent := sent |}) in
        let raised e :=
          (Raise e, {| world := w1; parm_cnf_sent := sent |}) in
        match outcome with
        | Raise e => if is_TimeoutError e then unmatched else raised e
        | Ok _ =>
            match decoded outcome SlacParmReq_from_bytes with
            | Raise e => if is_Exception e then unmatched else raised e
            | Ok (eth, hp, req) =>
                if mm_type hp =? Z.lor CM_SLAC_PARM MMTYPE_REQ
                then
                  let s3 :=
                    set_forwarding_sta (src_mac eth)
                      (set_pev_mac (src_mac eth)
                         (set_run_id (spr_run_id req)
                            (set_security_type (spr_security_type req)
                               (set_application_type
                                  (spr_application_type req) (self w))))) in
                  let w3 := with_self (fun _ => s3) w1 in
                  match sendeth_parm_cnf (length sent) (slac_parm_cnf s3) with
                  | Raise e =>
                      (Raise e, {| world := w3; parm_cnf_sent := sent |})
                  | Ok _ =>
                      (Ok tt,
                       {| world := with_self (set_state STATE_MATCHING) w3;
                          parm_cnf_sent := sent ++ [slac_parm_cnf s3] |})
                  end
                else unmatched
            end
        end
    end.
Proof.
  unfold evse_slac_parm. cbv zeta.
  destruct reset_socket as [[] | e]; [| reflexivity].
  unfold rcv_frame, decoded.
  destruct (readeth (io (world pw)) (length (rx (world pw)))
              (Some CM_SLAC_PARM_REQ)) as [data | e].
  2:{ destruct (is_TimeoutError e); reflexivity. }
  unfold bind at 1. unfold lift at 1.
  destruct (EthernetHeader_from_bytes data) as [eth | e];
    [| destruct (is_Exception e); reflexivity].
  unfold bind at 1. unfold lift at 1.
  destruct (HomePlugHeader_from_bytes data) as [hp | e];
    [| destruct (is_Exception e); reflexivity].
  unfold bind at 1. unfold lift at 1.
  destruct (SlacParmReq_from_bytes data) as [req | e];
    [| destruct (is_Exception e); reflexivity].
  cbn [ret].
  destruct (mm_type hp =? Z.lor CM_SLAC_PARM MMTYPE_REQ); cbn [negb];
    [| reflexivity].
  cbn [self with_self log_read].
  destruct (sendeth_parm_cnf _ _) as [[] | e]; reflexivity.
Qed.


(** X21: the read of [evse_slac_parm] is guarded against [TimeoutError]
    only.  On a [TimeoutError] the method returns with the session
    Unmatched; any other exception of the read leaves the method, and the
    session is as it was.  In both cases nothing is sent. *)
Theorem slac_parm_read_raises (pw : ParmWorld) (e : exn) :
  reset_socket = Ok tt ->
  readeth (io (world pw)) (length (rx (world pw))) (Some CM_SLAC_PARM_REQ)
    = Raise e ->
  let pw' := snd (evse_slac_parm SlacParmReq_from_bytes reset_socket sendeth_parm_cnf pw) in
  parm_cnf_sent pw' = parm_cnf_sent pw /\
  tx (world pw') = tx (world pw) /\
  if is_TimeoutError e
  then fst (evse_slac_parm SlacParmReq_from_bytes reset_socket sendeth_parm_cnf pw) = Ok tt /\
       self (world pw') = set_state STATE_UNMATCHED (self (world pw))
  else fst (evse_slac_parm SlacParmReq_from_bytes reset_socket sendeth_parm_cnf pw) = Raise e /\
       self (world pw') = self (world pw).
Proof.
  intros Hsock Hread. cbv zeta. rewrite slac_parm_unfold. cbv zeta.
  rewrite Hsock, Hread.
  destruct (is_TimeoutError e); cbn; auto.
Qed.

(** X22: what [evse_slac_parm] stores is what [cm_start_atten_charac]
    checks.  After a request has been answered, a
    [CM_START_ATTEN_CHAR.IND] that repeats the application type, the
    security type and the run identifier of the request and asks for the
    response type of the station is accepted: the number of sounds it
    announces becomes [num_expected_sounds] and the session stays in
    Matching. *)
Theorem start_atten_charac_after_parm (pw pw1 : ParmWorld)
    (eth0 : EthernetHeader) (hp0 : HomePlugHeader) (req : SlacParmReq)
    (eth : EthernetHeader) (hp : HomePlugHeader) (sac : StartAtennChar) :
  evse_slac_parm SlacParmReq_from_bytes reset_socket sendeth_parm_cnf pw = (Ok tt, pw1) ->
  state (self (world pw1)) = STATE_MATCHING ->
  decoded (readeth (io (world pw)) (length (rx (world pw)))
             (Some CM_SLAC_PARM_REQ)) SlacParmReq_from_bytes
    = Ok (eth0, hp0, req) ->
  decoded (readeth (io (world pw)) (S (length (rx (world pw))))
             (Some CM_START_ATTEN_CHAR_IND)) StartAtennChar_from_bytes
    = Ok (eth, hp, sac) ->
  mm_type hp = Z.lor CM_START_ATTEN_CHAR MMTYPE_IND ->
  sac_application_type sac = spr_application_type req ->
  sac_security_type sac = spr_security_type req ->
  sac_run_id sac = spr_run_id req ->
  sac_resp_type sac = SLAC_RESP_TYPE ->
  let w2 := snd (cm_start_atten_charac (world pw1)) in
  fst (cm_start_atten_charac (world pw1)) = Ok tt /\
  num_expected_sounds (self w2) = Some (sac_num_sounds sac) /\
  forwarding_sta (self w2) = sac_forwarding_sta sac /\
  pev_mac (self w2) = src_mac eth0 /\
  state (self w2) = STATE_MATCHING.
Proof.
  intros Hparm Hstate Hdec0 Hdec Hmm Happ Hsec Hrun Hresp.
  revert Hparm. rewrite slac_parm_unfold. cbv zeta.
  destruct reset_socket as [[] | e]; [| intros [=]].
  rewrite Hdec0.
  destruct (readeth (io (world pw)) (length (rx (world pw)))
              (Some CM_SLAC_PARM_REQ)) as [data0 | e] eqn:Hread0;
    [| discriminate Hdec0].
  destruct (mm_type hp0 =? Z.lor CM_SLAC_PARM MMTYPE_REQ).
  2:{ intros [= <-]. cbn in Hstate. discriminate. }
  destruct (sendeth_parm_cnf _ _) as [[] | e]; [| intros [=]].
  intros [= <-]. cbv zeta. cbn [world].
  rewrite start_atten_charac_unfold. cbv zeta.
  cbn [io rx with_self log_read]. rewrite length_app. cbn [length].
  replace (length (rx (world pw)) + 1)%nat
    with (S (length (rx (world pw)))) by lia.
  rewrite Hdec.
  cbn [self with_self log_read application_type security_type run_id
       set_state set_forwarding_sta set_pev_mac set_run_id
       set_security_type set_application_type].
  rewrite Happ, Hsec, Hrun, Hresp, Hmm, !Z.eqb_refl.
  rewrite bool_decide_eq_true_2 by reflexivity.
  cbn. auto.
Qed.

End SlacParmProperties.

End MoreProperties.

(** * The theorems at work on the sample runs *)

(** The locals with which [cm_sounds_loop] enters its loop from [w]. *)
Lemma sounds_prologue_locals (w : World) :
  fst (sounds_prologue w) =
    Ok {| sounds_rcvd := 0;
          aag_sums := repeat 0 SLAC_GROUPS;
          time_start := time_now_ms (io w) (ticks w);
          next_frame_expected := Some CM_MNBC_SOUND_IND |}.
Proof. reflexivity. Qed.

(** C1, the claim as stated fails: the first read of the loop times out
    while the clock has not advanced since the start of the window, and
    the loop is left with the state changed from Matching to Unmatched;
    the frame that was on its way is never read. *)
Lemma sounds_read_timeout_counterexample :
  let w := timeout_world in
  let ended := cm_sounds_loop (H := sample_imports) 3 w in
  state (self w) = STATE_MATCHING /\
  readeth (io w) 1 (Some CM_MNBC_SOUND_IND) = Raise TimeoutError /\
  time_now_ms (io w) 1 - time_now_ms (io w) 0 < time_out_ms (self w) /\
  ended = Stopped (Ok ReturnFromHandler) (final ended) /\
  state (self (final ended)) = STATE_UNMATCHED /\
  length (rx (final ended)) = S (length (rx w)).
Proof. vm_compute. repeat split. Qed.

Lemma sounds_read_timeout_returns_witness :
  let w := snd (sounds_prologue timeout_world) in
  let locals :=
    {| sounds_rcvd := 0;
       aag_sums := repeat 0 SLAC_GROUPS;
       time_start := 0;
       next_frame_expected := Some CM_MNBC_SOUND_IND |} in
  sounds_while (H := sample_imports) 3 locals w =
    Stopped (Ok ReturnFromHandler)
      (with_self (set_state STATE_UNMATCHED)
         (log_read (Some CM_MNBC_SOUND_IND) (Raise TimeoutError) w)).
Proof.
  intros w locals.
  apply (sounds_read_timeout_returns (H := sample_imports) 2 locals w).
  reflexivity.
Defined.

(** C2, the claim as stated fails: the host address stored by the
    constructor is emptied by [reset], and [aag] is not a list of 58 zeros
    afterwards. *)
Lemma reset_counterexample :
  let s := reset (H := sample_imports) matching_session in
  evse_mac matching_session = sample_evse_mac /\
  evse_mac s <> evse_mac matching_session /\
  aag s <> AagList (repeat 0 58).
Proof. vm_compute. repeat split; discriminate. Qed.

(** C3, the claim as stated fails: the request names another run, the
    method raises, and the state is still Matching afterwards. *)
Lemma slac_match_other_run_counterexample :
  let w := other_run_world in
  let end_ := cm_slac_match (H := sample_imports) w in
  state (self w) = STATE_MATCHING /\
  fst end_ = Raise ValueError /\
  state (self (snd end_)) = STATE_MATCHING /\
  state (self (snd end_)) <> STATE_UNMATCHED.
Proof. vm_compute. repeat split; discriminate. Qed.

Lemma slac_match_other_run_raises_witness :
  cm_slac_match (H := sample_imports) other_run_world =
    (Raise ValueError,
     log_read (Some CM_SLAC_MATCH_REQ) (Ok (match_req_frame other_run_id))
       other_run_world).
Proof.
  eapply (slac_match_other_run_raises (H := sample_imports)
            other_run_world (match_req_frame other_run_id)).
  - reflexivity.
  - reflexivity.
  - reflexivity.
  - reflexivity.
  - vm_compute. discriminate.
Defined.

(** C4, the claim as stated fails: a sound of the session's run from
    another address ends the loop with an exception. *)
Lemma sound_from_other_mac_counterexample :
  let w := intruder_world in
  let ended := cm_sounds_loop (H := sample_imports) 3 w in
  readeth (io w) 1 (Some CM_MNBC_SOUND_IND)
    = Ok (mnbc_frame other_mac sample_run_id 9) /\
  ended = Stopped (Raise ValueError) (final ended).
Proof. vm_compute. repeat split. Qed.

Lemma sound_from_other_mac_raises_witness :
  let w := snd (sounds_prologue intruder_world) in
  let locals :=
    {| sounds_rcvd := 0;
       aag_sums := repeat 0 SLAC_GROUPS;
       time_start := 0;
       next_frame_expected := Some CM_MNBC_SOUND_IND |} in
  sounds_while (H := sample_imports) 3 locals w =
    Stopped (Raise ValueError)
      (log_read (Some CM_MNBC_SOUND_IND)
         (Ok (mnbc_frame other_mac sample_run_id 9)) w).
Proof.
  intros w locals.
  eapply (sound_from_other_mac_raises (H := sample_imports) 2 locals w
            (mnbc_frame other_mac sample_run_id 9)).
  - reflexivity.
  - reflexivity.
  - reflexivity.
  - reflexivity.
  - reflexivity.
  - reflexivity.
  - reflexivity.
  - reflexivity.
  - vm_compute. discriminate.
Defined.

(** C5, the claim as stated fails: when no confirmation arrives and the
    adapter raises, the exception leaves [evse_set_key]. *)
Lemma evse_set_key_silent_counterexample :
  let w := silent_world in
  send_recv_eth (io w) 0
    (set_key_req (self w) (sample_generate_nid (urandom (io w) 0))
       (urandom (io w) 0)) CM_SET_KEY_CNF = Raise TimeoutError /\
  fst (evse_set_key (H := sample_imports) w) = Raise TimeoutError.
Proof. vm_compute. repeat split. Qed.

Lemma evse_set_key_commit_witness :
  let w := settling_world in
  let s' := self (snd (evse_set_key (H := sample_imports) w)) in
  nmk s' = urandom (io w) 0 /\
  nid s' = sample_generate_nid (urandom (io w) 0) /\
  fst (evse_set_key (H := sample_imports) w) = Raise CancelledError.
Proof.
  exact (evse_set_key_commit (H := sample_imports) settling_world).
Defined.



(** C7, the claim as stated fails: no sound is announced, a profile is the
    first frame, and the loop is left with one sound counted, more than
    expected, one millisecond into a window of 900. *)
Lemma sounds_loop_exit_counterexample :
  let w := zero_sounds_world in
  let ended := cm_sounds_loop (H := sample_imports) 3 w in
  let w' := final ended in
  ended = Stopped (Ok ReturnAfterCheck) w' /\
  num_expected_sounds (self w') = Some 0 /\
  num_total_sounds (self w') = 1 /\
  time_out_ms (self w') = 900 /\
  time_now_ms (io w') (Nat.pred (ticks w')) - time_now_ms (io w) (ticks w)
    = 1.
Proof. vm_compute. repeat split. Qed.

Lemma sounds_loop_exit_bound_witness :
  let w' := final (cm_sounds_loop (H := sample_imports) 9 two_sounds_world) in
  num_expected_sounds (self w') = Some 2 /\
  num_total_sounds (self w') <= 2.
Proof.
  intros w'.
  split; [vm_compute; reflexivity |].
  assert (num_expected_sounds (self w') = Some 2) as Hexp
    by (vm_compute; reflexivity).
  pose proof (sounds_loop_exit_bound (H := sample_imports) 9
                two_sounds_world w' (Ok ReturnAfterCheck)) as Hbound.
  rewrite Hexp in Hbound. apply Hbound.
  - intros e He. vm_compute in He. injection He as <-. lia.
  - vm_compute. reflexivity.
Defined.

Lemma mismatched_rsp_then_matched_witness :
  let w_s := snd (cm_start_atten_charac (H := sample_imports) routine_world) in
  let w := final (cm_sounds_loop (H := sample_imports) 5 w_s) in
  let s1 := set_pev_mac sample_pev_mac
              (set_pev_id (Some (repeat 0x31 17))
                 (set_state STATE_UNMATCHED (self w))) in
  exists w1 w2,
    cm_atten_char (H := sample_imports) w = (Ok tt, w1) /\
    state (self w1) = STATE_UNMATCHED /\
    atten_charac_routine (H := sample_imports) 5 routine_world
      = Some (Ok tt, w2) /\
    state (self w2) = STATE_MATCHED /\
    tx w2 =
      tx w ++
        [{| out_dst_mac := pev_mac (self w);
            out_src_mac := evse_mac (self w);
            out_mm_type := Z.lor CM_ATTEN_CHAR MMTYPE_IND;
            out_payload :=
              PAtennChar (pev_mac (self w)) (run_id (self w))
                (num_total_sounds (self w)) (num_groups (self w))
                (aag (self w)) |};
         {| out_dst_mac := mr_pev_mac req_same_run;
            out_src_mac := evse_mac (self w);
            out_mm_type := Z.lor CM_SLAC_MATCH MMTYPE_CNF;
            out_payload :=
              PMatchCnf (mr_pev_mac req_same_run) (evse_mac (self w))
                (run_id (self w)) (nid (self w)) (nmk (self w)) |}].
Proof.
  intros w_s w s1.
  apply (mismatched_rsp_then_matched (H := sample_imports) 5 routine_world
           w_s w ReturnAfterCheck
           (atten_rsp_frame other_run_id 0) (match_req_frame sample_run_id)
           rsp_eth rsp_eth rsp_hp req_hp rsp_other_run req_same_run);
    try (vm_compute; reflexivity).
  vm_compute. discriminate.
Defined.

Lemma sounds_loop_foreign_frames_forever_witness :
  exists w',
    cm_sounds_loop (H := sample_imports) 7 flooded_world = Running w' /\
    length (rx w') = 7%nat /\
    ticks w' = 1%nat /\
    self w' = set_num_total_sounds 0
                (set_aag (AagList (repeat 0 SLAC_GROUPS))
                   (self flooded_world)).
Proof.
  apply (sounds_loop_foreign_frames_forever (H := sample_imports) 7
           flooded_world).
  intros n size _.
  exists foreign_frame; eexists; eexists.
  split; [reflexivity |]. split; [reflexivity |]. split; reflexivity.
Defined.


(** * The further properties at work on the sample runs *)

Lemma start_atten_charac_cases_witness :
  let w := announcing_world in
  let w1 := log_read (Some CM_START_ATTEN_CHAR_IND)
              (Ok (start_atten_frame 10)) w in
  cm_start_atten_charac (H := sample_imports) w =
    (Ok tt,
     with_self
       (fun s =>
          set_forwarding_sta sample_pev_mac
            (set_time_out_ms 900 (set_num_expected_sounds (Some 10) s)))
       w1).
Proof.
  intros w w1.
  apply (proj1 (start_atten_charac_cases (H := sample_imports) w)).
  vm_compute. repeat split.
Defined.

Lemma start_atten_charac_accepts_witness :
  let w := announcing_world in
  let w' := snd (cm_start_atten_charac (H := sample_imports) w) in
  fst (cm_start_atten_charac (H := sample_imports) w) = Ok tt /\
  num_expected_sounds (self w') = Some (sac_num_sounds start_ten) /\
  time_out_ms (self w') = 900 /\
  forwarding_sta (self w') = sac_forwarding_sta start_ten /\
  state (self w') = state (self w) /\
  tx w' = tx w.
Proof.
  intros w.
  apply (start_atten_charac_accepts (H := sample_imports) w
           (start_atten_frame 10) rsp_eth start_hp start_ten);
    vm_compute; reflexivity.
Defined.

Lemma profile_with_too_many_groups_raises_witness :
  process_sound_frame (H := sample_imports) profile_hp modem_eth
    (profile_frame sample_pev_mac 60 10) 0 (repeat 0 SLAC_GROUPS)
    announcing_world
  = (Raise IndexError, announcing_world).
Proof.
  apply (profile_with_too_many_groups_raises (H := sample_imports)
           profile_hp modem_eth (profile_frame sample_pev_mac 60 10) 0
           (repeat 0 SLAC_GROUPS) announcing_world (profile_view 60 10)).
  - vm_compute; reflexivity.
  - vm_compute; reflexivity.
  - vm_compute; reflexivity.
  - left. vm_compute. lia.
Defined.

Lemma sound_of_sample (cnt : Z) :
  sound_of (H := sample_imports) sample_run_id sample_pev_mac
    (mnbc_frame sample_pev_mac sample_run_id cnt).
Proof.
  exists rsp_eth, sound_hp, (sound_view cnt).
  repeat split.
Qed.

Lemma profile_of_sample (level : Z) :
  profile_of (H := sample_imports) sample_pev_mac
    (profile_frame sample_pev_mac 58 level) (profile_view 58 level).
Proof.
  exists modem_eth, profile_hp.
  split_and!; reflexivity.
Qed.

Lemma sound_with_unset_expected_raises_witness :
  let w := unannounced_world 0 in
  sounds_while (H := sample_imports) 1 first_locals w =
    Stopped (Raise TypeError)
      (tick (log_read (next_frame_expected first_locals)
               (Ok (mnbc_frame sample_pev_mac sample_run_id 0)) w)).
Proof.
  intros w.
  apply (sound_with_unset_expected_raises (H := sample_imports) 0
           first_locals w (mnbc_frame sample_pev_mac sample_run_id 0)).
  - reflexivity.
  - apply sound_of_sample.
  - reflexivity.
  - vm_compute. reflexivity.
Defined.

Lemma sound_after_expiry_returns_witness :
  let w := with_self (set_num_total_sounds 1) (unannounced_world 6) in
  let locals :=
    {| sounds_rcvd := 0; aag_sums := repeat 10 SLAC_GROUPS; time_start := 0;
       next_frame_expected := Some CM_MNBC_SOUND_IND |} in
  let w1 := tick (log_read (Some CM_MNBC_SOUND_IND)
                    (Ok (mnbc_frame sample_pev_mac sample_run_id 0)) w) in
  sounds_while (H := sample_imports) 1 locals w =
    Stopped (Ok ReturnAfterCheck)
      (with_self (set_aag (AagList (repeat 10 SLAC_GROUPS))) w1).
Proof.
  intros w locals w1.
  refine (eq_trans
            (sound_after_expiry_returns (H := sample_imports) 0 locals w
               (mnbc_frame sample_pev_mac sample_run_id 0)
               (repeat 0 SLAC_GROUPS) _ _ _ _ _ _) _).
  - reflexivity.
  - apply sound_of_sample.
  - vm_compute. discriminate.
  - reflexivity.
  - reflexivity.
  - reflexivity.
  - vm_compute. reflexivity.
Defined.

Lemma sounds_loop_all_sounds_received_witness :
  exists w',
    cm_sounds_loop (H := sample_imports) 4 two_sounds_world
      = Stopped (Ok ReturnAfterCheck) w' /\
    num_total_sounds (self w') = Z.of_nat 2 /\
    length (rx w') = (length (rx two_sounds_world) + 2 * 2)%nat.
Proof.
  apply (sounds_loop_all_sounds_received (H := sample_imports) 2 4
           two_sounds_world).
  - lia.
  - lia.
  - vm_compute. reflexivity.
  - intros [| [| i]] Hi; [| | lia].
    + exists (mnbc_frame sample_pev_mac sample_run_id 1).
      split; [vm_compute; reflexivity | apply sound_of_sample].
    + exists (mnbc_frame sample_pev_mac sample_run_id 0).
      split; [vm_compute; reflexivity | apply sound_of_sample].
  - intros [| [| i]] Hi; [| | lia].
    + exists (profile_frame sample_pev_mac 58 10), (profile_view 58 10).
      split; [vm_compute; reflexivity | apply profile_of_sample].
    + exists (profile_frame sample_pev_mac 58 13), (profile_view 58 13).
      split; [vm_compute; reflexivity | apply profile_of_sample].
  - intros [| [| [| [| j]]]] Hj; try lia; vm_compute; reflexivity.
Defined.

Lemma atten_char_verdict_witness :
  let w := rsp_world in
  let w1 := log_read (Some CM_ATTEN_CHAR_RSP)
              (Ok (atten_rsp_frame other_run_id 0))
              (log_send (atten_char_ind (self w)) w) in
  cm_atten_char (H := sample_imports) w =
    (Ok tt,
     if (ether_type rsp_eth =? ETH_TYPE_HPAV) && (mmv rsp_hp =? HOMEPLUG_MMV)
        && bool_decide (run_id (self w) = acr_run_id rsp_other_run)
        && (acr_result rsp_other_run =? 0)
     then w1
     else with_self (set_state STATE_UNMATCHED) w1).
Proof.
  intros w.
  apply (atten_char_verdict (H := sample_imports) w
           (atten_rsp_frame other_run_id 0) rsp_eth rsp_hp rsp_other_run);
    vm_compute; reflexivity.
Defined.

Lemma slac_match_matched_needs_cnf_witness :
  let w := requesting_world in
  let w' := snd (cm_slac_match (H := sample_imports) w) in
  fst (cm_slac_match (H := sample_imports) w) = Ok tt /\
  (exists eth hp req,
     decoded (H := sample_imports)
       (readeth (io w) (length (rx w)) (Some CM_SLAC_MATCH_REQ))
       wire_MatchReq = Ok (eth, hp, req) /\
     mm_type hp = Z.lor CM_SLAC_MATCH MMTYPE_REQ /\
     mr_run_id req = run_id (self w) /\
     pev_mac (self w') = mr_pev_mac req /\
     pev_id (self w') = Some (mr_pev_id req)) /\
  tx w' = tx w ++ [slac_match_cnf (self w')] /\
  out_dst_mac (slac_match_cnf (self w')) = pev_mac (self w') /\
  out_payload (slac_match_cnf (self w')) =
    PMatchCnf (pev_mac (self w')) (evse_mac (self w)) (run_id (self w))
      (nid (self w)) (nmk (self w)).
Proof.
  intros w.
  apply (slac_match_matched_needs_cnf (H := sample_imports) w).
  - vm_compute. discriminate.
  - vm_compute. reflexivity.
Defined.

Lemma slac_match_send_raises_witness :
  let w := mute_world in
  let w' := snd (cm_slac_match (H := sample_imports) w) in
  fst (cm_slac_match (H := sample_imports) w) = Raise OSError /\
  pev_id (self w') = Some (mr_pev_id req_same_run) /\
  pev_mac (self w') = mr_pev_mac req_same_run /\
  state (self w') = state (self w) /\
  tx w' = tx w.
Proof.
  intros w.
  apply (slac_match_send_raises (H := sample_imports) w rsp_eth req_hp
           req_same_run OSError); vm_compute; reflexivity.
Defined.

Lemma key_pair_stays_consistent_witness :
  let w := confirming_world in
  let s1 := self (snd (evse_set_key (H := sample_imports) w)) in
  let s2 := self (snd (leave_logical_network (H := sample_imports) w)) in
  nid s1 = sample_generate_nid (nmk s1) /\
  nid s2 = sample_generate_nid (nmk s2).
Proof.
  intros w.
  apply (key_pair_stays_consistent (H := sample_imports) w).
  vm_compute. reflexivity.
Defined.

Lemma set_key_after_leave_has_no_source_witness :
  let w := confirming_world in
  let w1 := snd (leave_logical_network (H := sample_imports) w) in
  exists frame,
    tx (snd (evse_set_key (H := sample_imports) w1)) = tx w1 ++ [frame] /\
    out_src_mac frame = [] /\
    out_dst_mac frame = evse_plc_mac (self w) /\
    out_mm_type frame = Z.lor CM_SET_KEY MMTYPE_REQ.
Proof.
  intros w w1.
  apply (set_key_after_leave_has_no_source (H := sample_imports) w w1).
  vm_compute. reflexivity.
Defined.

Lemma routine_on_silent_link_witness :
  let w := unplugged_world in
  exists w',
    atten_charac_routine (H := sample_imports) 1 w = Some (Ok tt, w') /\
    state (self w') = STATE_UNMATCHED /\
    fst <$> rx w' =
      (fst <$> rx w) ++ [Some CM_START_ATTEN_CHAR_IND; Some CM_MNBC_SOUND_IND;
                         Some CM_ATTEN_CHAR_RSP; Some CM_SLAC_MATCH_REQ] /\
    tx w' =
      tx w ++ [atten_char_ind
                 (set_num_total_sounds 0
                    (set_aag (AagList (repeat 0 SLAC_GROUPS)) (self w)))] /\
    ticks w' = S (ticks w).
Proof.
  intros w.
  apply (routine_on_silent_link (H := sample_imports) 0 w).
  - intros n size _. exists TimeoutError.
    split; [destruct n; reflexivity | reflexivity].
  - intros frame. reflexivity.
Defined.

Lemma reset_keeps_only_keys_witness :
  let s := matching_session in
  let s' := set_state STATE_MATCHED (set_pev_mac other_mac matching_session) in
  reset (H := sample_imports) s = reset (H := sample_imports) s' /\
  reset (H := sample_imports) (reset (H := sample_imports) s)
    = reset (H := sample_imports) s.
Proof.
  intros s s'.
  apply (reset_keeps_only_keys (H := sample_imports) s s'); reflexivity.
Defined.

Lemma link_status_verdict_witness :
  let w := unplugged_world in
  let modem := fun (_ : nat) (_ : bytes) (_ : FramesSizes) =>
                 Ok link_status_cnf_frame in
  exists verdict : bool,
    is_link_status_active wire_pack_ethernet modem w =
      (Ok verdict,
       log_read (Some LINK_STATUS_CNF) (Ok link_status_cnf_frame) w) /\
    (verdict = true <->
     link_status_cnf_frame !! 15%nat = Some 0xB9 /\
     link_status_cnf_frame !! 16%nat = Some 0xA0).
Proof.
  intros w modem.
  apply (link_status_verdict wire_pack_ethernet modem w
           link_status_cnf_frame).
  - reflexivity.
  - cbv [link_status_cnf_frame sample_evse_mac app repeat].
    repeat (constructor; [lia |]). constructor.
Defined.


Lemma slac_parm_read_raises_witness :
  let pw := broken_parm_world in
  let pw' := snd (evse_slac_parm (H := sample_imports) wire_SlacParmReq
                    (Ok tt) (fun _ _ => Ok tt) pw) in
  parm_cnf_sent pw' = parm_cnf_sent pw /\
  tx (world pw') = tx (world pw) /\
  if is_TimeoutError OSError
  then fst (evse_slac_parm (H := sample_imports) wire_SlacParmReq
              (Ok tt) (fun _ _ => Ok tt) pw) = Ok tt /\
       self (world pw') = set_state STATE_UNMATCHED (self (world pw))
  else fst (evse_slac_parm (H := sample_imports) wire_SlacParmReq
              (Ok tt) (fun _ _ => Ok tt) pw) = Raise OSError /\
       self (world pw') = self (world pw).
Proof.
  intros pw.
  apply (slac_parm_read_raises (H := sample_imports) wire_SlacParmReq
           (Ok tt) (fun _ _ => Ok tt) pw OSError); reflexivity.
Defined.

Lemma start_atten_charac_after_parm_witness :
  let pw1 := snd (evse_slac_parm (H := sample_imports) wire_SlacParmReq
                    (Ok tt) (fun _ _ => Ok tt) parm_world) in
  let w2 := snd (cm_start_atten_charac (H := sample_imports) (world pw1)) in
  fst (cm_start_atten_charac (H := sample_imports) (world pw1)) = Ok tt /\
  num_expected_sounds (self w2) = Some (sac_num_sounds start_ten) /\
  forwarding_sta (self w2) = sac_forwarding_sta start_ten /\
  pev_mac (self w2) = src_mac rsp_eth /\
  state (self w2) = STATE_MATCHING.
Proof.
  intros pw1.
  apply (start_atten_charac_after_parm (H := sample_imports)
           wire_SlacParmReq (Ok tt) (fun _ _ => Ok tt) parm_world pw1
           rsp_eth parm_hp parm_view rsp_eth start_hp start_ten);
    vm_compute; reflexivity.
Defined.
